(** * TaskManagerServer: a shallow embedding of src/server/TaskManagerServer.ts

    The development follows the class member by member.  The manager owns an
    in-memory snapshot [data], two identifier counters and a backing file.
    Every public operation is a function from the manager's state to a new
    state and an outcome: either the object the method returns, or the
    exception a failed write raises. *)

From Stdlib Require Import String Ascii List ZArith Bool Lia Sorted Permutation.
Import ListNotations.

Local Open Scope string_scope.
Local Open Scope list_scope.
Local Open Scope Z_scope.

(* ------------------------------------------------------------------ *)
(** ** The JavaScript primitives the server relies on

    A string of the model is the UTF-8 text of the JavaScript string (the
    encoding the file is read and written in).  Equality, the search for
    an ASCII pattern and the decimal digits read by [parseInt] are the same
    on the bytes as on the code units.  Where the source counts UTF-16
    code units ([length], [substring]) the units are recovered from the
    bytes: a character of one, two or three bytes is one unit, a character
    of four bytes is a surrogate pair.  A number of the model is an
    integer-valued double or an infinity: the only numbers the counters
    can hold. *)

Module JS.

(** [s.substring(n)] on the remainder of a string. *)
Fixpoint drop (n : nat) (s : string) : string :=
  match n, s with
  | O, _ => s
  | S _, EmptyString => EmptyString
  | S k, String _ r => drop k r
  end.

(** [s.replace(pat, "")] with a string pattern: only the first occurrence
    of [pat] is removed. *)
Fixpoint replace_first (pat s : string) : string :=
  if String.prefix pat s then drop (String.length pat) s
  else match s with
       | EmptyString => EmptyString
       | String c r => String c (replace_first pat r)
       end.

(** The text starts with the two bytes [a], [b]. *)
Definition starts2 (a b : nat) (s : string) : bool :=
  match s with
  | String x (String y _) =>
      (Nat.eqb (nat_of_ascii x) a && Nat.eqb (nat_of_ascii y) b)%bool
  | _ => false
  end.

(** Length in bytes of the white space character (StrWhiteSpaceChar: the
    code points of WhiteSpace and LineTerminator) at the head of a text,
    [0] when the text starts with none:
    U+0009..U+000D and U+0020 (one byte); U+00A0 (C2 A0);
    U+1680 (E1 9A 80); U+2000..U+200A, U+2028, U+2029, U+202F
    (E2 80 80..8A, A8, A9, AF); U+205F (E2 81 9F); U+3000 (E3 80 80);
    U+FEFF (EF BB BF). *)
Definition ws_length (s : string) : nat :=
  match s with
  | EmptyString => 0
  | String c r =>
      let n := nat_of_ascii c in
      if (Nat.eqb n 32 || (Nat.leb 9 n && Nat.leb n 13))%bool then 1
      else if Nat.eqb n 194 then
        match r with
        | String y _ => if Nat.eqb (nat_of_ascii y) 160 then 2 else 0
        | EmptyString => 0
        end
      else if Nat.eqb n 225 then (if starts2 154 128 r then 3 else 0)
      else if Nat.eqb n 226 then
        match r with
        | String y (String z _) =>
            let a := nat_of_ascii y in
            let b := nat_of_ascii z in
            if Nat.eqb a 128
            then (if ((Nat.leb 128 b && Nat.leb b 138) || Nat.eqb b 168
                      || Nat.eqb b 169 || Nat.eqb b 175)%bool then 3 else 0)
            else if Nat.eqb a 129 then (if Nat.eqb b 159 then 3 else 0)
            else 0
        | _ => 0
        end
      else if Nat.eqb n 227 then (if starts2 128 128 r then 3 else 0)
      else if Nat.eqb n 239 then (if starts2 187 191 r then 3 else 0)
      else 0
  end.

(** Leading white space removed, as [parseInt] does first. *)
Fixpoint skip_ws_fuel (fuel : nat) (s : string) : string :=
  match fuel with
  | O => s
  | S f =>
      match ws_length s with
      | O => s
      | n => skip_ws_fuel f (drop n s)
      end
  end.

Definition skip_ws (s : string) : string := skip_ws_fuel (String.length s) s.

Definition digit_val (c : ascii) : option Z :=
  let n := nat_of_ascii c in
  if (Nat.leb 48 n && Nat.leb n 57)%bool then Some (Z.of_nat (n - 48)) else None.

(** The longest prefix of decimal digits, read left to right; [seen] tells
    whether a digit has been consumed ([NaN], here [None], otherwise). *)
Fixpoint digits_acc (s : string) (acc : Z) (seen : bool) : option Z :=
  match s with
  | String c r =>
      match digit_val c with
      | Some d => digits_acc r (10 * acc + d) true
      | None => if seen then Some acc else None
      end
  | EmptyString => if seen then Some acc else None
  end.

(** The mathematical integer [parseInt(s, 10)] reads: white space, an
    optional sign, then the longest run of digits; [None] when there is no
    digit ([NaN]). *)
Definition parse_integer (s : string) : option Z :=
  match skip_ws s with
  | String c r =>
      if Ascii.eqb c "-" then option_map Z.opp (digits_acc r 0 false)
      else if Ascii.eqb c "+" then digits_acc r 0 false
      else digits_acc (String c r) 0 false
  | EmptyString => None
  end.

(** The numbers a counter can hold: an integer-valued double or an
    infinity.  ([NaN] never reaches a counter, and [-0] behaves as [0]
    wherever the server uses it.) *)
Inductive number :=
| Fin (z : Z)
| PosInf
| NegInf.

(** The double nearest to the positive integer [x], ties to the even
    significand; [None] when the result overflows.  Integers below 2^53
    are doubles themselves. *)
Definition round_pos (x : Z) : option Z :=
  if (x <? 2 ^ 53)%Z then Some x
  else
    let e := Z.log2 x - 52 in
    let m := x / 2 ^ e in
    let r := x mod 2 ^ e in
    let half := 2 ^ (e - 1) in
    let m' := if (r <? half)%Z then m
              else if (half <? r)%Z then m + 1
              else if Z.even m then m else m + 1 in
    let v := m' * 2 ^ e in
    if (v <? 2 ^ 1024)%Z then Some v else None.

(** The Number value for a mathematical integer. *)
Definition round_int (z : Z) : number :=
  if (z <? 0)%Z
  then match round_pos (- z) with Some v => Fin (- v) | None => NegInf end
  else match round_pos z with Some v => Fin v | None => PosInf end.

(** [Number.parseInt(s, 10)]; [None] is [NaN].  The integer read is
    rounded to the nearest double.  (Beyond 20 significant digits the
    standard lets an engine replace later digits by zeros; the model
    rounds the exact integer.) *)
Definition parseInt (s : string) : option number :=
  option_map round_int (parse_integer s).

(** [x + 1], as in [counter += 1]. *)
Definition add1 (x : number) : number :=
  match x with
  | Fin z => round_int (z + 1)
  | PosInf => PosInf
  | NegInf => NegInf
  end.

(** [Math.max(a, b)] *)
Definition max (a b : number) : number :=
  match a, b with
  | PosInf, _ | _, PosInf => PosInf
  | NegInf, y => y
  | x, NegInf => x
  | Fin x, Fin y => Fin (Z.max x y)
  end.

Definition leb (a b : number) : bool :=
  match a, b with
  | NegInf, _ | _, PosInf => true
  | Fin x, Fin y => (x <=? y)%Z
  | _, _ => false
  end.

Definition digit_char (d : Z) : ascii := ascii_of_nat (48 + Z.to_nat d).

(** Decimal digits of a non-negative integer, most significant first,
    pushed in front of [rest]. *)
Fixpoint show_digits (fuel : nat) (n : Z) (rest : string) : string :=
  match fuel with
  | O => rest
  | S f =>
      let rest' := String (digit_char (n mod 10)) rest in
      if (n <? 10)%Z then rest' else show_digits f (n / 10) rest'
  end.

Definition show_nonneg (n : Z) : string :=
  show_digits (S (Z.to_nat (Z.log2 n))) n EmptyString.

(** An integer written in decimal. *)
Definition showZ (n : Z) : string :=
  if (n <? 0)%Z then String "-" (show_nonneg (- n)) else show_nonneg n.

(** Among the multiples of [p] next to the double [x], one that rounds to
    [x]: the nearer one when both do (the even multiple on a tie). *)
Definition pick (x p : Z) : option Z :=
  let lo := (x / p) * p in
  let hi := lo + p in
  let rounds_to_x v :=
    match round_pos v with Some w => (w =? x)%Z | None => false end in
  match ((0 <? lo)%Z && rounds_to_x lo)%bool, rounds_to_x hi with
  | true, true =>
      Some (if (x - lo <? hi - x)%Z then lo
            else if (hi - x <? x - lo)%Z then hi
            else if Z.even (lo / p) then lo else hi)
  | true, false => Some lo
  | false, true => Some hi
  | false, false => None
  end.

(** The integer with the fewest significant digits that rounds to the
    double [x]: multiples of 10^j are tried for j = [j], [j] - 1, ... *)
Fixpoint shortest (j : nat) (x : Z) : Z :=
  match j with
  | O => x
  | S j' =>
      match pick x (10 ^ Z.of_nat j) with
      | Some v => v
      | None => shortest j' x
      end
  end.

Fixpoint strip_zeros (s : string) : string :=
  match s with
  | EmptyString => EmptyString
  | String c r =>
      match strip_zeros r with
      | EmptyString => if Ascii.eqb c "0" then EmptyString else String c EmptyString
      | r' => String c r'
      end
  end.

(** [d.ddde+N] for the digits [ds] of an integer of more than 21 digits. *)
Definition exponent_form (ds : string) : string :=
  let e := showZ (Z.of_nat (String.length ds - 1)) in
  match strip_zeros ds with
  | String c EmptyString => String c ("e+" ++ e)
  | String c r => String c ("." ++ r ++ "e+" ++ e)
  | EmptyString => ds
  end.

(** The text of a positive integer-valued double.  Below 2^53 every
    integer is its own shortest decimal. *)
Definition show_pos (x : Z) : string :=
  if (x <? 2 ^ 53)%Z then show_nonneg x
  else
    let ds := show_nonneg (shortest (String.length (show_nonneg x) - 1) x) in
    if Nat.leb (String.length ds) 21 then ds else exponent_form ds.

(** The text a template literal [`${x}`] gives for a number
    (Number::toString). *)
Definition toString (x : number) : string :=
  match x with
  | Fin z => if (z <? 0)%Z then String "-" (show_pos (- z)) else show_pos z
  | PosInf => "Infinity"
  | NegInf => "-Infinity"
  end.

(** UTF-16 code units a byte of UTF-8 text stands for: the first byte of
    a character counts for the character (two units when it starts a
    character of four bytes), a continuation byte for nothing. *)
Definition units (c : ascii) : nat :=
  let n := nat_of_ascii c in
  if Nat.ltb n 128 then 1%nat
  else if Nat.ltb n 192 then 0%nat
  else if Nat.ltb n 240 then 1%nat
  else 2%nat.

(** [s.length] *)
Fixpoint length16 (s : string) : nat :=
  match s with
  | EmptyString => 0
  | String c r => (units c + length16 r)%nat
  end.

(** The first half of the surrogate pair of the four-byte character at
    the head of [s], which [substring] leaves behind when it cuts the
    pair.  UTF-8 has no text for half a pair; the model writes the three
    bytes of its generalized form (ED A0..AF 80..BF). *)
Definition high_surrogate (s : string) : string :=
  match s with
  | String b0 (String b1 (String b2 (String b3 _))) =>
      let byte x := Z.of_nat (nat_of_ascii x) in
      let cp := (byte b0 mod 8) * 262144 + (byte b1 mod 64) * 4096
                + (byte b2 mod 64) * 64 + byte b3 mod 64 in
      let hi := 55296 + (cp - 65536) / 1024 in
      String (ascii_of_nat 237)
        (String (ascii_of_nat (Z.to_nat (128 + (hi / 64) mod 64)))
           (String (ascii_of_nat (Z.to_nat (128 + hi mod 64))) EmptyString))
  | _ => EmptyString
  end.

(** [s.substring(0, k)]: the first [k] code units. *)
Fixpoint take16 (k : nat) (s : string) : string :=
  match s with
  | EmptyString => EmptyString
  | String c r =>
      match units c, k with
      | O, _ => String c (take16 k r)
      | _, O => EmptyString
      | S O, S k' => String c (take16 k' r)
      | _, S O => high_surrogate s
      | _, S (S k'') => String c (take16 k'' r)
      end
  end.

(** Truthiness of an optional string argument: [undefined] and [""] are
    falsy. *)
Definition truthy (o : option string) : bool :=
  match o with
  | Some s => negb (String.eqb s "")
  | None => false
  end.

(** [a || b] on an optional string with a string default. *)
Definition or_else (o : option string) (d : string) : string :=
  match o with
  | Some s => if String.eqb s "" then d else s
  | None => d
  end.

(** [xs.join(sep)] *)
Fixpoint join (sep : string) (xs : list string) : string :=
  match xs with
  | [] => ""
  | [x] => x
  | x :: r => x ++ sep ++ join sep r
  end.

(** [xs.find(p)] is [List.find]; [xs.findIndex(p)] followed by an in-place
    change of the element found is [update_first]; followed by
    [splice(i, 1)] it is [remove_first]. *)
Fixpoint update_first {A} (p : A -> bool) (f : A -> A) (l : list A) : list A :=
  match l with
  | [] => []
  | x :: r => if p x then f x :: r else x :: update_first p f r
  end.

Fixpoint remove_first {A} (p : A -> bool) (l : list A) : list A :=
  match l with
  | [] => []
  | x :: r => if p x then r else x :: remove_first p r
  end.

(** [xs.length > 0 ? Math.max(...xs) : 0] (the engine's limit on the
    number of spread arguments is not modelled) *)
Definition max_or_zero (xs : list number) : number :=
  match xs with
  | [] => Fin 0
  | x :: r => fold_left max r x
  end.

End JS.

(* ------------------------------------------------------------------ *)
(** ** Data model (types/index.ts as the server uses it) *)

Inductive Status := NotStarted | InProgress | Done.

Definition Status_eqb (a b : Status) : bool :=
  match a, b with
  | NotStarted, NotStarted | InProgress, InProgress | Done, Done => true
  | _, _ => false
  end.

Definition status_text (st : Status) : string :=
  match st with
  | NotStarted => "not started"
  | InProgress => "in progress"
  | Done => "done"
  end.

Record Task := mkTask {
  id : string;
  title : string;
  description : string;
  status : Status;
  approved : bool;
  completedDetails : string
}.

(** Modelled from the spec: the [Project] type declaration (types/index.ts)
    is not part of the sources at hand; the spec lists an optional
    [autoApprove] flag next to the five fields the server writes, so the
    record carries it as an optional field ([None] when the property is
    absent from the object). *)
Record Project := mkProject {
  projectId : string;
  initialPrompt : string;
  projectPlan : string;
  tasks : list Task;
  completed : bool;
  autoApprove : option bool
}.

Record TaskManagerFile := mkFile { projects : list Project }.

(** The backing file: its parsed content ([None] when the file is absent or
    does not parse) and whether the medium accepts writes. *)
Record Disk := mkDisk {
  file : option TaskManagerFile;
  writable : bool
}.

Record TaskManagerServer := mkServer {
  projectCounter : JS.number;
  taskCounter : JS.number;
  data : TaskManagerFile;
  disk : Disk
}.

(** A task definition as passed to [createProject] / [addTasksToProject]. *)
Record TaskDef := mkTaskDef {
  defTitle : string;
  defDescription : string
}.

(** The objects the methods return, one constructor per [status] tag.  The
    progress tables appended to the success messages are presentation only
    and are left out; error messages are kept verbatim. *)
Inductive Response :=
| Error (message : string)
| Planned (pid : string) (totalTasks : nat) (created : list (string * string * string))
| AlreadyCompleted
| AllTasksDone
| NoNextTask
| NextTask (tid ttitle tdescription : string)
| AlreadyDone
| TaskMarkedDone (pid tid ttitle tdescription tdetails : string) (tapproved : bool)
| AlreadyApproved
| TaskApproved (pid tid ttitle tdescription tdetails : string) (tapproved : bool)
| ProjectApprovedComplete (pid : string)
| TaskDetails (pid prompt plan : string) (pcompleted : bool) (t : Task)
| TaskNotFound
| ProjectsListed (rows : list (string * string * nat * nat * nat))
| TasksAdded (created : list (string * string * string))
| TaskUpdated (tid ttitle tdescription : string)
| TaskUpdatedFull (t : Task)
| TaskDeleted
| ProjectDeleted.

(** What a call does: it returns an object, or the write fails and the
    exception of [saveTasks] propagates to the caller.  [Quiet] is the
    outcome of an event that returns nothing to a caller (a bare reload, a
    change of the medium). *)
Inductive Outcome :=
| Returned (r : Response)
| Thrown
| Quiet.

(* ------------------------------------------------------------------ *)
(** ** Persistence: [loadTasks] and [saveTasks] *)

Definition numeric_suffix (pre ident : string) : option JS.number :=
  JS.parseInt (JS.replace_first pre ident).

(** The numbers pushed on [allProjectIds] / [allTaskIds], in scan order;
    identifiers whose suffix is [NaN] are skipped. *)
Fixpoint collect_numbers (pre : string) (ids : list string) : list JS.number :=
  match ids with
  | [] => []
  | i :: r =>
      match numeric_suffix pre i with
      | Some n => n :: collect_numbers pre r
      | None => collect_numbers pre r
      end
  end.

Definition allProjectIds (d : TaskManagerFile) : list JS.number :=
  collect_numbers "proj-" (map projectId (projects d)).

Definition allTaskIds (d : TaskManagerFile) : list JS.number :=
  collect_numbers "task-" (map id (flat_map tasks (projects d))).

(** A readable file replaces the snapshot and both counters; the [catch]
    branch only resets the snapshot and leaves the counters as they were. *)
Definition loadTasks (s : TaskManagerServer) : TaskManagerServer :=
  match file (disk s) with
  | Some d =>
      mkServer (JS.max_or_zero (allProjectIds d)) (JS.max_or_zero (allTaskIds d))
               d (disk s)
  | None =>
      mkServer (projectCounter s) (taskCounter s) (mkFile []) (disk s)
  end.

(** [None] when the write throws: the snapshot in memory keeps the change,
    the file keeps its old content. *)
Definition saveTasks (s : TaskManagerServer) : option TaskManagerServer :=
  if writable (disk s)
  then Some (mkServer (projectCounter s) (taskCounter s) (data s)
                      (mkDisk (Some (data s)) true))
  else None.

(** The tail shared by every mutating method: save, then return [r]. *)
Definition save_and_return (s : TaskManagerServer) (r : Response)
  : TaskManagerServer * Outcome :=
  match saveTasks s with
  | Some s' => (s', Returned r)
  | None => (s, Thrown)
  end.

Definition with_data (s : TaskManagerServer) (d : TaskManagerFile) : TaskManagerServer :=
  mkServer (projectCounter s) (taskCounter s) d (disk s).

(* ------------------------------------------------------------------ *)
(** ** Look-ups and in-place updates *)

Definition is_project (pid : string) (p : Project) : bool := String.eqb (projectId p) pid.
Definition is_task (tid : string) (t : Task) : bool := String.eqb (id t) tid.

Definition find_project (pid : string) (d : TaskManagerFile) : option Project :=
  find (is_project pid) (projects d).

Definition find_task (tid : string) (p : Project) : option Task :=
  find (is_task tid) (tasks p).

Definition set_tasks (ts : list Task) (p : Project) : Project :=
  mkProject (projectId p) (initialPrompt p) (projectPlan p) ts (completed p) (autoApprove p).

Definition set_completed (b : bool) (p : Project) : Project :=
  mkProject (projectId p) (initialPrompt p) (projectPlan p) (tasks p) b (autoApprove p).

(** Assignment through the references [proj] and [task] obtained with
    [find]: the first project named [pid], and in it the first task named
    [tid], is the object that changes. *)
Definition update_project (pid : string) (f : Project -> Project) (d : TaskManagerFile)
  : TaskManagerFile :=
  mkFile (JS.update_first (is_project pid) f (projects d)).

Definition update_task (pid tid : string) (f : Task -> Task) (d : TaskManagerFile)
  : TaskManagerFile :=
  update_project pid
    (fun p => set_tasks (JS.update_first (is_task tid) f (tasks p)) p) d.

Definition set_status (st : Status) (t : Task) : Task :=
  mkTask (id t) (title t) (description t) st (approved t) (completedDetails t).
Definition set_approved (b : bool) (t : Task) : Task :=
  mkTask (id t) (title t) (description t) (status t) b (completedDetails t).
Definition set_completedDetails (c : string) (t : Task) : Task :=
  mkTask (id t) (title t) (description t) (status t) (approved t) c.
Definition set_title (x : string) (t : Task) : Task :=
  mkTask (id t) x (description t) (status t) (approved t) (completedDetails t).
Definition set_description (x : string) (t : Task) : Task :=
  mkTask (id t) (title t) x (status t) (approved t) (completedDetails t).

Definition is_done (t : Task) : bool := Status_eqb (status t) Done.

Definition brief (t : Task) : string * string * string :=
  (id t, title t, description t).

(* ------------------------------------------------------------------ *)
(** ** Identifier allocation *)

(** The loop [for (const taskDef of tasks) { this.taskCounter += 1; ... }]:
    the tasks built from the counter value [c] on entry. *)
Fixpoint newTasks (c : JS.number) (defs : list TaskDef) : list Task :=
  match defs with
  | [] => []
  | d :: r =>
      mkTask ("task-" ++ JS.toString (JS.add1 c))%string (defTitle d) (defDescription d)
             NotStarted false ""
      :: newTasks (JS.add1 c) r
  end.

(** The counter when the loop is left. *)
Fixpoint bump (c : JS.number) (defs : list TaskDef) : JS.number :=
  match defs with
  | [] => c
  | _ :: r => bump (JS.add1 c) r
  end.

(* ------------------------------------------------------------------ *)
(** ** Public operations *)

Definition createProject (prompt : string) (defs : list TaskDef)
    (plan : option string) (s : TaskManagerServer) : TaskManagerServer * Outcome :=
  let s1 := loadTasks s in
  let pc := JS.add1 (projectCounter s1) in
  let pid := ("proj-" ++ JS.toString pc)%string in
  let nt := newTasks (taskCounter s1) defs in
  let p := mkProject pid prompt (JS.or_else plan prompt) nt false None in
  let s2 := mkServer pc (bump (taskCounter s1) defs)
                     (mkFile (projects (data s1) ++ [p])) (disk s1) in
  save_and_return s2 (Planned pid (length nt) (map brief nt)).

Definition getNextTask (pid : string) (s : TaskManagerServer)
  : TaskManagerServer * Outcome :=
  let s1 := loadTasks s in
  match find_project pid (data s1) with
  | None => (s1, Returned (Error "Project not found"))
  | Some proj =>
      if completed proj then (s1, Returned AlreadyCompleted)
      else
        match find (fun t => negb (is_done t)) (tasks proj) with
        | None =>
            if (forallb is_done (tasks proj) && negb (completed proj))%bool
            then (s1, Returned AllTasksDone)
            else (s1, Returned NoNextTask)
        | Some t => (s1, Returned (NextTask (id t) (title t) (description t)))
        end
  end.

Definition markTaskDone (pid tid : string) (details : option string)
    (s : TaskManagerServer) : TaskManagerServer * Outcome :=
  let s1 := loadTasks s in
  match find_project pid (data s1) with
  | None => (s1, Returned (Error "Project not found"))
  | Some proj =>
      match find_task tid proj with
      | None => (s1, Returned (Error "Task not found"))
      | Some task =>
          if is_done task then (s1, Returned AlreadyDone)
          else
            let cd := JS.or_else details "" in
            let upd t := set_completedDetails cd (set_status Done t) in
            save_and_return
              (with_data s1 (update_task pid tid upd (data s1)))
              (TaskMarkedDone (projectId proj) (id task) (title task)
                 (description task) cd (approved task))
      end
  end.

Definition approveTaskCompletion (pid tid : string) (s : TaskManagerServer)
  : TaskManagerServer * Outcome :=
  let s1 := loadTasks s in
  match find_project pid (data s1) with
  | None => (s1, Returned (Error "Project not found"))
  | Some proj =>
      match find_task tid proj with
      | None => (s1, Returned (Error "Task not found"))
      | Some task =>
          if negb (is_done task) then (s1, Returned (Error "Task not done yet."))
          else if approved task then (s1, Returned AlreadyApproved)
          else
            save_and_return
              (with_data s1 (update_task pid tid (set_approved true) (data s1)))
              (TaskApproved (projectId proj) (id task) (title task)
                 (description task) (completedDetails task) true)
      end
  end.

Definition approveProjectCompletion (pid : string) (s : TaskManagerServer)
  : TaskManagerServer * Outcome :=
  let s1 := loadTasks s in
  match find_project pid (data s1) with
  | None => (s1, Returned (Error "Project not found"))
  | Some proj =>
      if negb (forallb is_done (tasks proj))
      then (s1, Returned (Error "Not all tasks are done."))
      else if negb (forallb (fun t => is_done t && approved t)%bool (tasks proj))
      then (s1, Returned (Error "Not all done tasks are approved."))
      else
        save_and_return
          (with_data s1 (update_project pid (set_completed true) (data s1)))
          (ProjectApprovedComplete (projectId proj))
  end.

(** The [for (const proj of ...)] loop of [openTaskDetails]. *)
Fixpoint first_task_named (tid : string) (ps : list Project) : option (Project * Task) :=
  match ps with
  | [] => None
  | p :: r =>
      match find_task tid p with
      | Some t => Some (p, t)
      | None => first_task_named tid r
      end
  end.

Definition openTaskDetails (tid : string) (s : TaskManagerServer)
  : TaskManagerServer * Outcome :=
  let s1 := loadTasks s in
  match first_task_named tid (projects (data s1)) with
  | Some (p, t) =>
      (s1, Returned (TaskDetails (projectId p) (initialPrompt p) (projectPlan p)
                       (completed p) t))
  | None => (s1, Returned TaskNotFound)
  end.

Definition listProjects (s : TaskManagerServer) : TaskManagerServer * Outcome :=
  let s1 := loadTasks s in
  (s1, Returned (ProjectsListed
     (map (fun p => (projectId p, initialPrompt p, length (tasks p),
                     length (filter is_done (tasks p)),
                     length (filter approved (tasks p))))
          (projects (data s1))))).

Definition addTasksToProject (pid : string) (defs : list TaskDef)
    (s : TaskManagerServer) : TaskManagerServer * Outcome :=
  let s1 := loadTasks s in
  match find_project pid (data s1) with
  | None => (s1, Returned (Error "Project not found"))
  | Some proj =>
      if completed proj
      then (s1, Returned (Error "Cannot add tasks to completed project"))
      else
        let nt := newTasks (taskCounter s1) defs in
        let s2 := mkServer (projectCounter s1) (bump (taskCounter s1) defs)
                    (update_project pid (fun p => set_tasks (tasks p ++ nt) p) (data s1))
                    (disk s1) in
        save_and_return s2 (TasksAdded (map brief nt))
  end.

(** [if (updates.x) task.x = updates.x]: only a truthy value is assigned. *)
Definition assign_if_truthy (o : option string) (setter : string -> Task -> Task)
    (t : Task) : Task :=
  match o with
  | Some v => if String.eqb v "" then t else setter v t
  | None => t
  end.

Definition updateTask (pid tid : string) (utitle udescription : option string)
    (s : TaskManagerServer) : TaskManagerServer * Outcome :=
  let s1 := loadTasks s in
  match find_project pid (data s1) with
  | None => (s1, Returned (Error "Project not found"))
  | Some proj =>
      match find_task tid proj with
      | None => (s1, Returned (Error "Task not found"))
      | Some task =>
          if is_done task then (s1, Returned (Error "Cannot update completed task"))
          else
            let upd t := assign_if_truthy udescription set_description
                           (assign_if_truthy utitle set_title t) in
            let task' := upd task in
            save_and_return
              (with_data s1 (update_task pid tid upd (data s1)))
              (TaskUpdated (id task') (title task') (description task'))
      end
  end.

Definition deleteTask (pid tid : string) (s : TaskManagerServer)
  : TaskManagerServer * Outcome :=
  let s1 := loadTasks s in
  match find_project pid (data s1) with
  | None => (s1, Returned (Error "Project not found"))
  | Some proj =>
      match find_task tid proj with
      | None => (s1, Returned (Error "Task not found"))
      | Some task =>
          if is_done task then (s1, Returned (Error "Cannot delete completed task"))
          else
            save_and_return
              (with_data s1
                 (update_project pid
                    (fun p => set_tasks (JS.remove_first (is_task tid) (tasks p)) p)
                    (data s1)))
              TaskDeleted
      end
  end.

(* ------------------------------------------------------------------ *)
(** ** The two tool handlers *)

(** The [args] object of a tool call.  Identifiers are present (the tool
    schemas require them); every other property may be [undefined].
    [argAutoApprove] is a property a caller may put on the object: neither
    handler reads it. *)
Record ToolArgs := mkArgs {
  argProjectId : string;
  argTaskId : string;
  argTitle : option string;
  argDescription : option string;
  argStatus : option string;
  argCompletedDetails : option string;
  argInitialPrompt : string;
  argTasks : list TaskDef;
  argProjectPlan : option string;
  argAutoApprove : option bool
}.

(** The table [validNextStates] of the update action. *)
Definition validNextStates (st : Status) : list string :=
  match st with
  | NotStarted => ["in progress"]
  | InProgress => ["done"; "not started"]
  | Done => ["in progress"]
  end.

Definition includes (xs : list string) (x : string) : bool :=
  existsb (String.eqb x) xs.

Definition status_of_text (x : string) : option Status :=
  if String.eqb x "not started" then Some NotStarted
  else if String.eqb x "in progress" then Some InProgress
  else if String.eqb x "done" then Some Done
  else None.

Definition invalid_transition_message (from : Status) (to : string) : string :=
  ("Invalid status transition from '" ++ status_text from ++ "' to '" ++ to
   ++ "'. Allowed transitions: " ++ JS.join ", " (validNextStates from))%string.

(** The checks of the update action that end the call with an error before
    anything is assigned. *)
Definition update_rejection (task : Task) (a : ToolArgs) : option Response :=
  match argStatus a with
  | None => None
  | Some st =>
      if (negb (String.eqb (status_text (status task)) st)
          && negb (includes (validNextStates (status task)) st))%bool
      then Some (Error (invalid_transition_message (status task) st))
      else if (String.eqb st "done" && negb (JS.truthy (argCompletedDetails a)))%bool
      then Some (Error "completedDetails is required when setting status to 'done'")
      else None
  end.

(** The assignments of the update action, in source order:
    [completedDetails] (when the requested status is done), then title,
    description and status.  The requested status has passed the checks
    above, so it names one of the three states. *)
Definition apply_update (a : ToolArgs) (t : Task) : Task :=
  let t1 :=
    match argStatus a with
    | Some st =>
        if String.eqb st "done"
        then set_completedDetails (JS.or_else (argCompletedDetails a) "") t
        else t
    | None => t
    end in
  let t2 := assign_if_truthy (argTitle a) set_title t1 in
  let t3 := assign_if_truthy (argDescription a) set_description t2 in
  match argStatus a with
  | Some st =>
      match status_of_text st with
      | Some x => set_status x t3
      | None => t3
      end
  | None => t3
  end.

(** [case "update"] of [handleTaskTool]; it works on the snapshot in memory
    (no reload). *)
Definition handleTaskTool_update (a : ToolArgs) (s : TaskManagerServer)
  : TaskManagerServer * Outcome :=
  let pid := argProjectId a in
  let tid := argTaskId a in
  match find_project pid (data s) with
  | None => (s, Returned (Error ("Project not found: " ++ pid)))
  | Some proj =>
      match find_task tid proj with
      | None =>
          (s, Returned (Error ("Task not found: " ++ tid ++ " in project " ++ pid)))
      | Some task =>
          if approved task
          then (s, Returned (Error ("Cannot update an approved task: " ++ tid)))
          else
            match update_rejection task a with
            | Some r => (s, Returned r)
            | None =>
                save_and_return
                  (with_data s (update_task pid tid (apply_update a) (data s)))
                  (TaskUpdatedFull (apply_update a task))
            end
      end
  end.

Definition unknown_action (action : string) : Response :=
  Error ("Unknown action '" ++ action ++ "'").

Definition handleTaskTool (action : string) (a : ToolArgs) (s : TaskManagerServer)
  : TaskManagerServer * Outcome :=
  if String.eqb action "read" then openTaskDetails (argTaskId a) s
  else if String.eqb action "update" then handleTaskTool_update a s
  else if String.eqb action "delete" then deleteTask (argProjectId a) (argTaskId a) s
  else (s, Returned (unknown_action action)).

(** [case "delete"] of [handleProjectTool]; it too works on the snapshot in
    memory. *)
Definition handleProjectTool_delete (a : ToolArgs) (s : TaskManagerServer)
  : TaskManagerServer * Outcome :=
  match find_project (argProjectId a) (data s) with
  | None => (s, Returned (Error "Project not found"))
  | Some _ =>
      save_and_return
        (with_data s (mkFile (JS.remove_first (is_project (argProjectId a))
                                (projects (data s)))))
        ProjectDeleted
  end.

Definition handleProjectTool (action : string) (a : ToolArgs) (s : TaskManagerServer)
  : TaskManagerServer * Outcome :=
  if String.eqb action "list" then listProjects s
  else if String.eqb action "create"
  then createProject (argInitialPrompt a) (argTasks a) (argProjectPlan a) s
  else if String.eqb action "delete" then handleProjectTool_delete a s
  else if String.eqb action "add_tasks"
  then addTasksToProject (argProjectId a) (argTasks a) s
  else if String.eqb action "finalize" then approveProjectCompletion (argProjectId a) s
  else (s, Returned (unknown_action action)).

(* ------------------------------------------------------------------ *)
(** ** Sequences of calls *)

(** [new TaskManagerServer(path)]: counters at 0, an empty snapshot, then
    the load the constructor starts (taken to have finished before the
    first call; the constructor does not wait for it). *)
Definition newServer (d : Disk) : TaskManagerServer :=
  loadTasks (mkServer (JS.Fin 0) (JS.Fin 0) (mkFile []) d).

(** One event in the life of a manager: a call of a public method, a bare
    reload of the store, a restart of the process (a new manager over the
    same file), or the medium changing between writable and read-only. *)
Inductive Call :=
| CreateProject (prompt : string) (defs : list TaskDef) (plan : option string)
| GetNextTask (pid : string)
| MarkTaskDone (pid tid : string) (details : option string)
| ApproveTaskCompletion (pid tid : string)
| ApproveProjectCompletion (pid : string)
| OpenTaskDetails (tid : string)
| ListProjects
| AddTasksToProject (pid : string) (defs : list TaskDef)
| UpdateTask (pid tid : string) (utitle udescription : option string)
| DeleteTask (pid tid : string)
| HandleProjectTool (action : string) (a : ToolArgs)
| HandleTaskTool (action : string) (a : ToolArgs)
| Reload
| SetWritable (b : bool)
| Restart.

Definition step (c : Call) (s : TaskManagerServer) : TaskManagerServer * Outcome :=
  match c with
  | CreateProject prompt defs plan => createProject prompt defs plan s
  | GetNextTask pid => getNextTask pid s
  | MarkTaskDone pid tid details => markTaskDone pid tid details s
  | ApproveTaskCompletion pid tid => approveTaskCompletion pid tid s
  | ApproveProjectCompletion pid => approveProjectCompletion pid s
  | OpenTaskDetails tid => openTaskDetails tid s
  | ListProjects => listProjects s
  | AddTasksToProject pid defs => addTasksToProject pid defs s
  | UpdateTask pid tid ut ud => updateTask pid tid ut ud s
  | DeleteTask pid tid => deleteTask pid tid s
  | HandleProjectTool action a => handleProjectTool action a s
  | HandleTaskTool action a => handleTaskTool action a s
  | Reload => (loadTasks s, Quiet)
  | SetWritable b =>
      (mkServer (projectCounter s) (taskCounter s) (data s)
                (mkDisk (file (disk s)) b), Quiet)
  | Restart => (newServer (disk s), Quiet)
  end.

(** The state after a sequence of calls, and the outcomes along the way. *)
Fixpoint run (cs : list Call) (s : TaskManagerServer) : TaskManagerServer :=
  match cs with
  | [] => s
  | c :: r => run r (fst (step c s))
  end.

Fixpoint outcomes (cs : list Call) (s : TaskManagerServer) : list Outcome :=
  match cs with
  | [] => []
  | c :: r => snd (step c s) :: outcomes r (fst (step c s))
  end.

(** A fresh manager over an empty, writable store. *)
Definition fresh : TaskManagerServer :=
  mkServer (JS.Fin 0) (JS.Fin 0) (mkFile []) (mkDisk None true).

(* ------------------------------------------------------------------ *)
(** ** Predicates used by the properties below *)

Definition all_tasks (d : TaskManagerFile) : list Task := flat_map tasks (projects d).

(** The approval invariant on one task, on a snapshot, and on a manager
    (its snapshot in memory and the content of its file). *)
Definition task_ok (t : Task) : Prop := approved t = true -> status t = Done.

Definition file_ok (d : TaskManagerFile) : Prop := Forall task_ok (all_tasks d).

Definition inv (s : TaskManagerServer) : Prop :=
  file_ok (data s) /\ (forall d, file (disk s) = Some d -> file_ok d).

(** Tasks a call can start from: those in memory and those on file. *)
Definition known_tasks (s : TaskManagerServer) : list Task :=
  all_tasks (data s)
  ++ match file (disk s) with Some d => all_tasks d | None => [] end.

(** How one task object may differ before and after a call: approval is
    only ever switched on for a task that is done and stays done, and an
    approved, done task keeps its status. *)
Definition lawful (t t' : Task) : Prop :=
  id t' = id t
  /\ (approved t = false -> approved t' = true -> status t = Done /\ status t' = Done)
  /\ (approved t = true -> status t = Done -> status t' = Done).

Definition newly_created (t : Task) : Prop :=
  status t = NotStarted /\ approved t = false.

(** The watermark a reload would compute (or keep, when the file cannot be
    read). *)
Definition projectWatermark (s : TaskManagerServer) : JS.number :=
  match file (disk s) with
  | Some d => JS.max_or_zero (allProjectIds d)
  | None => projectCounter s
  end.

Definition taskWatermark (s : TaskManagerServer) : JS.number :=
  match file (disk s) with
  | Some d => JS.max_or_zero (allTaskIds d)
  | None => taskCounter s
  end.

(** Identifiers handed out by a call, as its result reports them. *)
Definition allocatedProjectIds (o : Outcome) : list string :=
  match o with
  | Returned (Planned pid _ _) => [pid]
  | _ => []
  end.

Definition allocatedTaskIds (o : Outcome) : list string :=
  match o with
  | Returned (Planned _ _ created) => map (fun x => fst (fst x)) created
  | Returned (TasksAdded created) => map (fun x => fst (fst x)) created
  | _ => []
  end.

(** Calls of the allocation scenario: creations, additions, reloads,
    restarts, and the medium switching between writable and read-only. *)
Definition allocating (c : Call) : bool :=
  match c with
  | CreateProject _ _ _ | AddTasksToProject _ _ | Reload | SetWritable _
  | Restart => true
  | _ => false
  end.

Definition proj_name (n : Z) : string := "proj-" ++ JS.toString (JS.Fin n).
Definition task_name (n : Z) : string := "task-" ++ JS.toString (JS.Fin n).

(** The integers that doubles count exactly: strictly between -2^53 and
    2^53. *)
Definition safe (n : Z) : Prop := - 2 ^ 53 < n < 2 ^ 53.

(** The integer a finite number stands for. *)
Definition intval (x : JS.number) : Z :=
  match x with
  | JS.Fin z => z
  | _ => 0
  end.

(** [k] identifiers can be counted exactly above the watermark [x]: none
    is asked for, or [x] is an integer above -2^53 with [x + k] below
    2^53. *)
Definition has_room (x : JS.number) (k : nat) : Prop :=
  k = O \/ exists w, x = JS.Fin w /\ - 2 ^ 53 < w /\ w + Z.of_nat k < 2 ^ 53.

(** The project and task identifiers a call may allocate. *)
Definition demand (c : Call) : nat * nat :=
  match c with
  | CreateProject _ defs _ => (1%nat, length defs)
  | AddTasksToProject _ defs => (O, length defs)
  | HandleProjectTool action a =>
      if String.eqb action "create" then (1%nat, length (argTasks a))
      else if String.eqb action "add_tasks" then (O, length (argTasks a))
      else (O, O)
  | _ => (O, O)
  end.

(** The call starts from watermarks that leave room for what it may
    allocate. *)
Definition room (c : Call) (s : TaskManagerServer) : Prop :=
  has_room (projectWatermark s) (fst (demand c))
  /\ has_room (taskWatermark s) (snd (demand c)).

(** Every call of the sequence starts with room. *)
Fixpoint within_range (cs : list Call) (s : TaskManagerServer) : Prop :=
  match cs with
  | [] => True
  | c :: r => room c s /\ within_range r (fst (step c s))
  end.

(** Every task of the snapshot [d'] stems lawfully from a task of [src] or
    has just been created. *)
Definition evolved (src : list Task) (d' : TaskManagerFile) : Prop :=
  forall t', In t' (all_tasks d') ->
    (exists t, In t src /\ lawful t t') \/ newly_created t'.

(** The same tool arguments with another [autoApprove] property. *)
Definition with_autoApprove (b : option bool) (a : ToolArgs) : ToolArgs :=
  mkArgs (argProjectId a) (argTaskId a) (argTitle a) (argDescription a)
         (argStatus a) (argCompletedDetails a) (argInitialPrompt a) (argTasks a)
         (argProjectPlan a) b.

(** The numbers [c + 1], ..., [c + k], in allocation order. *)
Fixpoint upfrom (c : Z) (k : nat) : list Z :=
  match k with
  | O => []
  | S k' => (c + 1) :: upfrom (c + 1) k'
  end.

(** The identifier numbers returned so far are all on file. *)
Definition recorded (rp rt : list Z) (s : TaskManagerServer) : Prop :=
  (forall n, In n rp ->
     exists d, file (disk s) = Some d /\ In (JS.Fin n) (allProjectIds d))
  /\ (forall n, In n rt ->
        exists d, file (disk s) = Some d /\ In (JS.Fin n) (allTaskIds d)).

(** What one call of the allocation scenario does, given the numbers [rp]
    and [rt] returned before it: the identifiers it returns are the names
    of increasing numbers above all earlier ones, and afterwards everything
    returned is on file. *)
Definition allocates_above (rp rt : list Z) (o : TaskManagerServer * Outcome) : Prop :=
  exists np nt,
    allocatedProjectIds (snd o) = map proj_name np
    /\ allocatedTaskIds (snd o) = map task_name nt
    /\ StronglySorted Z.lt np /\ StronglySorted Z.lt nt
    /\ Forall safe np /\ Forall safe nt
    /\ (forall r n, In r rp -> In n np -> r < n)
    /\ (forall r n, In r rt -> In n nt -> r < n)
    /\ recorded (rp ++ np) (rt ++ nt) (fst o).

(** The completion invariant on one project, on a snapshot, and on a
    manager: a completed project has only tasks that are done and
    approved. *)
Definition proj_ok (p : Project) : Prop :=
  completed p = true ->
  Forall (fun t => status t = Done /\ approved t = true) (tasks p).

Definition store_ok (d : TaskManagerFile) : Prop := Forall proj_ok (projects d).

Definition inv_completed (s : TaskManagerServer) : Prop :=
  store_ok (data s) /\ (forall d, file (disk s) = Some d -> store_ok d).

(** Identifiers are pairwise distinct: project identifiers among the
    projects, task identifiers among all tasks of all projects. *)
Definition ids_distinct (d : TaskManagerFile) : Prop :=
  NoDup (map projectId (projects d)) /\ NoDup (map id (all_tasks d)).

Definition inv_distinct (s : TaskManagerServer) : Prop :=
  ids_distinct (data s) /\ (forall d, file (disk s) = Some d -> ids_distinct d).

(** The snapshot in memory is what a reload would give. *)
Definition in_sync (s : TaskManagerServer) : Prop :=
  data s = match file (disk s) with Some d => d | None => mkFile [] end.

(** The approved tasks of a snapshot, in store order. *)
Definition approved_tasks (d : TaskManagerFile) : list Task :=
  filter approved (all_tasks d).

(** The snapshot a call works on.  The public methods start with a
    reload, and so do the tool actions that delegate to them; a restart
    loads the file.  The update action of [handleTaskTool], the delete
    action of [handleProjectTool], an unknown action and a change of the
    medium work on the snapshot in memory. *)
Definition works_on (c : Call) (s : TaskManagerServer) : TaskManagerFile :=
  match c with
  | HandleProjectTool action _ =>
      if (String.eqb action "list" || String.eqb action "create"
          || String.eqb action "add_tasks" || String.eqb action "finalize")%bool
      then data (loadTasks s) else data s
  | HandleTaskTool action _ =>
      if (String.eqb action "read" || String.eqb action "delete")%bool
      then data (loadTasks s) else data s
  | SetWritable _ => data s
  | _ => data (loadTasks s)
  end.

(** What a call on the snapshot [d] may do to the list of approved
    tasks.  [approveTaskCompletion] leaves it alone or inserts one entry:
    the task found, which was done and not approved, now approved, every
    other field kept.  The delete action of [handleProjectTool] leaves it
    alone or takes out the approved tasks of the project found.  Every
    other call leaves it as it is. *)
Definition approved_change (c : Call) (d : TaskManagerFile)
    (before after : list Task) : Prop :=
  match c with
  | ApproveTaskCompletion pid tid =>
      after = before
      \/ exists proj task l1 l2,
           find_project pid d = Some proj /\ find_task tid proj = Some task
           /\ status task = Done /\ approved task = false
           /\ before = l1 ++ l2
           /\ after = l1 ++ mkTask (id task) (title task) (description task) Done true
                              (completedDetails task) :: l2
  | HandleProjectTool action a =>
      if String.eqb action "delete"
      then after = before
           \/ exists proj l1 l2,
                find_project (argProjectId a) d = Some proj
                /\ before = l1 ++ filter approved (tasks proj) ++ l2
                /\ after = l1 ++ l2
      else after = before
  | _ => after = before
  end.

(** Calls other than the deletion of a project. *)
Definition keeps_projects (c : Call) : bool :=
  match c with
  | HandleProjectTool action _ => negb (String.eqb action "delete")
  | _ => true
  end.

(** [l1] is [l2] with some entries left out, the order kept. *)
Inductive subseq {A : Type} : list A -> list A -> Prop :=
| subseq_nil : subseq [] []
| subseq_skip (x : A) (l1 l2 : list A) : subseq l1 l2 -> subseq l1 (x :: l2)
| subseq_keep (x : A) (l1 l2 : list A) : subseq l1 l2 -> subseq (x :: l1) (x :: l2).

(** The fields of a task that [updateTask] does not reach. *)
Definition protected_fields (t : Task) : string * Status * bool * string :=
  (id t, status t, approved t, completedDetails t).

(** A row of [listProjects] has its three counts in order:
    approved <= done <= total. *)
Definition counts_ordered (row : string * string * nat * nat * nat) : Prop :=
  let '(_, _, total, finished, signed) := row in
  (signed <= finished)%nat /\ (finished <= total)%nat.

(** A string that does not begin with a decimal digit (it may be empty). *)
Definition no_leading_digit (x : string) : Prop :=
  match x with
  | String c _ => JS.digit_val c = None
  | EmptyString => True
  end.

(* ------------------------------------------------------------------ *)
(** ** Concrete scenarios *)

Module Scenario.

Definition one_task : list TaskDef := [mkTaskDef "T1" "first"].
Definition two_tasks : list TaskDef := [mkTaskDef "T1" "first"; mkTaskDef "T2" "second"].

(** Arguments of an update that only asks for a status. *)
Definition set_status_args (pid tid st : string) (details : option string) : ToolArgs :=
  mkArgs pid tid None None (Some st) details "" [] None None.

(** Arguments of a project creation, with the [autoApprove] property a
    caller may add. *)
Definition create_args (prompt : string) (defs : list TaskDef) (auto : option bool)
  : ToolArgs :=
  mkArgs "" "" None None None None prompt defs None auto.

(** Two tasks; the second one is started, the first one is not. *)
Definition second_started : TaskManagerServer :=
  run [CreateProject "demo" two_tasks None;
       HandleTaskTool "update" (set_status_args "proj-1" "task-2" "in progress" None)]
      fresh.

(** One task, not started. *)
Definition planned : TaskManagerServer :=
  run [CreateProject "demo" one_task None] fresh.

(** One task, in progress. *)
Definition started : TaskManagerServer :=
  run [HandleTaskTool "update" (set_status_args "proj-1" "task-1" "in progress" None)]
      planned.

(** One task, done with details, not approved. *)
Definition finished : TaskManagerServer :=
  run [HandleTaskTool "update" (set_status_args "proj-1" "task-1" "done" (Some "shipped"))]
      started.

(** One task, done and approved. *)
Definition signed_off : TaskManagerServer :=
  run [ApproveTaskCompletion "proj-1" "task-1"] finished.

(** The project finalized. *)
Definition finalized : TaskManagerServer :=
  run [ApproveProjectCompletion "proj-1"] signed_off.

(** A project without tasks. *)
Definition empty_project : TaskManagerServer :=
  run [CreateProject "nothing to do" [] None] fresh.

(** A project created through the tool handler with [autoApprove: true],
    its task then started and completed with details. *)
Definition auto_requested : TaskManagerServer :=
  run [HandleProjectTool "create" (create_args "demo" one_task (Some true));
       HandleTaskTool "update" (set_status_args "proj-1" "task-1" "in progress" None);
       HandleTaskTool "update" (set_status_args "proj-1" "task-1" "done" (Some "shipped"))]
      fresh.

(** A store whose file already holds a project carrying
    [autoApprove: true], with one task in progress. *)
Definition auto_on_file : TaskManagerServer :=
  let d := mkFile [mkProject "proj-1" "demo" "demo"
                     [mkTask "task-1" "T1" "first" InProgress false ""]
                     false (Some true)] in
  mkServer (JS.Fin 1) (JS.Fin 1) d (mkDisk (Some d) true).

(** A store whose file holds identifiers with the number 2^53. *)
Definition at_limit : TaskManagerServer :=
  newServer
    (mkDisk (Some (mkFile [mkProject "proj-9007199254740992" "old" "old"
                             [mkTask "task-9007199254740992" "T0" "zero"
                                     NotStarted false ""]
                             false None]))
            true).

(** Creations and additions across reloads, a restart and a refused
    write. *)
Definition allocations : list Call :=
  [CreateProject "a" two_tasks None; Reload;
   AddTasksToProject "proj-1" one_task; SetWritable false;
   CreateProject "b" one_task None; SetWritable true; Restart;
   CreateProject "c" two_tasks None].

(** A file edited by hand: a no-break space (U+00A0, the bytes C2 A0)
    before the digits of the first project, text after the digits of the
    second, a task number above 2^53, and a task without a number. *)
Definition hand_written : TaskManagerServer :=
  newServer
    (mkDisk
       (Some (mkFile
                [mkProject
                   ("proj-" ++ String (ascii_of_nat 194) (String (ascii_of_nat 160) "41"))
                   "a" "a"
                   [mkTask "task-9007199254740993" "T" "t" NotStarted false ""]
                   false None;
                 mkProject "proj-7 (copy)" "b" "b"
                   [mkTask "task-x" "U" "u" NotStarted false ""]
                   false None]))
       true).

(** Attempts to edit or remove the approved task of [signed_off], among
    other calls. *)
Definition edits : list Call :=
  [HandleTaskTool "update" (set_status_args "proj-1" "task-1" "in progress" None);
   UpdateTask "proj-1" "task-1" (Some "other title") None;
   DeleteTask "proj-1" "task-1";
   MarkTaskDone "proj-1" "task-1" (Some "again");
   AddTasksToProject "proj-1" two_tasks;
   SetWritable false;
   ApproveTaskCompletion "proj-1" "task-1";
   Restart;
   HandleProjectTool "finalize" (mkArgs "proj-1" "" None None None None "" [] None None)].

(** The tasks of a project of the snapshot in memory, as
    (identifier, status, approved, details). *)
Definition view (pid : string) (s : TaskManagerServer)
  : option (bool * list (string * Status * bool * string)) :=
  option_map
    (fun p => (completed p,
               map (fun t => (id t, status t, approved t, completedDetails t)) (tasks p)))
    (find_project pid (data s)).

End Scenario.

(* ------------------------------------------------------------------ *)
(** ** The two text tables appended to the success messages *)

Module Format.

(** ["\n"] *)
Definition nl : string := String (ascii_of_nat 10) EmptyString.

Definition status_cell (t : Task) : string :=
  if is_done t then "✅ Done"
  else if Status_eqb (status t) InProgress then "🔄 In Progress"
  else "⏳ Not Started".

Definition approval_cell (t : Task) : string :=
  if approved t then "✅ Approved" else "⏳ Pending".

(** One iteration of the loop of [formatTaskProgressTable]. *)
Definition task_row (t : Task) : string :=
  ("| " ++ id t ++ " | " ++ title t ++ " | " ++ description t ++ " | "
   ++ status_cell t ++ " | " ++ approval_cell t ++ " |" ++ nl)%string.

Definition task_table_head : string :=
  (nl ++ "Progress Status:" ++ nl
   ++ "| Task ID | Title | Description | Status | Approval |" ++ nl
   ++ "|----------|----------|------|------|----------|" ++ nl)%string.

Definition formatTaskProgressTable (pid : string) (d : TaskManagerFile) : string :=
  match find_project pid d with
  | None => "Project not found"
  | Some proj =>
      fold_left (fun table t => (table ++ task_row t)%string) (tasks proj)
                task_table_head
  end.

(** [s.substring(0, 30)] followed by ["..."] when [s.length > 30]. *)
Definition prompt_cell (prompt : string) : string :=
  (JS.take16 30 prompt
   ++ (if Nat.ltb 30 (JS.length16 prompt) then "..." else ""))%string.

(** The text of an array length (an integer below 2^32). *)
Definition show_count (n : nat) : string := JS.showZ (Z.of_nat n).

(** One iteration of the loop of [formatProjectsList]. *)
Definition project_row (p : Project) : string :=
  ("| " ++ projectId p ++ " | " ++ prompt_cell (initialPrompt p) ++ " | "
   ++ show_count (length (tasks p)) ++ " | "
   ++ show_count (length (filter is_done (tasks p))) ++ " | "
   ++ show_count (length (filter approved (tasks p))) ++ " |" ++ nl)%string.

Definition project_list_head : string :=
  (nl ++ "Projects List:" ++ nl
   ++ "| Project ID | Initial Prompt | Total Tasks | Completed | Approved |" ++ nl
   ++ "|------------|------------------|-------------|-----------|----------|" ++ nl)%string.

Definition formatProjectsList (d : TaskManagerFile) : string :=
  fold_left (fun output p => (output ++ project_row p)%string) (projects d)
            project_list_head.

(** The number of line ends in a text. *)
Fixpoint newlines (x : string) : nat :=
  match x with
  | EmptyString => O
  | String c r => (if Ascii.eqb c (ascii_of_nat 10) then 1 else 0) + newlines r
  end.

(** [x] occurs in [y]. *)
Definition occurs (x y : string) : Prop :=
  exists a b, y = (a ++ x ++ b)%string.

Definition plain_task (t : Task) : Prop :=
  newlines (id t) = O /\ newlines (title t) = O /\ newlines (description t) = O.

Definition plain_project (p : Project) : Prop :=
  newlines (projectId p) = O /\ newlines (initialPrompt p) = O.

End Format.

(* ------------------------------------------------------------------ *)
(** ** Printing and parsing of identifier numbers *)

Section Numerals.

Lemma small_digit (d : Z) :
  0 <= d < 10 ->
  d = 0 \/ d = 1 \/ d = 2 \/ d = 3 \/ d = 4 \/ d = 5 \/ d = 6 \/ d = 7
  \/ d = 8 \/ d = 9.
Proof. lia. Qed.

Ltac by_digit d H :=
  let E := fresh "E" in
  pose proof (small_digit d H) as E;
  repeat (destruct E as [E | E]; [subst d; repeat split; reflexivity |]);
  subst d; repeat split; reflexivity.

Lemma digit_val_char (d : Z) :
  0 <= d < 10 -> JS.digit_val (JS.digit_char d) = Some d.
Proof. intros H. by_digit d H. Qed.

Lemma digit_char_plain (d : Z) (r : string) :
  0 <= d < 10 ->
  JS.ws_length (String (JS.digit_char d) r) = O
  /\ Ascii.eqb (JS.digit_char d) "-" = false
  /\ Ascii.eqb (JS.digit_char d) "+" = false
  /\ JS.digit_val (JS.digit_char d) = Some d.
Proof. intros H. by_digit d H. Qed.

Lemma skip_ws_none (s : string) : JS.ws_length s = O -> JS.skip_ws s = s.
Proof.
  intros H. unfold JS.skip_ws. destruct (String.length s); cbn [JS.skip_ws_fuel].
  - reflexivity.
  - now rewrite H.
Qed.

(** Reading back the digits [show_digits] has written adds [n] to the
    accumulator, shifted by the number of digits. *)
Lemma digits_acc_show (f : nat) :
  forall n rest, 0 <= n < 2 ^ Z.of_nat (S f) ->
    exists k : nat, forall a seen,
      JS.digits_acc (JS.show_digits (S f) n rest) a seen
      = JS.digits_acc rest (a * 10 ^ Z.of_nat k + n) true.
Proof.
  induction f as [| f IH]; intros n rest Hn.
  - exists 1%nat. intros a seen. cbn [JS.show_digits].
    assert ((n <? 10) = true) as -> by (apply Z.ltb_lt; simpl in Hn; lia).
    cbn [JS.digits_acc]. rewrite digit_val_char.
    + f_equal. rewrite Z.mod_small by (simpl in Hn; lia). lia.
    + apply Z.mod_pos_bound; lia.
  - remember (S f) as g eqn:Hg. cbn [JS.show_digits]. destruct (n <? 10) eqn:E.
    + exists 1%nat. intros a seen. cbn [JS.digits_acc]. rewrite digit_val_char.
      * apply Z.ltb_lt in E. f_equal. rewrite Z.mod_small by lia. lia.
      * apply Z.mod_pos_bound; lia.
    + apply Z.ltb_ge in E. subst g.
      destruct (IH (n / 10) (String (JS.digit_char (n mod 10)) rest)) as [k Hk].
      { split; [apply Z.div_pos; lia |].
        apply Z.div_lt_upper_bound; [lia |].
        rewrite (Nat2Z.inj_succ (S f)), Z.pow_succ_r in Hn by lia. lia. }
      exists (S k). intros a seen.
      rewrite Hk. cbn [JS.digits_acc]. rewrite digit_val_char.
      * f_equal. rewrite Nat2Z.inj_succ, Z.pow_succ_r by lia.
        pose proof (Z.div_mod n 10 ltac:(lia)). lia.
      * apply Z.mod_pos_bound; lia.
Qed.

Lemma show_digits_head (f : nat) :
  forall n rest, 0 <= n < 2 ^ Z.of_nat (S f) ->
    exists d r, 0 <= d < 10 /\ JS.show_digits (S f) n rest = String (JS.digit_char d) r.
Proof.
  induction f as [| f IH]; intros n rest Hn.
  - cbn [JS.show_digits].
    assert ((n <? 10) = true) as -> by (apply Z.ltb_lt; simpl in Hn; lia).
    exists (n mod 10), rest. split; [apply Z.mod_pos_bound; lia | reflexivity].
  - remember (S f) as g eqn:Hg. cbn [JS.show_digits]. destruct (n <? 10) eqn:E.
    + exists (n mod 10), rest. split; [apply Z.mod_pos_bound; lia | reflexivity].
    + apply Z.ltb_ge in E. subst g. apply IH.
      split; [apply Z.div_pos; lia |].
      apply Z.div_lt_upper_bound; [lia |].
      rewrite (Nat2Z.inj_succ (S f)), Z.pow_succ_r in Hn by lia. lia.
Qed.

Lemma fuel_enough (n : Z) :
  0 <= n -> 0 <= n < 2 ^ Z.of_nat (S (Z.to_nat (Z.log2 n))).
Proof.
  intros H. split; [assumption |].
  rewrite Nat2Z.inj_succ, Z2Nat.id by apply Z.log2_nonneg.
  destruct (Z.eq_dec n 0) as [-> | Hz]; [reflexivity |].
  apply Z.log2_spec. lia.
Qed.

Lemma digit_stops (junk : string) (a : Z) :
  no_leading_digit junk -> JS.digits_acc junk a true = Some a.
Proof.
  unfold no_leading_digit. destruct junk as [| c r]; [reflexivity |].
  cbn [JS.digits_acc]. now intros ->.
Qed.

Lemma append_head (c : ascii) (r junk : string) :
  (String c r ++ junk)%string = String c (r ++ junk).
Proof. reflexivity. Qed.

Lemma show_digits_append (f : nat) :
  forall n rest junk,
    (JS.show_digits f n rest ++ junk)%string = JS.show_digits f n (rest ++ junk).
Proof.
  induction f as [| f IH]; intros n rest junk; cbn [JS.show_digits]; [reflexivity |].
  destruct (n <? 10); [reflexivity |]. now rewrite IH.
Qed.

Lemma digits_show_nonneg (n : Z) (junk : string) :
  0 <= n -> no_leading_digit junk ->
  JS.digits_acc (JS.show_nonneg n ++ junk) 0 false = Some n.
Proof.
  intros H J. unfold JS.show_nonneg. rewrite show_digits_append.
  destruct (digits_acc_show _ n (EmptyString ++ junk)%string (fuel_enough n H))
    as [k Hk].
  rewrite Hk. cbn [String.append]. rewrite digit_stops by exact J. f_equal.
Qed.

Lemma parse_show_nonneg (n : Z) (junk : string) :
  0 <= n -> no_leading_digit junk ->
  JS.parse_integer (JS.show_nonneg n ++ junk) = Some n.
Proof.
  intros H J. pose proof (digits_show_nonneg n junk H J) as D.
  unfold JS.show_nonneg in *. rewrite show_digits_append in *.
  destruct (show_digits_head _ n (EmptyString ++ junk)%string (fuel_enough n H))
    as (d & r & Hd & E).
  destruct (digit_char_plain d r Hd) as (W & M & P & _).
  unfold JS.parse_integer. rewrite E in *. rewrite skip_ws_none by exact W.
  now rewrite M, P.
Qed.

(** The digits of an integer are read back, whatever follows them. *)
Lemma parse_showZ (n : Z) (junk : string) :
  no_leading_digit junk -> JS.parse_integer (JS.showZ n ++ junk) = Some n.
Proof.
  intros J. unfold JS.showZ. destruct (n <? 0) eqn:E.
  - apply Z.ltb_lt in E. rewrite append_head. unfold JS.parse_integer.
    rewrite skip_ws_none by reflexivity.
    change (Ascii.eqb "-" "-") with true. cbv iota.
    rewrite digits_show_nonneg by (lia || exact J). cbn. f_equal. lia.
  - apply Z.ltb_ge in E. now apply parse_show_nonneg.
Qed.

Lemma append_empty (s : string) : (s ++ "")%string = s.
Proof. induction s as [| c r IH]; cbn; [reflexivity | now rewrite IH]. Qed.

(** Integers of the safe range are doubles: they are not rounded, they
    are printed digit by digit, and adding one is exact. *)
Lemma round_int_safe (z : Z) : safe z -> JS.round_int z = JS.Fin z.
Proof.
  unfold safe, JS.round_int, JS.round_pos. intros H. destruct (z <? 0) eqn:E.
  - apply Z.ltb_lt in E.
    assert ((- z <? 2 ^ 53) = true) as -> by (apply Z.ltb_lt; lia).
    f_equal. lia.
  - assert ((z <? 2 ^ 53) = true) as -> by (apply Z.ltb_lt; lia). reflexivity.
Qed.

Lemma toString_safe (z : Z) : safe z -> JS.toString (JS.Fin z) = JS.showZ z.
Proof.
  unfold safe, JS.toString, JS.showZ, JS.show_pos. intros H.
  destruct (z <? 0) eqn:E.
  - apply Z.ltb_lt in E.
    now assert ((- z <? 2 ^ 53) = true) as -> by (apply Z.ltb_lt; lia).
  - now assert ((z <? 2 ^ 53) = true) as -> by (apply Z.ltb_lt; lia).
Qed.

Lemma add1_safe (w : Z) :
  - 2 ^ 53 < w -> w + 1 < 2 ^ 53 -> JS.add1 (JS.Fin w) = JS.Fin (w + 1).
Proof. intros L U. cbn [JS.add1]. apply round_int_safe. unfold safe. lia. Qed.

(** [parseInt] reads back what the template literal printed. *)
Lemma parseInt_toString (n : Z) (junk : string) :
  safe n -> no_leading_digit junk ->
  JS.parseInt (JS.toString (JS.Fin n) ++ junk) = Some (JS.Fin n).
Proof.
  intros S J. unfold JS.parseInt.
  rewrite toString_safe, parse_showZ by assumption.
  cbn [option_map]. now rewrite round_int_safe.
Qed.

Lemma replace_first_prefix (pre s : string) :
  JS.replace_first pre (pre ++ s) = s.
Proof.
  assert (P : String.prefix pre (pre ++ s) = true).
  { induction pre as [| c pre IH]; cbn.
    - now destruct s.
    - destruct (ascii_dec c c); [exact IH | congruence]. }
  assert (D : JS.drop (String.length pre) (pre ++ s) = s).
  { clear P. induction pre as [| c pre IH]; cbn; [reflexivity | exact IH]. }
  assert (U : forall t, JS.replace_first pre t
              = if String.prefix pre t then JS.drop (String.length pre) t
                else match t with
                     | EmptyString => EmptyString
                     | String c r => String c (JS.replace_first pre r)
                     end) by (now intros [| c r]).
  now rewrite U, P.
Qed.

Lemma numeric_suffix_junk (pre : string) (n : Z) (junk : string) :
  safe n -> no_leading_digit junk ->
  numeric_suffix pre (pre ++ JS.toString (JS.Fin n) ++ junk) = Some (JS.Fin n).
Proof.
  intros S J. unfold numeric_suffix.
  now rewrite replace_first_prefix, parseInt_toString.
Qed.

Lemma numeric_suffix_show (pre : string) (n : Z) :
  safe n -> numeric_suffix pre (pre ++ JS.toString (JS.Fin n)) = Some (JS.Fin n).
Proof.
  intros S. rewrite <- (append_empty (JS.toString (JS.Fin n))).
  now apply numeric_suffix_junk.
Qed.

Lemma show_injective (pre : string) (n m : Z) :
  safe n -> safe m ->
  (pre ++ JS.toString (JS.Fin n))%string = (pre ++ JS.toString (JS.Fin m))%string ->
  n = m.
Proof.
  intros Sn Sm H. pose proof (numeric_suffix_show pre n Sn) as A.
  rewrite H, numeric_suffix_show in A by exact Sm. congruence.
Qed.

(** *** The order of numbers *)

Lemma leb_refl (x : JS.number) : JS.leb x x = true.
Proof. destruct x; cbn; [apply Z.leb_refl | reflexivity | reflexivity]. Qed.

Lemma leb_trans (x y z : JS.number) :
  JS.leb x y = true -> JS.leb y z = true -> JS.leb x z = true.
Proof.
  destruct x, y, z; cbn; try congruence; try reflexivity.
  rewrite !Z.leb_le. lia.
Qed.

Lemma max_cases (a b : JS.number) :
  JS.leb a (JS.max a b) = true /\ JS.leb b (JS.max a b) = true
  /\ (JS.max a b = a \/ JS.max a b = b).
Proof.
  destruct a as [x | |], b as [y | |]; cbn; repeat split; auto;
    try apply Z.leb_refl; try (apply Z.leb_le; lia).
  destruct (Z.max_spec x y) as [[_ ->] | [_ ->]]; auto.
Qed.

Lemma fold_max_spec (r : list JS.number) :
  forall a, JS.leb a (fold_left JS.max r a) = true
            /\ (forall x, In x r -> JS.leb x (fold_left JS.max r a) = true)
            /\ (fold_left JS.max r a = a \/ In (fold_left JS.max r a) r).
Proof.
  induction r as [| y r IH]; intros a; cbn [fold_left].
  - split; [apply leb_refl |]. split; [intros x [] | now left].
  - destruct (IH (JS.max a y)) as (L & U & C).
    destruct (max_cases a y) as (La & Ly & M).
    split; [exact (leb_trans _ _ _ La L) |].
    split.
    + intros x [<- | I]; [exact (leb_trans _ _ _ Ly L) | now apply U].
    + destruct C as [C | C]; [| right; now right].
      rewrite C. destruct M as [-> | ->]; [now left | right; now left].
Qed.

Lemma max_or_zero_ub (l : list JS.number) (x : JS.number) :
  In x l -> JS.leb x (JS.max_or_zero l) = true.
Proof.
  destruct l as [| y r]; [intros [] |]. cbn [JS.max_or_zero].
  destruct (fold_max_spec r y) as (L & U & _).
  intros [<- | I]; [exact L | now apply U].
Qed.

Lemma max_or_zero_In (l : list JS.number) : l <> [] -> In (JS.max_or_zero l) l.
Proof.
  destruct l as [| y r]; [congruence |]. intros _. cbn [JS.max_or_zero].
  destruct (fold_max_spec r y) as (_ & _ & [-> | C]); [now left | now right].
Qed.

(** An integer found among the numbers of the file is at most the
    watermark. *)
Lemma below_watermark (l : list JS.number) (n w : Z) :
  In (JS.Fin n) l -> JS.max_or_zero l = JS.Fin w -> n <= w.
Proof.
  intros I E. apply max_or_zero_ub in I. rewrite E in I. now apply Z.leb_le.
Qed.

End Numerals.

(* ------------------------------------------------------------------ *)
(** ** Facts on [find], [update_first] and [remove_first] *)

Section FirstMatch.
Context {A : Type} (p : A -> bool).

(** The element [find] returns splits the list: nothing before it
    satisfies [p]; the in-place update and the removal act on it only. *)
Lemma first_match_split (l : list A) (x : A) :
  find p l = Some x ->
  exists l1 l2,
    l = l1 ++ x :: l2 /\ p x = true /\ Forall (fun y => p y = false) l1
    /\ (forall f, JS.update_first p f l = l1 ++ f x :: l2)
    /\ JS.remove_first p l = l1 ++ l2.
Proof.
  induction l as [| y l IH]; cbn; [discriminate |].
  destruct (p y) eqn:E; intros H.
  - injection H as ->. exists [], l. cbn. auto.
  - destruct (IH H) as (l1 & l2 & -> & Px & F & U & R).
    exists (y :: l1), l2. cbn. repeat split; auto.
    + intros f. now rewrite U.
    + now rewrite R.
Qed.

Lemma update_first_fixed (f : A -> A) (l : list A) (x : A) :
  find p l = Some x -> f x = x -> JS.update_first p f l = l.
Proof.
  intros H E. destruct (first_match_split l x H) as (l1 & l2 & -> & _ & _ & U & _).
  now rewrite U, E.
Qed.

Lemma find_first_of_split (l1 l2 : list A) (x : A) :
  Forall (fun y => p y = false) l1 -> p x = true -> find p (l1 ++ x :: l2) = Some x.
Proof.
  induction 1 as [| y l1 E _ IH]; cbn; intros Px.
  - now rewrite Px.
  - rewrite E. now apply IH.
Qed.
End FirstMatch.

Lemma find_not_done_split (ts : list Task) (t : Task) :
  find (fun t => negb (is_done t)) ts = Some t ->
  exists l1 l2, ts = l1 ++ t :: l2 /\ status t <> Done
                /\ Forall (fun u => status u = Done) l1.
Proof.
  intros H.
  destruct (first_match_split _ ts t H) as (l1 & l2 & -> & Pt & F & _).
  exists l1, l2. repeat split.
  - unfold is_done in Pt. intros E. rewrite E in Pt. discriminate.
  - eapply Forall_impl; [| exact F]. cbn. intros u Hu.
    unfold is_done in Hu. now destruct (status u).
Qed.

Lemma is_done_true (t : Task) : is_done t = true <-> status t = Done.
Proof. unfold is_done. destruct (status t); cbn; split; congruence. Qed.

(** A project found by name gives a view of the task list of the whole
    snapshot as "the tasks of that project" plus "the rest", stable under
    any change made to that project alone. *)
Lemma all_tasks_focus (pid : string) (d : TaskManagerFile) (proj : Project) :
  find_project pid d = Some proj ->
  exists rest,
    (forall t, In t (all_tasks d) <-> In t rest \/ In t (tasks proj))
    /\ (forall g t, In t (all_tasks (update_project pid g d))
                    <-> In t rest \/ In t (tasks (g proj))).
Proof.
  unfold find_project, update_project, all_tasks. intros H.
  destruct (first_match_split _ _ _ H) as (l1 & l2 & E & _ & _ & U & _).
  exists (flat_map tasks l1 ++ flat_map tasks l2). split.
  - intros t. rewrite E, flat_map_app. cbn. rewrite !in_app_iff. tauto.
  - intros g t. cbn [projects]. rewrite U, flat_map_app. cbn.
    rewrite !in_app_iff. tauto.
Qed.

Lemma find_task_In (tid : string) (p : Project) (t : Task) :
  find_task tid p = Some t -> In t (tasks p) /\ id t = tid.
Proof.
  unfold find_task. intros H. apply find_some in H. destruct H as [I E].
  split; [assumption | now apply String.eqb_eq].
Qed.

Lemma find_project_In (pid : string) (d : TaskManagerFile) (p : Project) :
  find_project pid d = Some p -> In p (projects d) /\ projectId p = pid.
Proof.
  unfold find_project. intros H. apply find_some in H. destruct H as [I E].
  split; [assumption | now apply String.eqb_eq].
Qed.

(** Tasks of the snapshot after one task of one project was changed
    through its reference. *)
Lemma all_tasks_update_task (pid tid : string) (d : TaskManagerFile)
    (proj : Project) (task : Task) (f : Task -> Task) (t' : Task) :
  find_project pid d = Some proj -> find_task tid proj = Some task ->
  In t' (all_tasks (update_task pid tid f d)) ->
  In t' (all_tasks d) \/ t' = f task.
Proof.
  intros Hp Ht H. destruct (all_tasks_focus pid d proj Hp) as (rest & V & W).
  unfold update_task in H. apply W in H. destruct H as [H | H].
  - left. apply V. now left.
  - cbn in H. destruct (first_match_split _ _ _ Ht) as (l1 & l2 & E & _ & _ & U & _).
    rewrite U in H. apply in_app_iff in H. destruct H as [H | [H | H]].
    + left. apply V. right. rewrite E. apply in_app_iff. now left.
    + right. now symmetry.
    + left. apply V. right. rewrite E. apply in_app_iff. right. now right.
Qed.

(* ------------------------------------------------------------------ *)
(** ** Facts on the persistence layer *)

Lemma loadTasks_disk (s : TaskManagerServer) : disk (loadTasks s) = disk s.
Proof. unfold loadTasks. now destruct (file (disk s)). Qed.

Lemma newServer_disk (d : Disk) : disk (newServer d) = d.
Proof. unfold newServer. now rewrite loadTasks_disk. Qed.

Lemma newServer_data (s : TaskManagerServer) :
  data (newServer (disk s)) = data (loadTasks s).
Proof. unfold newServer, loadTasks. cbn. now destruct (file (disk s)). Qed.

Lemma save_and_return_data (s : TaskManagerServer) (r : Response) :
  data (fst (save_and_return s r)) = data s.
Proof. unfold save_and_return, saveTasks. now destruct (writable (disk s)). Qed.

Lemma save_and_return_file (s : TaskManagerServer) (r : Response) :
  file (disk (fst (save_and_return s r)))
  = if writable (disk s) then Some (data s) else file (disk s).
Proof. unfold save_and_return, saveTasks. now destruct (writable (disk s)). Qed.

Lemma save_and_return_outcome (s : TaskManagerServer) (r : Response) :
  snd (save_and_return s r) = if writable (disk s) then Returned r else Thrown.
Proof. unfold save_and_return, saveTasks. now destruct (writable (disk s)). Qed.

Lemma loaded_tasks_known (s : TaskManagerServer) (t : Task) :
  In t (all_tasks (data (loadTasks s))) -> In t (known_tasks s).
Proof.
  unfold loadTasks, known_tasks. destruct (file (disk s)); cbn; [| tauto].
  intros H. apply in_app_iff. now right.
Qed.

Lemma all_tasks_app (ps qs : list Project) :
  all_tasks (mkFile (ps ++ qs)) = all_tasks (mkFile ps) ++ all_tasks (mkFile qs).
Proof. unfold all_tasks. cbn [projects]. apply flat_map_app. Qed.

Lemma all_tasks_cons (p : Project) (ps : list Project) :
  all_tasks (mkFile (p :: ps)) = tasks p ++ all_tasks (mkFile ps).
Proof. reflexivity. Qed.

(** The projects and tasks of a snapshot around a project found by name. *)
Lemma focus_project (pid : string) (d : TaskManagerFile) (proj : Project) :
  find_project pid d = Some proj ->
  exists ps1 ps2,
    projects d = ps1 ++ proj :: ps2
    /\ all_tasks d = all_tasks (mkFile ps1) ++ tasks proj ++ all_tasks (mkFile ps2)
    /\ (forall g, update_project pid g d = mkFile (ps1 ++ g proj :: ps2))
    /\ (forall g, all_tasks (update_project pid g d)
                  = all_tasks (mkFile ps1) ++ tasks (g proj) ++ all_tasks (mkFile ps2))
    /\ JS.remove_first (is_project pid) (projects d) = ps1 ++ ps2.
Proof.
  intros H. unfold find_project in H.
  destruct (first_match_split _ _ _ H) as (ps1 & ps2 & E & _ & _ & U & R).
  exists ps1, ps2. repeat split; auto.
  - destruct d as [ps]. cbn in E. subst ps. now rewrite all_tasks_app, all_tasks_cons.
  - intros g. unfold update_project. now rewrite U.
  - intros g. unfold update_project. now rewrite U, all_tasks_app, all_tasks_cons.
Qed.

(* ------------------------------------------------------------------ *)
(** ** The approval invariant *)

Section Approval.

Lemma lawful_refl (t : Task) : lawful t t.
Proof. unfold lawful. repeat split; congruence. Qed.

Lemma evolved_subset (src : list Task) (d' : TaskManagerFile) :
  (forall t, In t (all_tasks d') -> In t src) -> evolved src d'.
Proof. intros H t' I. left. exists t'. split; [auto | apply lawful_refl]. Qed.

Lemma evolved_loaded (s : TaskManagerServer) :
  evolved (known_tasks s) (data (loadTasks s)).
Proof. apply evolved_subset, loaded_tasks_known. Qed.

Lemma known_in_memory (s : TaskManagerServer) (t : Task) :
  In t (all_tasks (data s)) -> In t (known_tasks s).
Proof. intros H. unfold known_tasks. apply in_app_iff. now left. Qed.

(** One task changed through its reference, lawfully. *)
Lemma evolved_update_task (src : list Task) (pid tid : string)
    (d : TaskManagerFile) (proj : Project) (task : Task) (f : Task -> Task) :
  (forall t, In t (all_tasks d) -> In t src) ->
  find_project pid d = Some proj -> find_task tid proj = Some task ->
  lawful task (f task) ->
  evolved src (update_task pid tid f d).
Proof.
  intros Sub Hp Ht L t' I.
  destruct (all_tasks_update_task _ _ _ _ _ _ _ Hp Ht I) as [H | ->].
  - left. exists t'. split; [auto | apply lawful_refl].
  - left. exists task. split; [| exact L]. apply Sub.
    destruct (all_tasks_focus pid d proj Hp) as (rest & V & _).
    apply V. right. now apply find_task_In with tid.
Qed.

(** The task list of one project replaced by old tasks and new ones. *)
Lemma evolved_update_project (src : list Task) (pid : string)
    (d : TaskManagerFile) (proj : Project) (g : Project -> Project) :
  (forall t, In t (all_tasks d) -> In t src) ->
  find_project pid d = Some proj ->
  (forall t, In t (tasks (g proj)) -> In t (tasks proj) \/ newly_created t) ->
  evolved src (update_project pid g d).
Proof.
  intros Sub Hp G t' I.
  destruct (all_tasks_focus pid d proj Hp) as (rest & V & W).
  apply W in I. destruct I as [I | I].
  - left. exists t'. split; [apply Sub, V; now left | apply lawful_refl].
  - destruct (G _ I) as [J | J]; [| now right].
    left. exists t'. split; [apply Sub, V; now right | apply lawful_refl].
Qed.

Lemma newTasks_created (defs : list TaskDef) :
  forall c t, In t (newTasks c defs) -> newly_created t.
Proof.
  induction defs as [| d defs IH]; cbn; intros c t H; [contradiction |].
  destruct H as [<- | H]; [now split | eauto].
Qed.

Lemma In_remove_first {A} (p : A -> bool) (l : list A) (x : A) :
  In x (JS.remove_first p l) -> In x l.
Proof.
  induction l as [| y l IH]; cbn; [tauto |].
  destruct (p y); cbn; intuition.
Qed.

Lemma assign_if_truthy_title (o : option string) (t : Task) :
  let t' := assign_if_truthy o set_title t in
  id t' = id t /\ status t' = status t /\ approved t' = approved t
  /\ description t' = description t /\ completedDetails t' = completedDetails t.
Proof. destruct o as [v |]; cbn; [destruct (String.eqb v "") |]; cbn; auto. Qed.

Lemma assign_if_truthy_description (o : option string) (t : Task) :
  let t' := assign_if_truthy o set_description t in
  id t' = id t /\ status t' = status t /\ approved t' = approved t
  /\ title t' = title t /\ completedDetails t' = completedDetails t.
Proof. destruct o as [v |]; cbn; [destruct (String.eqb v "") |]; cbn; auto. Qed.

(** What the update action leaves alone: the identifier and the approval
    flag. *)
Lemma apply_update_keeps (a : ToolArgs) (t : Task) :
  id (apply_update a t) = id t /\ approved (apply_update a t) = approved t.
Proof.
  unfold apply_update.
  set (t1 := match argStatus a with
             | Some st => if String.eqb st "done"
                          then set_completedDetails (JS.or_else (argCompletedDetails a) "") t
                          else t
             | None => t end).
  assert (H1 : id t1 = id t /\ approved t1 = approved t).
  { subst t1. destruct (argStatus a) as [st |]; [destruct (String.eqb st "done") |]; now cbn. }
  destruct (assign_if_truthy_title (argTitle a) t1) as (I2 & _ & A2 & _).
  destruct (assign_if_truthy_description (argDescription a)
              (assign_if_truthy (argTitle a) set_title t1)) as (I3 & _ & A3 & _).
  destruct H1 as [I1 A1].
  destruct (argStatus a) as [st |]; [destruct (status_of_text st) |]; cbn;
    split; congruence.
Qed.

Ltac unchanged := cbn; try apply evolved_loaded.

Lemma createProject_evolved prompt defs plan s :
  evolved (known_tasks s) (data (fst (createProject prompt defs plan s))).
Proof.
  unfold createProject. rewrite save_and_return_data. cbn [data].
  intros t' I. unfold all_tasks in I. cbn [projects] in I.
  rewrite flat_map_app in I. apply in_app_iff in I. destruct I as [I | I].
  - apply evolved_loaded. exact I.
  - cbn in I. rewrite app_nil_r in I. right. eapply newTasks_created; eauto.
Qed.

Lemma getNextTask_evolved pid s :
  evolved (known_tasks s) (data (fst (getNextTask pid s))).
Proof.
  unfold getNextTask. destruct (find_project _ _) as [proj |]; [| unchanged].
  destruct (completed proj); [unchanged |].
  destruct (find _ _); [unchanged |].
  destruct (_ && _)%bool; unchanged.
Qed.

Lemma markTaskDone_evolved pid tid details s :
  evolved (known_tasks s) (data (fst (markTaskDone pid tid details s))).
Proof.
  unfold markTaskDone. destruct (find_project _ _) as [proj |] eqn:Hp; [| unchanged].
  destruct (find_task _ _) as [task |] eqn:Ht; [| unchanged].
  destruct (is_done task); [unchanged |].
  rewrite save_and_return_data. cbn [data with_data].
  eapply evolved_update_task; eauto using loaded_tasks_known.
  unfold lawful. cbn. repeat split; congruence.
Qed.

Lemma approveTaskCompletion_evolved pid tid s :
  evolved (known_tasks s) (data (fst (approveTaskCompletion pid tid s))).
Proof.
  unfold approveTaskCompletion.
  destruct (find_project _ _) as [proj |] eqn:Hp; [| unchanged].
  destruct (find_task _ _) as [task |] eqn:Ht; [| unchanged].
  destruct (is_done task) eqn:Hd; cbn [negb]; [| unchanged].
  destruct (approved task) eqn:Ha; [unchanged |].
  rewrite save_and_return_data. cbn [data with_data].
  eapply evolved_update_task; eauto using loaded_tasks_known.
  apply is_done_true in Hd. unfold lawful. cbn. repeat split; congruence.
Qed.

Lemma approveProjectCompletion_evolved pid s :
  evolved (known_tasks s) (data (fst (approveProjectCompletion pid s))).
Proof.
  unfold approveProjectCompletion.
  destruct (find_project _ _) as [proj |] eqn:Hp; [| unchanged].
  destruct (negb (forallb is_done _)); [unchanged |].
  destruct (negb (forallb _ _)); [unchanged |].
  rewrite save_and_return_data. cbn [data with_data].
  eapply evolved_update_project; eauto using loaded_tasks_known.
Qed.

Lemma openTaskDetails_evolved tid s :
  evolved (known_tasks s) (data (fst (openTaskDetails tid s))).
Proof.
  unfold openTaskDetails. destruct (first_task_named _ _) as [[p t] |]; unchanged.
Qed.

Lemma addTasksToProject_evolved pid defs s :
  evolved (known_tasks s) (data (fst (addTasksToProject pid defs s))).
Proof.
  unfold addTasksToProject.
  destruct (find_project _ _) as [proj |] eqn:Hp; [| unchanged].
  destruct (completed proj); [unchanged |].
  rewrite save_and_return_data. cbn [data].
  eapply evolved_update_project; eauto using loaded_tasks_known.
  cbn. intros t I. apply in_app_iff in I. destruct I as [I | I]; [now left |].
  right. eapply newTasks_created; eauto.
Qed.

Lemma updateTask_evolved pid tid ut ud s :
  evolved (known_tasks s) (data (fst (updateTask pid tid ut ud s))).
Proof.
  unfold updateTask. destruct (find_project _ _) as [proj |] eqn:Hp; [| unchanged].
  destruct (find_task _ _) as [task |] eqn:Ht; [| unchanged].
  destruct (is_done task); [unchanged |].
  rewrite save_and_return_data. cbn [data with_data].
  eapply evolved_update_task; eauto using loaded_tasks_known.
  destruct (assign_if_truthy_title ut task) as (I1 & S1 & A1 & _).
  destruct (assign_if_truthy_description ud (assign_if_truthy ut set_title task))
    as (I2 & S2 & A2 & _).
  unfold lawful. repeat split; congruence.
Qed.

Lemma deleteTask_evolved pid tid s :
  evolved (known_tasks s) (data (fst (deleteTask pid tid s))).
Proof.
  unfold deleteTask. destruct (find_project _ _) as [proj |] eqn:Hp; [| unchanged].
  destruct (find_task _ _) as [task |] eqn:Ht; [| unchanged].
  destruct (is_done task); [unchanged |].
  rewrite save_and_return_data. cbn [data with_data].
  eapply evolved_update_project; eauto using loaded_tasks_known.
  cbn. intros t I. left. eapply In_remove_first; eauto.
Qed.

Lemma handleTaskTool_update_evolved a s :
  evolved (known_tasks s) (data (fst (handleTaskTool_update a s))).
Proof.
  unfold handleTaskTool_update.
  assert (M : evolved (known_tasks s) (data s))
    by (apply evolved_subset, known_in_memory).
  destruct (find_project _ _) as [proj |] eqn:Hp; [| exact M].
  destruct (find_task _ _) as [task |] eqn:Ht; [| exact M].
  destruct (approved task) eqn:Ha; [exact M |].
  destruct (update_rejection task a); [exact M |].
  rewrite save_and_return_data. cbn [data with_data].
  eapply evolved_update_task; eauto using known_in_memory.
  destruct (apply_update_keeps a task) as [I A].
  unfold lawful. repeat split; congruence.
Qed.

Lemma handleProjectTool_delete_evolved a s :
  evolved (known_tasks s) (data (fst (handleProjectTool_delete a s))).
Proof.
  unfold handleProjectTool_delete.
  destruct (find_project _ _) as [proj |] eqn:Hp;
    [| apply evolved_subset, known_in_memory].
  rewrite save_and_return_data. cbn [data with_data].
  apply evolved_subset. intros t I. apply known_in_memory.
  unfold all_tasks in *. cbn [projects] in I.
  apply in_flat_map in I. destruct I as (p & Ip & It).
  apply in_flat_map. exists p. split; [eapply In_remove_first; eauto | exact It].
Qed.

(** Whatever the call, each task of the resulting snapshot stems lawfully
    from a task known before the call, or is new and unapproved. *)
Lemma step_evolved (c : Call) (s : TaskManagerServer) :
  evolved (known_tasks s) (data (fst (step c s))).
Proof.
  destruct c; cbn [step].
  - apply createProject_evolved.
  - apply getNextTask_evolved.
  - apply markTaskDone_evolved.
  - apply approveTaskCompletion_evolved.
  - apply approveProjectCompletion_evolved.
  - apply openTaskDetails_evolved.
  - unchanged.
  - apply addTasksToProject_evolved.
  - apply updateTask_evolved.
  - apply deleteTask_evolved.
  - unfold handleProjectTool.
    destruct (String.eqb action "list"); [unchanged |].
    destruct (String.eqb action "create"); [apply createProject_evolved |].
    destruct (String.eqb action "delete"); [apply handleProjectTool_delete_evolved |].
    destruct (String.eqb action "add_tasks"); [apply addTasksToProject_evolved |].
    destruct (String.eqb action "finalize"); [apply approveProjectCompletion_evolved |].
    apply evolved_subset, known_in_memory.
  - unfold handleTaskTool.
    destruct (String.eqb action "read"); [apply openTaskDetails_evolved |].
    destruct (String.eqb action "update"); [apply handleTaskTool_update_evolved |].
    destruct (String.eqb action "delete"); [apply deleteTask_evolved |].
    apply evolved_subset, known_in_memory.
  - unchanged.
  - apply evolved_subset, known_in_memory.
  - cbn [fst]. rewrite newServer_data. apply evolved_loaded.
Qed.

Ltac file_case :=
  cbn [fst];
  first
    [ rewrite save_and_return_file, save_and_return_data;
      cbn [disk data with_data]; rewrite ?loadTasks_disk;
      destruct (writable _); [right | left]; reflexivity
    | rewrite ?newServer_disk, ?loadTasks_disk; left; reflexivity ].

Ltac split_call :=
  repeat match goal with
         | |- context [match ?x with _ => _ end] => destruct x
         end.

(** After a call the file has its old content or holds the snapshot. *)
Lemma step_file (c : Call) (s : TaskManagerServer) :
  file (disk (fst (step c s))) = file (disk s)
  \/ file (disk (fst (step c s))) = Some (data (fst (step c s))).
Proof.
  destruct c; cbn [step];
    unfold handleProjectTool, handleTaskTool, createProject, getNextTask,
      markTaskDone, approveTaskCompletion, approveProjectCompletion,
      openTaskDetails, listProjects, addTasksToProject, updateTask,
      deleteTask, handleTaskTool_update, handleProjectTool_delete;
    cbv zeta; split_call; file_case.
Qed.

Lemma lawful_ok (t t' : Task) : task_ok t -> lawful t t' -> task_ok t'.
Proof.
  unfold task_ok, lawful. intros K (_ & L2 & L3) A'.
  destruct (approved t) eqn:A; [auto | now apply L2].
Qed.

Lemma created_ok (t : Task) : newly_created t -> task_ok t.
Proof. unfold task_ok. intros [_ A]. congruence. Qed.

Lemma inv_known (s : TaskManagerServer) :
  inv s <-> Forall task_ok (known_tasks s).
Proof.
  unfold inv, file_ok, known_tasks. rewrite Forall_app. split.
  - intros [M F]. split; [exact M |].
    destruct (file (disk s)) as [d |]; [now apply F | constructor].
  - intros [M F]. split; [exact M |]. intros d E. now rewrite E in F.
Qed.

Lemma inv_step (c : Call) (s : TaskManagerServer) :
  inv s -> inv (fst (step c s)).
Proof.
  intros I. pose proof (proj1 (inv_known s) I) as K.
  assert (M : file_ok (data (fst (step c s)))).
  { apply Forall_forall. intros t' H.
    destruct (step_evolved c s t' H) as [(t & Ht & L) | N].
    - eapply lawful_ok; [| exact L]. rewrite Forall_forall in K. now apply K.
    - now apply created_ok. }
  split; [exact M |]. intros d E.
  destruct (step_file c s) as [F | F]; rewrite F in E.
  - destruct I as [_ I]. now apply I.
  - now injection E as <-.
Qed.

Lemma inv_run (cs : list Call) :
  forall s, inv s -> inv (run cs s).
Proof.
  induction cs as [| c cs IH]; cbn; intros s I; [exact I |].
  apply IH, inv_step, I.
Qed.

End Approval.

(* ------------------------------------------------------------------ *)
(** ** Approved tasks are never edited *)

Section ApprovedList.

Lemma filter_newTasks (defs : list TaskDef) :
  forall c, filter approved (newTasks c defs) = [].
Proof.
  induction defs as [| d defs IH]; intros c; cbn [newTasks filter approved];
    [reflexivity | apply IH].
Qed.

(** The approved tasks of a snapshot around a project found by name. *)
Lemma approved_tasks_focus (pid : string) (d : TaskManagerFile) (proj : Project) :
  find_project pid d = Some proj ->
  exists l1 l2,
    approved_tasks d = l1 ++ filter approved (tasks proj) ++ l2
    /\ (forall g, approved_tasks (update_project pid g d)
                  = l1 ++ filter approved (tasks (g proj)) ++ l2)
    /\ approved_tasks (mkFile (JS.remove_first (is_project pid) (projects d)))
       = l1 ++ l2.
Proof.
  intros H. destruct (focus_project pid d proj H) as (ps1 & ps2 & _ & E & _ & U & R).
  exists (approved_tasks (mkFile ps1)), (approved_tasks (mkFile ps2)).
  unfold approved_tasks. split; [| split].
  - now rewrite E, !filter_app.
  - intros g. now rewrite U, !filter_app.
  - cbn [projects]. now rewrite R, all_tasks_app, filter_app.
Qed.

Lemma approved_update_project (pid : string) (d : TaskManagerFile) (proj : Project)
    (g : Project -> Project) :
  find_project pid d = Some proj ->
  filter approved (tasks (g proj)) = filter approved (tasks proj) ->
  approved_tasks (update_project pid g d) = approved_tasks d.
Proof.
  intros H E. destruct (approved_tasks_focus pid d proj H) as (l1 & l2 & B & A & _).
  now rewrite A, B, E.
Qed.

(** A task that is not approved, changed through its reference into one
    that is not approved either. *)
Lemma approved_update_task (pid tid : string) (d : TaskManagerFile) (proj : Project)
    (task : Task) (f : Task -> Task) :
  find_project pid d = Some proj -> find_task tid proj = Some task ->
  approved task = false -> approved (f task) = false ->
  approved_tasks (update_task pid tid f d) = approved_tasks d.
Proof.
  intros Hp Ht A A'. unfold update_task.
  apply (approved_update_project pid d proj _ Hp). cbn [tasks set_tasks].
  unfold find_task in Ht.
  destruct (first_match_split _ _ _ Ht) as (t1 & t2 & E & _ & _ & U & _).
  rewrite U, E, !filter_app. cbn [filter]. now rewrite A, A'.
Qed.

(** A task that is not approved, changed through its reference into an
    approved one: one entry more. *)
Lemma approved_update_task_on (pid tid : string) (d : TaskManagerFile)
    (proj : Project) (task : Task) (f : Task -> Task) :
  find_project pid d = Some proj -> find_task tid proj = Some task ->
  approved task = false -> approved (f task) = true ->
  exists l1 l2,
    approved_tasks d = l1 ++ l2
    /\ approved_tasks (update_task pid tid f d) = l1 ++ f task :: l2.
Proof.
  intros Hp Ht A A'. unfold update_task.
  destruct (approved_tasks_focus pid d proj Hp) as (l1 & l2 & B & C & _).
  unfold find_task in Ht.
  destruct (first_match_split _ _ _ Ht) as (t1 & t2 & E & _ & _ & U & _).
  exists (l1 ++ filter approved t1), (filter approved t2 ++ l2).
  rewrite C, B. cbn [tasks set_tasks]. rewrite U, E, !filter_app. cbn [filter].
  rewrite A, A'. now rewrite <- !app_assoc.
Qed.

Lemma approved_remove_task (tid : string) (ts : list Task) (task : Task) :
  find (is_task tid) ts = Some task -> approved task = false ->
  filter approved (JS.remove_first (is_task tid) ts) = filter approved ts.
Proof.
  intros Ht A. destruct (first_match_split _ _ _ Ht) as (t1 & t2 & E & _ & _ & _ & R).
  rewrite R, E, !filter_app. cbn [filter]. now rewrite A.
Qed.

Lemma subseq_refl {A} (l : list A) : subseq l l.
Proof. induction l; [apply subseq_nil | now apply subseq_keep]. Qed.

Lemma subseq_trans {A} (l1 l2 l3 : list A) :
  subseq l1 l2 -> subseq l2 l3 -> subseq l1 l3.
Proof.
  intros H12 H23. revert l1 H12.
  induction H23 as [| x l2 l3 H IH | x l2 l3 H IH]; intros l1 H12.
  - exact H12.
  - apply subseq_skip. now apply IH.
  - inversion H12 as [| y a b K | y a b K]; subst.
    + apply subseq_skip. now apply IH.
    + apply subseq_keep. now apply IH.
Qed.

Lemma subseq_insert {A} (x : A) (l1 l2 : list A) : subseq (l1 ++ l2) (l1 ++ x :: l2).
Proof.
  induction l1 as [| y l1 IH]; cbn.
  - apply subseq_skip, subseq_refl.
  - now apply subseq_keep.
Qed.

End ApprovedList.

Section Immutable.
Variable s : TaskManagerServer.
Hypothesis I : inv s.

Lemma known_ok (t : Task) : In t (known_tasks s) -> task_ok t.
Proof. apply inv_known in I. rewrite Forall_forall in I. apply I. Qed.

Lemma found_known (pid tid : string) (d : TaskManagerFile) (proj : Project)
    (task : Task) :
  (forall t, In t (all_tasks d) -> In t (known_tasks s)) ->
  find_project pid d = Some proj -> find_task tid proj = Some task ->
  In task (known_tasks s).
Proof.
  intros Sub Hp Ht. apply Sub.
  destruct (all_tasks_focus pid d proj Hp) as (rest & V & _).
  apply V. right. now apply find_task_In with tid.
Qed.

(** A task that is not done is not approved (the approval invariant). *)
Lemma not_done_unapproved (t : Task) :
  In t (known_tasks s) -> is_done t = false -> approved t = false.
Proof.
  intros K D. destruct (approved t) eqn:A; [| reflexivity].
  apply known_ok in K. specialize (K A). apply is_done_true in K. congruence.
Qed.

Ltac is_action E :=
  apply String.eqb_eq in E; subst; cbn [String.eqb Ascii.eqb Bool.eqb orb negb].

(** What one call does to the list of approved tasks. *)
Lemma step_approved_list (c : Call) :
  approved_change c (works_on c s)
    (approved_tasks (works_on c s)) (approved_tasks (data (fst (step c s)))).
Proof.
  pose proof (loaded_tasks_known s) as SL.
  pose proof (known_in_memory s) as SM.
  assert (CP : forall prompt defs plan,
             approved_tasks (data (fst (createProject prompt defs plan s)))
             = approved_tasks (data (loadTasks s))).
  { intros. unfold createProject. rewrite save_and_return_data. cbn [data].
    unfold approved_tasks, all_tasks. cbn [projects].
    rewrite flat_map_app, filter_app. cbn [flat_map tasks].
    now rewrite app_nil_r, filter_newTasks, app_nil_r. }
  assert (AT : forall pid defs,
             approved_tasks (data (fst (addTasksToProject pid defs s)))
             = approved_tasks (data (loadTasks s))).
  { intros. unfold addTasksToProject.
    destruct (find_project _ _) as [proj |] eqn:Hp; [| reflexivity].
    destruct (completed proj); [reflexivity |].
    rewrite save_and_return_data. cbn [data].
    apply (approved_update_project pid _ proj _ Hp). cbn [tasks set_tasks].
    now rewrite filter_app, filter_newTasks, app_nil_r. }
  assert (AP : forall pid,
             approved_tasks (data (fst (approveProjectCompletion pid s)))
             = approved_tasks (data (loadTasks s))).
  { intros. unfold approveProjectCompletion.
    destruct (find_project _ _) as [proj |] eqn:Hp; [| reflexivity].
    destruct (negb (forallb is_done _)); [reflexivity |].
    destruct (negb (forallb _ _)); [reflexivity |].
    rewrite save_and_return_data. cbn [data with_data].
    now apply (approved_update_project pid _ proj _ Hp). }
  assert (DT : forall pid tid,
             approved_tasks (data (fst (deleteTask pid tid s)))
             = approved_tasks (data (loadTasks s))).
  { intros. unfold deleteTask.
    destruct (find_project _ _) as [proj |] eqn:Hp; [| reflexivity].
    destruct (find_task _ _) as [task |] eqn:Ht; [| reflexivity].
    destruct (is_done task) eqn:D; [reflexivity |].
    rewrite save_and_return_data. cbn [data with_data].
    apply (approved_update_project pid _ proj _ Hp). cbn [tasks set_tasks].
    apply (approved_remove_task tid _ task Ht).
    apply not_done_unapproved; [| exact D].
    exact (found_known pid tid _ proj task SL Hp Ht). }
  assert (OT : forall tid,
             approved_tasks (data (fst (openTaskDetails tid s)))
             = approved_tasks (data (loadTasks s))).
  { intros. unfold openTaskDetails.
    now destruct (first_task_named _ _) as [[p t] |]. }
  destruct c; cbn [step works_on approved_change].
  - apply CP.
  - unfold getNextTask. destruct (find_project _ _) as [proj |]; [| reflexivity].
    destruct (completed proj); [reflexivity |].
    destruct (find _ _); [reflexivity |]. now destruct (_ && _)%bool.
  - unfold markTaskDone.
    destruct (find_project _ _) as [proj |] eqn:Hp; [| reflexivity].
    destruct (find_task _ _) as [task |] eqn:Ht; [| reflexivity].
    destruct (is_done task) eqn:D; [reflexivity |].
    rewrite save_and_return_data. cbn [data with_data].
    assert (A : approved task = false).
    { apply not_done_unapproved; [| exact D].
      exact (found_known pid tid _ proj task SL Hp Ht). }
    now apply (approved_update_task pid tid _ proj task _ Hp Ht A).
  - unfold approveTaskCompletion.
    destruct (find_project _ _) as [proj |] eqn:Hp; [| now left].
    destruct (find_task _ _) as [task |] eqn:Ht; [| now left].
    destruct (is_done task) eqn:D; cbn [negb]; [| now left].
    destruct (approved task) eqn:A; [now left |].
    rewrite save_and_return_data. cbn [data with_data]. right.
    destruct (approved_update_task_on pid tid _ proj task (set_approved true)
                Hp Ht A eq_refl) as (l1 & l2 & B & C).
    apply is_done_true in D. exists proj, task, l1, l2.
    repeat (split; [assumption |]). rewrite C. unfold set_approved. now rewrite D.
  - apply AP.
  - apply OT.
  - reflexivity.
  - apply AT.
  - unfold updateTask.
    destruct (find_project _ _) as [proj |] eqn:Hp; [| reflexivity].
    destruct (find_task _ _) as [task |] eqn:Ht; [| reflexivity].
    destruct (is_done task) eqn:D; [reflexivity |].
    rewrite save_and_return_data. cbn [data with_data].
    assert (A : approved task = false).
    { apply not_done_unapproved; [| exact D].
      exact (found_known pid tid _ proj task SL Hp Ht). }
    apply (approved_update_task pid tid _ proj task _ Hp Ht A).
    destruct (assign_if_truthy_title utitle task) as (_ & _ & A1 & _).
    destruct (assign_if_truthy_description udescription
                (assign_if_truthy utitle set_title task)) as (_ & _ & A2 & _).
    now rewrite A2, A1.
  - apply DT.
  - unfold handleProjectTool.
    destruct (String.eqb action "list") eqn:E1; [is_action E1; reflexivity |].
    destruct (String.eqb action "create") eqn:E2; [is_action E2; apply CP |].
    destruct (String.eqb action "delete") eqn:E3.
    { cbn [orb]. unfold handleProjectTool_delete.
      assert (String.eqb action "add_tasks" = false) as ->
          by (apply String.eqb_eq in E3; now subst).
      assert (String.eqb action "finalize" = false) as ->
          by (apply String.eqb_eq in E3; now subst).
      destruct (find_project _ _) as [proj |] eqn:Hp; [| now left].
      rewrite save_and_return_data. cbn [data with_data]. right.
      destruct (approved_tasks_focus _ _ proj Hp) as (l1 & l2 & B & _ & R).
      exists proj, l1, l2. now rewrite R. }
    destruct (String.eqb action "add_tasks") eqn:E4; [apply AT |].
    destruct (String.eqb action "finalize") eqn:E5; [apply AP | reflexivity].
  - unfold handleTaskTool.
    destruct (String.eqb action "read") eqn:E1; [apply OT |].
    destruct (String.eqb action "update") eqn:E2.
    { assert (String.eqb action "delete" = false) as ->
          by (apply String.eqb_eq in E2; now subst).
      cbn [orb]. unfold handleTaskTool_update.
      destruct (find_project _ _) as [proj |] eqn:Hp; [| reflexivity].
      destruct (find_task _ _) as [task |] eqn:Ht; [| reflexivity].
      destruct (approved task) eqn:A; [reflexivity |].
      destruct (update_rejection task a); [reflexivity |].
      rewrite save_and_return_data. cbn [data with_data].
      apply (approved_update_task _ _ _ proj task _ Hp Ht A).
      destruct (apply_update_keeps a task) as [_ K]. congruence. }
    destruct (String.eqb action "delete") eqn:E3; [apply DT | reflexivity].
  - reflexivity.
  - reflexivity.
  - cbn [fst]. now rewrite newServer_data.
Qed.

(** Apart from the deletion of a project, a call only adds to the list
    of approved tasks. *)
Lemma step_approved_subseq (c : Call) :
  keeps_projects c = true ->
  subseq (approved_tasks (works_on c s)) (approved_tasks (data (fst (step c s)))).
Proof.
  intros K. pose proof (step_approved_list c) as H.
  destruct c; cbn [approved_change keeps_projects] in H, K;
    try (rewrite H; apply subseq_refl).
  - destruct H as [-> | (proj & task & l1 & l2 & _ & _ & _ & _ & -> & ->)];
      [apply subseq_refl | apply subseq_insert].
  - destruct (String.eqb action "delete"); [discriminate K |].
    rewrite H. apply subseq_refl.
Qed.

Lemma works_on_cases (c : Call) :
  works_on c s = data s \/ works_on c s = data (loadTasks s).
Proof.
  destruct c; cbn [works_on]; auto.
  - destruct (_ || _)%bool; auto.
  - destruct (_ || _)%bool; auto.
Qed.

End Immutable.

Lemma loaded_after_step (c : Call) (s : TaskManagerServer) :
  data (loadTasks (fst (step c s))) = data (loadTasks s)
  \/ data (loadTasks (fst (step c s))) = data (fst (step c s)).
Proof.
  unfold loadTasks.
  destruct (step_file c s) as [F | F]; rewrite F.
  - left. now destruct (file (disk s)).
  - now right.
Qed.

Lemma run_approved_subseq (cs : list Call) :
  forall s kept,
    inv s -> forallb keeps_projects cs = true ->
    subseq kept (approved_tasks (data s)) ->
    subseq kept (approved_tasks (data (loadTasks s))) ->
    subseq kept (approved_tasks (data (run cs s)))
    /\ subseq kept (approved_tasks (data (loadTasks (run cs s)))).
Proof.
  induction cs as [| c cs IH]; cbn [run forallb]; intros s kept I K M L.
  - now split.
  - apply andb_true_iff in K. destruct K as [Kc K].
    assert (M' : subseq kept (approved_tasks (data (fst (step c s))))).
    { apply subseq_trans with (approved_tasks (works_on c s));
        [| now apply step_approved_subseq].
      now destruct (works_on_cases s c) as [-> | ->]. }
    apply IH; [now apply inv_step | exact K | exact M' |].
    now destruct (loaded_after_step c s) as [-> | ->].
Qed.

(** C1.  Starting from a manager whose tasks all satisfy
    [approved = true -> status = done] (in memory and on file), the same
    holds after any sequence of calls of the public methods (and reloads,
    restarts, and the medium turning read-only or writable).  Moreover any
    further call only produces tasks that stem lawfully from a task known
    before it, or new unapproved ones; and it leaves the list of approved
    tasks of the snapshot it works on exactly as it is, with two
    exceptions: [approveTaskCompletion] may insert one entry, the task
    found, which was done and not approved, with every other field kept;
    the delete action of [handleProjectTool] may take out the approved
    tasks of the project it deletes.  So approval is switched on only for
    a task that is done, and no call changes the status, or any other
    field, of an approved task. *)
Theorem approved_implies_done (cs : list Call) (s : TaskManagerServer) :
  inv s ->
  (forall t, In t (known_tasks (run cs s)) -> approved t = true -> status t = Done)
  /\ (forall c t', In t' (all_tasks (data (fst (step c (run cs s))))) ->
        (exists t, In t (known_tasks (run cs s)) /\ lawful t t') \/ newly_created t')
  /\ (forall c,
        approved_change c (works_on c (run cs s))
          (approved_tasks (works_on c (run cs s)))
          (approved_tasks (data (fst (step c (run cs s)))))).
Proof.
  intros I. pose proof (inv_run cs s I) as R. split; [| split].
  - intros t H. apply inv_known in R. rewrite Forall_forall in R. now apply R.
  - intros c t' H. exact (step_evolved c (run cs s) t' H).
  - intros c. exact (step_approved_list (run cs s) R c).
Qed.

Lemma approved_implies_done_witness :
  inv Scenario.signed_off
  /\ (forall t,
        In t (known_tasks
                (run [HandleTaskTool "update"
                        (Scenario.set_status_args "proj-1" "task-1" "in progress" None);
                      MarkTaskDone "proj-1" "task-1" None;
                      AddTasksToProject "proj-1" Scenario.two_tasks;
                      ApproveProjectCompletion "proj-1"]
                     Scenario.signed_off)) ->
        approved t = true -> status t = Done)
  /\ approved_tasks (data Scenario.signed_off)
     = [mkTask "task-1" "T1" "first" Done true "shipped"]
  /\ approved_tasks
       (data (fst (step (HandleTaskTool "update"
                           (Scenario.set_status_args "proj-1" "task-1" "in progress"
                              None))
                        Scenario.signed_off)))
     = approved_tasks (data Scenario.signed_off).
Proof.
  assert (I : inv Scenario.signed_off).
  { split.
    - repeat constructor.
    - intros d E. vm_compute in E. injection E as <-. repeat constructor. }
  split; [exact I |].
  split; [exact (proj1 (approved_implies_done _ Scenario.signed_off I)) |].
  split; [reflexivity |].
  exact (proj2 (proj2 (approved_implies_done [] Scenario.signed_off I))
           (HandleTaskTool "update"
              (Scenario.set_status_args "proj-1" "task-1" "in progress" None))).
Defined.

(* ------------------------------------------------------------------ *)
(** ** Next-task selection *)

(** C2, as the source has it.  For a project that exists and is not
    completed, [getNextTask] returns the first task, in insertion order,
    whose status is not done, be it in progress or not started: a task
    preceded only by done tasks is the one returned.  In particular on
    {T1: done, T2: in progress, T3: not started} it returns T2. *)
Theorem getNextTask_first_not_done (s : TaskManagerServer) (pid : string)
    (proj : Project) :
  find_project pid (data (loadTasks s)) = Some proj ->
  completed proj = false ->
  (forall l1 t l2,
      tasks proj = l1 ++ t :: l2 ->
      Forall (fun u => status u = Done) l1 -> status t <> Done ->
      getNextTask pid s
      = (loadTasks s, Returned (NextTask (id t) (title t) (description t))))
  /\ (forall t1 t2 t3,
        tasks proj = [t1; t2; t3] ->
        status t1 = Done -> status t2 = InProgress -> status t3 = NotStarted ->
        getNextTask pid s
        = (loadTasks s, Returned (NextTask (id t2) (title t2) (description t2)))).
Proof.
  intros Hp Hc.
  assert (A : forall l1 t l2,
             tasks proj = l1 ++ t :: l2 ->
             Forall (fun u => status u = Done) l1 -> status t <> Done ->
             getNextTask pid s
             = (loadTasks s, Returned (NextTask (id t) (title t) (description t)))).
  { intros l1 t l2 E F N. unfold getNextTask. rewrite Hp, Hc, E.
    rewrite (find_first_of_split (fun t => negb (is_done t)) l1 l2 t); [reflexivity | |].
    - eapply Forall_impl; [| exact F]. cbn. intros u Hu.
      apply is_done_true in Hu. now rewrite Hu.
    - destruct (is_done t) eqn:D; [| reflexivity].
      apply is_done_true in D. contradiction. }
  split; [exact A |].
  intros t1 t2 t3 E S1 S2 S3. apply (A [t1] t2 [t3]).
  - exact E.
  - now constructor.
  - congruence.
Qed.

Lemma getNextTask_first_not_done_witness :
  Scenario.view "proj-1" (loadTasks Scenario.second_started)
  = Some (false, [("task-1", NotStarted, false, ""); ("task-2", InProgress, false, "")])
  /\ getNextTask "proj-1" Scenario.second_started
     = (loadTasks Scenario.second_started, Returned (NextTask "task-1" "T1" "first")).
Proof.
  split; [reflexivity |].
  refine (proj1 (getNextTask_first_not_done Scenario.second_started "proj-1"
                   (mkProject "proj-1" "demo" "demo"
                      [mkTask "task-1" "T1" "first" NotStarted false "";
                       mkTask "task-2" "T2" "second" InProgress false ""]
                      false None) _ _)
            [] (mkTask "task-1" "T1" "first" NotStarted false "")
            [mkTask "task-2" "T2" "second" InProgress false ""] _ _ _).
  - reflexivity.
  - reflexivity.
  - reflexivity.
  - constructor.
  - discriminate.
Defined.

(** C2 fails as stated: with {T1: not started, T2: in progress} the task
    returned is T1, the earlier task that is not started, not T2. *)
Lemma getNextTask_in_progress_not_preferred :
  Scenario.view "proj-1" (loadTasks Scenario.second_started)
  = Some (false, [("task-1", NotStarted, false, ""); ("task-2", InProgress, false, "")])
  /\ snd (getNextTask "proj-1" Scenario.second_started)
     = Returned (NextTask "task-1" "T1" "first")
  /\ snd (getNextTask "proj-1" Scenario.second_started)
     <> Returned (NextTask "task-2" "T2" "second").
Proof. split; [reflexivity | split; [reflexivity | discriminate]]. Qed.

(** C10.  For a project whose [completed] flag is set, [getNextTask]
    answers [already_completed] at once, whatever its tasks are. *)
Theorem getNextTask_completed (s : TaskManagerServer) (pid : string) (proj : Project) :
  find_project pid (data (loadTasks s)) = Some proj ->
  completed proj = true ->
  getNextTask pid s = (loadTasks s, Returned AlreadyCompleted).
Proof. intros Hp Hc. unfold getNextTask. now rewrite Hp, Hc. Qed.

Lemma getNextTask_completed_witness :
  Scenario.view "proj-1" (loadTasks Scenario.finalized)
  = Some (true, [("task-1", Done, true, "shipped")])
  /\ getNextTask "proj-1" Scenario.finalized
     = (loadTasks Scenario.finalized, Returned AlreadyCompleted).
Proof.
  split; [reflexivity |].
  apply (getNextTask_completed Scenario.finalized "proj-1"
           (mkProject "proj-1" "demo" "demo"
              [mkTask "task-1" "T1" "first" Done true "shipped"] true None));
    reflexivity.
Defined.

(* ------------------------------------------------------------------ *)
(** ** Finalization *)

Lemma set_completed_same (p : Project) :
  completed p = true -> set_completed true p = p.
Proof. destruct p; cbn; now intros ->. Qed.

Lemma find_project_updated (pid : string) (d : TaskManagerFile) (proj : Project)
    (g : Project -> Project) :
  find_project pid d = Some proj -> projectId (g proj) = projectId proj ->
  find_project pid (update_project pid g d) = Some (g proj).
Proof.
  intros H E. unfold find_project, update_project in *.
  destruct (first_match_split _ _ _ H) as (l1 & l2 & _ & P & F & U & _).
  cbn [projects]. rewrite U. apply find_first_of_split; [exact F |].
  unfold is_project in *. now rewrite E.
Qed.

(** C3, as the source has it.  [approveProjectCompletion] has no
    already-completed check.  On a project whose [completed] flag is set it
    answers as on any other project: "Not all tasks are done." if a task is
    not done, "Not all done tasks are approved." if a done task is not
    approved, and otherwise the success result (or the exception of a
    failed write).  In every case the snapshot, and with it the project,
    is left as loaded. *)
Theorem approveProjectCompletion_completed (s : TaskManagerServer) (pid : string)
    (proj : Project) :
  find_project pid (data (loadTasks s)) = Some proj ->
  completed proj = true ->
  data (fst (approveProjectCompletion pid s)) = data (loadTasks s)
  /\ snd (approveProjectCompletion pid s)
     = if negb (forallb is_done (tasks proj))
       then Returned (Error "Not all tasks are done.")
       else if negb (forallb (fun t => is_done t && approved t)%bool (tasks proj))
       then Returned (Error "Not all done tasks are approved.")
       else if writable (disk s)
       then Returned (ProjectApprovedComplete (projectId proj))
       else Thrown.
Proof.
  intros Hp Hc. unfold approveProjectCompletion. rewrite Hp.
  destruct (negb (forallb is_done (tasks proj))); [now split |].
  destruct (negb (forallb _ (tasks proj))); [now split |].
  rewrite save_and_return_data, save_and_return_outcome.
  cbn [data disk with_data]. rewrite loadTasks_disk. split; [| reflexivity].
  unfold update_project.
  rewrite (update_first_fixed _ _ _ proj Hp (set_completed_same proj Hc)).
  now destruct (data (loadTasks s)).
Qed.

Lemma approveProjectCompletion_completed_witness :
  Scenario.view "proj-1" (loadTasks Scenario.finalized)
  = Some (true, [("task-1", Done, true, "shipped")])
  /\ data (fst (approveProjectCompletion "proj-1" Scenario.finalized))
     = data (loadTasks Scenario.finalized)
  /\ snd (approveProjectCompletion "proj-1" Scenario.finalized)
     = Returned (ProjectApprovedComplete "proj-1").
Proof.
  split; [reflexivity |].
  apply (approveProjectCompletion_completed Scenario.finalized "proj-1"
           (mkProject "proj-1" "demo" "demo"
              [mkTask "task-1" "T1" "first" Done true "shipped"] true None));
    reflexivity.
Defined.

(** C3 fails as stated: finalizing a project that is already completed
    returns the success result, not an error. *)
Lemma finalize_completed_project_succeeds :
  Scenario.view "proj-1" (loadTasks Scenario.finalized)
  = Some (true, [("task-1", Done, true, "shipped")])
  /\ snd (approveProjectCompletion "proj-1" Scenario.finalized)
     = Returned (ProjectApprovedComplete "proj-1")
  /\ (forall m, snd (approveProjectCompletion "proj-1" Scenario.finalized)
                <> Returned (Error m)).
Proof. split; [reflexivity | split; [reflexivity | discriminate]]. Qed.

(** C9.  A project that exists, has no tasks and is not completed is
    finalized: the two checks hold vacuously, the [completed] flag is set,
    and the result is the success result (no "no tasks" error exists); the
    snapshot is written to the file whenever the medium takes the write,
    and a refused write is the only way the call does not return. *)
Theorem approveProjectCompletion_no_tasks (s : TaskManagerServer) (pid : string)
    (proj : Project) :
  find_project pid (data (loadTasks s)) = Some proj ->
  tasks proj = [] ->
  completed proj = false ->
  find_project pid (data (fst (approveProjectCompletion pid s)))
  = Some (set_completed true proj)
  /\ snd (approveProjectCompletion pid s)
     = (if writable (disk s)
        then Returned (ProjectApprovedComplete (projectId proj))
        else Thrown)
  /\ (writable (disk s) = true ->
      file (disk (fst (approveProjectCompletion pid s)))
      = Some (data (fst (approveProjectCompletion pid s)))).
Proof.
  intros Hp Ht Hc. unfold approveProjectCompletion. rewrite Hp, Ht. cbn [forallb negb].
  rewrite save_and_return_data, save_and_return_outcome, save_and_return_file.
  cbn [data disk with_data]. rewrite loadTasks_disk. repeat split.
  - now apply find_project_updated.
  - now intros ->.
Qed.

Lemma approveProjectCompletion_no_tasks_witness :
  Scenario.view "proj-1" (loadTasks Scenario.empty_project) = Some (false, [])
  /\ Scenario.view "proj-1" (fst (approveProjectCompletion "proj-1" Scenario.empty_project))
     = Some (true, [])
  /\ snd (approveProjectCompletion "proj-1" Scenario.empty_project)
     = Returned (ProjectApprovedComplete "proj-1").
Proof.
  split; [reflexivity |].
  destruct (approveProjectCompletion_no_tasks Scenario.empty_project "proj-1"
              (mkProject "proj-1" "nothing to do" "nothing to do" [] false None)
              eq_refl eq_refl eq_refl) as (F & O & _).
  split; [| exact O].
  unfold Scenario.view. now rewrite F.
Defined.

(* ------------------------------------------------------------------ *)
(** ** Status updates through the task tool *)

Lemma handleTaskTool_update_eq (a : ToolArgs) (s : TaskManagerServer) :
  handleTaskTool "update" a s = handleTaskTool_update a s.
Proof. reflexivity. Qed.

(** C4, as the source has it.  The update action of [handleTaskTool], the
    one operation that takes a requested status, rejects a request to set a
    task that is not started to done (the task obeying the approval
    invariant, so not approved): it returns the invalid-transition error
    and leaves the manager, hence the task's status, approved flag and
    completedDetails, untouched.
    ([markTaskDone] is no such operation: it takes no status and marks any
    task that is not done as done.) *)
Theorem update_not_started_to_done_rejected (s : TaskManagerServer) (a : ToolArgs)
    (proj : Project) (task : Task) :
  find_project (argProjectId a) (data s) = Some proj ->
  find_task (argTaskId a) proj = Some task ->
  status task = NotStarted ->
  task_ok task ->
  argStatus a = Some "done" ->
  handleTaskTool "update" a s
  = (s, Returned (Error
       "Invalid status transition from 'not started' to 'done'. Allowed transitions: in progress")).
Proof.
  intros Hp Ht Hs Hok Hr.
  assert (Ha : approved task = false).
  { destruct (approved task) eqn:A; [specialize (Hok A); congruence | reflexivity]. }
  rewrite handleTaskTool_update_eq.
  unfold handleTaskTool_update. rewrite Hp, Ht, Ha.
  unfold update_rejection. rewrite Hr, Hs. reflexivity.
Qed.

Lemma update_not_started_to_done_rejected_witness :
  Scenario.view "proj-1" Scenario.planned = Some (false, [("task-1", NotStarted, false, "")])
  /\ handleTaskTool "update"
       (Scenario.set_status_args "proj-1" "task-1" "done" (Some "shipped"))
       Scenario.planned
     = (Scenario.planned, Returned (Error
         "Invalid status transition from 'not started' to 'done'. Allowed transitions: in progress")).
Proof.
  split; [reflexivity |].
  apply (update_not_started_to_done_rejected Scenario.planned
           (Scenario.set_status_args "proj-1" "task-1" "done" (Some "shipped"))
           (mkProject "proj-1" "demo" "demo"
              [mkTask "task-1" "T1" "first" NotStarted false ""] false None)
           (mkTask "task-1" "T1" "first" NotStarted false ""));
    [reflexivity | reflexivity | reflexivity | intros H; discriminate H | reflexivity].
Defined.

(** C4 fails as stated: [markTaskDone] takes a task that is not started
    straight to done. *)
Lemma markTaskDone_from_not_started :
  Scenario.view "proj-1" (loadTasks Scenario.planned)
  = Some (false, [("task-1", NotStarted, false, "")])
  /\ snd (markTaskDone "proj-1" "task-1" (Some "shipped") Scenario.planned)
     = Returned (TaskMarkedDone "proj-1" "task-1" "T1" "first" "shipped" false)
  /\ Scenario.view "proj-1"
       (fst (markTaskDone "proj-1" "task-1" (Some "shipped") Scenario.planned))
     = Some (false, [("task-1", Done, false, "shipped")]).
Proof. repeat split. Qed.

(** C5, as the source has it.  An update action of [handleTaskTool] that
    asks for the status done without a non-empty completedDetails always
    fails and leaves the whole manager (snapshot, counters, file) as it
    was, so nothing of a multi-field update is applied; when the task
    exists and is in progress (and obeys the approval invariant), the
    error is the one that names completedDetails.  ([markTaskDone] is left out:
    its completedDetails argument is optional.) *)
Theorem update_to_done_needs_details (s : TaskManagerServer) (a : ToolArgs) :
  argStatus a = Some "done" ->
  JS.truthy (argCompletedDetails a) = false ->
  (exists m, handleTaskTool "update" a s = (s, Returned (Error m)))
  /\ (forall proj task,
        find_project (argProjectId a) (data s) = Some proj ->
        find_task (argTaskId a) proj = Some task ->
        task_ok task ->
        status task = InProgress ->
        handleTaskTool "update" a s
        = (s, Returned (Error
             "completedDetails is required when setting status to 'done'"))).
Proof.
  intros Hr Hd. rewrite handleTaskTool_update_eq. unfold handleTaskTool_update.
  split.
  - destruct (find_project _ _) as [proj |]; [| eauto].
    destruct (find_task _ _) as [task |]; [| eauto].
    destruct (approved task); [eauto |].
    unfold update_rejection. rewrite Hr, Hd.
    destruct (_ && _)%bool; cbn; eauto.
  - intros proj task Hp Ht Hok Hs.
    assert (Ha : approved task = false).
    { destruct (approved task) eqn:A; [specialize (Hok A); congruence | reflexivity]. }
    rewrite Hp, Ht, Ha. unfold update_rejection. now rewrite Hr, Hd, Hs.
Qed.

Lemma update_to_done_needs_details_witness :
  Scenario.view "proj-1" Scenario.started = Some (false, [("task-1", InProgress, false, "")])
  /\ handleTaskTool "update" (Scenario.set_status_args "proj-1" "task-1" "done" None)
       Scenario.started
     = (Scenario.started, Returned (Error
          "completedDetails is required when setting status to 'done'")).
Proof.
  split; [reflexivity |].
  apply (proj2 (update_to_done_needs_details Scenario.started
                  (Scenario.set_status_args "proj-1" "task-1" "done" None)
                  eq_refl eq_refl)
           (mkProject "proj-1" "demo" "demo"
              [mkTask "task-1" "T1" "first" InProgress false ""] false None)
           (mkTask "task-1" "T1" "first" InProgress false ""));
    [reflexivity | reflexivity | intros H; discriminate H | reflexivity].
Defined.

(** C5 fails as stated: [markTaskDone] called without completedDetails
    moves a task in progress to done and stores the empty string. *)
Lemma markTaskDone_without_details :
  Scenario.view "proj-1" (loadTasks Scenario.started)
  = Some (false, [("task-1", InProgress, false, "")])
  /\ snd (markTaskDone "proj-1" "task-1" None Scenario.started)
     = Returned (TaskMarkedDone "proj-1" "task-1" "T1" "first" "" false)
  /\ Scenario.view "proj-1" (fst (markTaskDone "proj-1" "task-1" None Scenario.started))
     = Some (false, [("task-1", Done, false, "")]).
Proof. repeat split. Qed.

(* ------------------------------------------------------------------ *)
(** ** Approval of a task *)

(** C6.  [approveTaskCompletion] reloads the store (which leaves the file
    alone) and then: returns an error, with nothing else changed, when the
    project or the task does not exist or the task is not done; returns
    [already_approved], with nothing else changed, when the task is done
    and approved; otherwise sets [approved] on exactly that task (the
    first task of that name in the first project of that name: its record
    becomes the same identifier, title, description and details with
    status done and [approved = true]; every other task, every other
    project and every other field of the project kept), writes the
    snapshot to the file and returns [task_approved] (a refused write
    surfaces as the exception). *)
Theorem approveTaskCompletion_cases (s : TaskManagerServer) (pid tid : string) :
  disk (loadTasks s) = disk s
  /\ (find_project pid (data (loadTasks s)) = None ->
      approveTaskCompletion pid tid s
      = (loadTasks s, Returned (Error "Project not found")))
  /\ (forall proj,
        find_project pid (data (loadTasks s)) = Some proj ->
        find_task tid proj = None ->
        approveTaskCompletion pid tid s
        = (loadTasks s, Returned (Error "Task not found")))
  /\ (forall proj task,
        find_project pid (data (loadTasks s)) = Some proj ->
        find_task tid proj = Some task ->
        status task <> Done ->
        approveTaskCompletion pid tid s
        = (loadTasks s, Returned (Error "Task not done yet.")))
  /\ (forall proj task,
        find_project pid (data (loadTasks s)) = Some proj ->
        find_task tid proj = Some task ->
        status task = Done -> approved task = true ->
        approveTaskCompletion pid tid s = (loadTasks s, Returned AlreadyApproved))
  /\ (forall proj task,
        find_project pid (data (loadTasks s)) = Some proj ->
        find_task tid proj = Some task ->
        status task = Done -> approved task = false ->
        exists ps1 ps2 ts1 ts2,
          projects (data (loadTasks s)) = ps1 ++ proj :: ps2
          /\ Forall (fun p => is_project pid p = false) ps1
          /\ tasks proj = ts1 ++ task :: ts2
          /\ Forall (fun t => is_task tid t = false) ts1
          /\ data (fst (approveTaskCompletion pid tid s))
             = mkFile
                 (ps1
                  ++ mkProject (projectId proj) (initialPrompt proj) (projectPlan proj)
                       (ts1
                        ++ mkTask (id task) (title task) (description task) Done true
                             (completedDetails task)
                        :: ts2)
                       (completed proj) (autoApprove proj)
                  :: ps2)
          /\ (if writable (disk s)
              then snd (approveTaskCompletion pid tid s)
                   = Returned (TaskApproved (projectId proj) (id task) (title task)
                                 (description task) (completedDetails task) true)
                   /\ file (disk (fst (approveTaskCompletion pid tid s)))
                      = Some (data (fst (approveTaskCompletion pid tid s)))
              else snd (approveTaskCompletion pid tid s) = Thrown
                   /\ file (disk (fst (approveTaskCompletion pid tid s)))
                      = file (disk s))).
Proof.
  split; [apply loadTasks_disk |]. unfold approveTaskCompletion.
  split; [now intros -> |].
  split; [now intros proj -> -> |].
  split.
  { intros proj task -> -> N.
    destruct (is_done task) eqn:D; [apply is_done_true in D; contradiction | reflexivity]. }
  split.
  { intros proj task -> -> D ->. apply is_done_true in D. now rewrite D. }
  intros proj task Hp Ht D A. rewrite Hp, Ht, A.
  apply is_done_true in D. rewrite D. cbn [negb].
  rewrite save_and_return_data, save_and_return_outcome, save_and_return_file.
  cbn [data disk with_data]. rewrite loadTasks_disk.
  destruct (first_match_split _ _ _ Hp) as (ps1 & ps2 & Ep & _ & Fp & Up & _).
  destruct (first_match_split _ _ _ Ht) as (ts1 & ts2 & Et & _ & Ft & Ut & _).
  exists ps1, ps2, ts1, ts2.
  assert (E : update_task pid tid (set_approved true) (data (loadTasks s))
              = mkFile
                  (ps1
                   ++ mkProject (projectId proj) (initialPrompt proj) (projectPlan proj)
                        (ts1
                         ++ mkTask (id task) (title task) (description task) Done true
                              (completedDetails task)
                         :: ts2)
                        (completed proj) (autoApprove proj)
                   :: ps2)).
  { unfold update_task, update_project. rewrite Up, Ut.
    unfold set_tasks, set_approved. apply is_done_true in D. now rewrite D. }
  repeat split; try assumption.
  destruct (writable (disk s)); split; reflexivity.
Qed.

Lemma approveTaskCompletion_cases_witness :
  (Scenario.view "proj-1" (loadTasks Scenario.started)
   = Some (false, [("task-1", InProgress, false, "")])
   /\ approveTaskCompletion "proj-1" "task-1" Scenario.started
      = (loadTasks Scenario.started, Returned (Error "Task not done yet.")))
  /\ (data (loadTasks Scenario.finished)
      = mkFile [mkProject "proj-1" "demo" "demo"
                  [mkTask "task-1" "T1" "first" Done false "shipped"] false None]
      /\ data (fst (approveTaskCompletion "proj-1" "task-1" Scenario.finished))
         = mkFile [mkProject "proj-1" "demo" "demo"
                     [mkTask "task-1" "T1" "first" Done true "shipped"] false None]
      /\ snd (approveTaskCompletion "proj-1" "task-1" Scenario.finished)
         = Returned (TaskApproved "proj-1" "task-1" "T1" "first" "shipped" true)).
Proof.
  split.
  - split; [reflexivity |].
    destruct (approveTaskCompletion_cases Scenario.started "proj-1" "task-1")
      as (_ & _ & _ & N & _).
    apply (N (mkProject "proj-1" "demo" "demo"
                [mkTask "task-1" "T1" "first" InProgress false ""] false None)
             (mkTask "task-1" "T1" "first" InProgress false ""));
      [reflexivity | reflexivity | discriminate].
  - split; [reflexivity |].
    destruct (approveTaskCompletion_cases Scenario.finished "proj-1" "task-1")
      as (_ & _ & _ & _ & _ & Y).
    destruct (Y (mkProject "proj-1" "demo" "demo"
                   [mkTask "task-1" "T1" "first" Done false "shipped"] false None)
                (mkTask "task-1" "T1" "first" Done false "shipped")
                eq_refl eq_refl eq_refl eq_refl)
      as (ps1 & ps2 & ts1 & ts2 & Ep & _ & Et & _ & Ed & Ew).
    assert (P : ps1 = [] /\ ps2 = []).
    { change (projects (data (loadTasks Scenario.finished)))
        with [mkProject "proj-1" "demo" "demo"
                [mkTask "task-1" "T1" "first" Done false "shipped"] false None] in Ep.
      destruct ps1 as [| q [| q' r]]; [| discriminate Ep | discriminate Ep].
      injection Ep as <-. now split. }
    assert (T : ts1 = [] /\ ts2 = []).
    { cbn [tasks] in Et.
      destruct ts1 as [| q [| q' r]]; [| discriminate Et | discriminate Et].
      injection Et as <-. now split. }
    destruct P as [-> ->], T as [-> ->]. split; [exact Ed |].
    change (writable (disk Scenario.finished)) with true in Ew. exact (proj1 Ew).
Defined.

(* ------------------------------------------------------------------ *)
(** ** No automatic approval *)

Lemma map_update_first {A B} (g : A -> B) (p : A -> bool) (f : A -> A) (l : list A) :
  (forall x, g (f x) = g x) -> map g (JS.update_first p f l) = map g l.
Proof.
  intros H. induction l as [| x l IH]; cbn; [reflexivity |].
  destruct (p x); cbn; [now rewrite H | now rewrite IH].
Qed.

Lemma approved_flags_update_task (pid tid : string) (f : Task -> Task)
    (d : TaskManagerFile) :
  (forall t, approved (f t) = approved t) ->
  map approved (all_tasks (update_task pid tid f d)) = map approved (all_tasks d).
Proof.
  intros H. unfold update_task, update_project, all_tasks. cbn [projects].
  induction (projects d) as [| p ps IH]; cbn; [reflexivity |].
  destruct (is_project pid p); cbn.
  - rewrite !map_app. f_equal. now apply map_update_first.
  - rewrite !map_app. now rewrite IH.
Qed.

Lemma update_rejection_error (task : Task) (a : ToolArgs) (r : Response) :
  update_rejection task a = Some r -> exists m, r = Error m.
Proof.
  unfold update_rejection. destruct (argStatus a) as [st |]; [| discriminate].
  destruct (_ && _)%bool; [intros E; injection E as <-; eauto |].
  destruct (_ && _)%bool; [intros E; injection E as <-; eauto | discriminate].
Qed.

(** C8, as the source has it.  The server has no automatic approval: the
    handlers do not read an [autoApprove] argument, [createProject] records
    none on the project, and an update through [handleTaskTool] leaves the
    approved flag of every task as it was.  So an update that sets a task
    to done (with non-empty completedDetails) returns it with
    [approved = false], whatever [autoApprove] the project carries and
    whatever was asked for at creation. *)
Theorem update_never_approves :
  (forall action a b s,
      handleProjectTool action (with_autoApprove b a) s = handleProjectTool action a s
      /\ handleTaskTool action (with_autoApprove b a) s = handleTaskTool action a s)
  /\ (forall prompt defs plan s p,
        In p (projects (data (fst (createProject prompt defs plan s)))) ->
        In p (projects (data (loadTasks s))) \/ autoApprove p = None)
  /\ (forall a s,
        map approved (all_tasks (data (fst (handleTaskTool "update" a s))))
        = map approved (all_tasks (data s)))
  /\ (forall a s t,
        snd (handleTaskTool "update" a s) = Returned (TaskUpdatedFull t) ->
        approved t = false).
Proof.
  split; [intros; split; reflexivity |]. split.
  { intros prompt defs plan s p. unfold createProject.
    rewrite save_and_return_data. cbn [data projects]. intros I.
    apply in_app_iff in I. destruct I as [I | [<- | []]]; [now left | now right]. }
  split.
  - intros a s. rewrite handleTaskTool_update_eq. unfold handleTaskTool_update.
    destruct (find_project _ _) as [proj |]; [| reflexivity].
    destruct (find_task _ _) as [task |]; [| reflexivity].
    destruct (approved task); [reflexivity |].
    destruct (update_rejection task a); [reflexivity |].
    rewrite save_and_return_data. cbn [data with_data].
    apply approved_flags_update_task. intros t. apply apply_update_keeps.
  - intros a s t. rewrite handleTaskTool_update_eq. unfold handleTaskTool_update.
    destruct (find_project _ _) as [proj |]; [| discriminate].
    destruct (find_task _ _) as [task |]; [| discriminate].
    destruct (approved task) eqn:A; [discriminate |].
    destruct (update_rejection task a) as [r |] eqn:R.
    { destruct (update_rejection_error _ _ _ R) as [m ->]. discriminate. }
    rewrite save_and_return_outcome. destruct (writable _); [| discriminate].
    intros E. injection E as <-.
    destruct (apply_update_keeps a task) as [_ K]. congruence.
Qed.

Lemma update_never_approves_witness :
  snd (handleTaskTool "update"
         (Scenario.set_status_args "proj-1" "task-1" "done" (Some "shipped"))
         Scenario.started)
  = Returned (TaskUpdatedFull (mkTask "task-1" "T1" "first" Done false "shipped"))
  /\ approved (mkTask "task-1" "T1" "first" Done false "shipped") = false.
Proof.
  split; [reflexivity |].
  destruct update_never_approves as (_ & _ & _ & U).
  apply (U (Scenario.set_status_args "proj-1" "task-1" "done" (Some "shipped"))
           Scenario.started).
  reflexivity.
Defined.

(** C8 fails as stated: a project created with [autoApprove: true], its
    sole task then set to done with completedDetails, has that task done
    and not approved (and the flag was not recorded on the project); the
    same happens for a project that carries [autoApprove: true] on file. *)
Lemma autoApprove_true_not_approved :
  Scenario.view "proj-1" Scenario.auto_requested
  = Some (false, [("task-1", Done, false, "shipped")])
  /\ option_map autoApprove (find_project "proj-1" (data Scenario.auto_requested))
     = Some None
  /\ option_map autoApprove (find_project "proj-1" (data Scenario.auto_on_file))
     = Some (Some true)
  /\ Scenario.view "proj-1"
       (fst (handleTaskTool "update"
               (Scenario.set_status_args "proj-1" "task-1" "done" (Some "shipped"))
               Scenario.auto_on_file))
     = Some (false, [("task-1", Done, false, "shipped")]).
Proof. repeat split. Qed.

(* ------------------------------------------------------------------ *)
(** ** Identifier allocation *)

Section Identifiers.

Lemma In_collect (pre : string) (ids : list string) (n : JS.number) :
  In n (collect_numbers pre ids)
  <-> exists i, In i ids /\ numeric_suffix pre i = Some n.
Proof.
  induction ids as [| i ids IH]; cbn.
  - split; [tauto | now intros (i & [] & _)].
  - destruct (numeric_suffix pre i) as [m |] eqn:E; cbn; rewrite IH; split.
    + intros [<- | (j & I & H)]; [exists i; auto | exists j; auto].
    + intros (j & [<- | I] & H); [left; congruence | right; eauto].
    + intros (j & I & H). eauto.
    + intros (j & [<- | I] & H); [congruence | eauto].
Qed.

Lemma In_allProjectIds (d : TaskManagerFile) (n : JS.number) :
  In n (allProjectIds d)
  <-> exists p, In p (projects d) /\ numeric_suffix "proj-" (projectId p) = Some n.
Proof.
  unfold allProjectIds. rewrite In_collect. split.
  - intros (i & I & H). apply in_map_iff in I. destruct I as (p & <- & I). eauto.
  - intros (p & I & H). exists (projectId p). split; [now apply in_map | exact H].
Qed.

Lemma In_allTaskIds (d : TaskManagerFile) (n : JS.number) :
  In n (allTaskIds d)
  <-> exists t, In t (all_tasks d) /\ numeric_suffix "task-" (id t) = Some n.
Proof.
  unfold allTaskIds, all_tasks. rewrite In_collect. split.
  - intros (i & I & H). apply in_map_iff in I. destruct I as (t & <- & I). eauto.
  - intros (t & I & H). exists (id t). split; [now apply in_map | exact H].
Qed.

Lemma upfrom_spec (k : nat) :
  forall c, StronglySorted Z.lt (upfrom c k)
            /\ (forall n, In n (upfrom c k) -> c < n <= c + Z.of_nat k).
Proof.
  induction k as [| k IH]; cbn [upfrom]; intros c.
  - split; [constructor | intros n []].
  - destruct (IH (c + 1)) as [S B]. split.
    + constructor; [exact S |]. apply Forall_forall. intros n I.
      specialize (B n I). lia.
    + intros n [<- | I]; [lia |]. specialize (B n I). lia.
Qed.

(** Above a watermark with room, the numbers allocated are safe integers
    above the watermark. *)
Lemma room_upfrom (x : JS.number) (k : nat) :
  has_room x k ->
  StronglySorted Z.lt (upfrom (intval x) k)
  /\ Forall safe (upfrom (intval x) k)
  /\ (forall n, In n (upfrom (intval x) k) -> exists w, x = JS.Fin w /\ w < n).
Proof.
  intros H. destruct (upfrom_spec k (intval x)) as [S B].
  split; [exact S |]. destruct H as [-> | (w & -> & L & U)].
  - split; [constructor | intros n []].
  - cbn [intval] in *. split.
    + apply Forall_forall. intros n I. specialize (B n I). unfold safe. lia.
    + intros n I. exists w. split; [reflexivity |]. specialize (B n I). lia.
Qed.

Lemma newTasks_from (defs : list TaskDef) :
  forall w, - 2 ^ 53 < w -> w + Z.of_nat (length defs) < 2 ^ 53 ->
    map id (newTasks (JS.Fin w) defs) = map task_name (upfrom w (length defs))
    /\ bump (JS.Fin w) defs = JS.Fin (w + Z.of_nat (length defs)).
Proof.
  induction defs as [| d defs IH]; cbn [newTasks bump length map upfrom id];
    intros w L U.
  - split; [reflexivity | f_equal; lia].
  - rewrite add1_safe by lia. destruct (IH (w + 1)) as [E B]; [lia | lia |].
    rewrite E, B. split; [reflexivity | f_equal; lia].
Qed.

Lemma newTasks_ids (x : JS.number) (defs : list TaskDef) :
  has_room x (length defs) ->
  map id (newTasks x defs) = map task_name (upfrom (intval x) (length defs)).
Proof.
  intros [Z | (w & -> & L & U)].
  - apply length_zero_iff_nil in Z. now subst defs.
  - now apply newTasks_from.
Qed.

(** The counter after the loop: untouched when nothing is added, else the
    watermark plus the number of tasks. *)
Lemma bump_room (x : JS.number) (defs : list TaskDef) :
  has_room x (length defs) ->
  bump x defs = match defs with
                | [] => x
                | _ => JS.Fin (intval x + Z.of_nat (length defs))
                end.
Proof.
  intros [Z | (w & -> & L & U)].
  - apply length_zero_iff_nil in Z. now subst defs.
  - destruct (newTasks_from defs w L U) as [_ B]. rewrite B.
    destruct defs; [cbn; f_equal; lia | reflexivity].
Qed.

Lemma brief_ids (ts : list Task) :
  map (fun x => fst (fst x)) (map brief ts) = map id ts.
Proof. rewrite map_map. reflexivity. Qed.

Lemma sorted_app (l1 l2 : list Z) :
  StronglySorted Z.lt l1 -> StronglySorted Z.lt l2 ->
  (forall x y, In x l1 -> In y l2 -> x < y) ->
  StronglySorted Z.lt (l1 ++ l2).
Proof.
  intros S1 S2 H. induction S1 as [| a l S1 IH F]; cbn; [exact S2 |].
  constructor.
  - apply IH. intros x y I J. apply H; [now right | exact J].
  - apply Forall_app. split; [exact F |].
    apply Forall_forall. intros y J. apply H; [now left | exact J].
Qed.

Lemma sorted_NoDup (l : list Z) : StronglySorted Z.lt l -> NoDup l.
Proof.
  induction 1 as [| a l S IH F]; constructor; [| exact IH].
  intros I. rewrite Forall_forall in F. specialize (F a I). lia.
Qed.

Lemma names_NoDup (pre : string) (l : list Z) :
  Forall safe l -> StronglySorted Z.lt l ->
  NoDup (map (fun n => (pre ++ JS.toString (JS.Fin n))%string) l).
Proof.
  intros Sf. induction 1 as [| a l S IH F]; cbn; constructor.
  - intros I. apply in_map_iff in I. destruct I as (x & E & I).
    rewrite Forall_forall in Sf.
    apply show_injective in E; [| apply Sf; now right | apply Sf; now left].
    subst x. rewrite Forall_forall in F. specialize (F a I). lia.
  - apply IH. now inversion Sf.
Qed.

(** What a reload leaves in the counters and the snapshot. *)
Lemma loaded_projectCounter (s : TaskManagerServer) :
  projectCounter (loadTasks s) = projectWatermark s.
Proof. unfold loadTasks, projectWatermark. now destruct (file (disk s)). Qed.

Lemma loaded_taskCounter (s : TaskManagerServer) :
  taskCounter (loadTasks s) = taskWatermark s.
Proof. unfold loadTasks, taskWatermark. now destruct (file (disk s)). Qed.

Lemma loaded_data (s : TaskManagerServer) (d : TaskManagerFile) :
  file (disk s) = Some d -> data (loadTasks s) = d.
Proof. unfold loadTasks. now intros ->. Qed.

Lemma recorded_bound (rp rt : list Z) (s : TaskManagerServer) :
  recorded rp rt s ->
  (forall n w, In n rp -> projectWatermark s = JS.Fin w -> n <= w)
  /\ (forall n w, In n rt -> taskWatermark s = JS.Fin w -> n <= w).
Proof.
  intros [P T]. unfold projectWatermark, taskWatermark. split; intros n w I E.
  - destruct (P n I) as (d & F & J). rewrite F in E.
    exact (below_watermark _ _ _ J E).
  - destruct (T n I) as (d & F & J). rewrite F in E.
    exact (below_watermark _ _ _ J E).
Qed.

Lemma recorded_same_file (rp rt : list Z) (s s' : TaskManagerServer) :
  file (disk s') = file (disk s) -> recorded rp rt s -> recorded rp rt s'.
Proof. unfold recorded. intros ->. tauto. Qed.

(** After a successful write of a snapshot that kept every project and
    task of the loaded one and holds the new identifiers, everything
    returned so far is on file. *)
Lemma recorded_after_save (rp rt np nt : list Z) (s s' : TaskManagerServer)
    (d' : TaskManagerFile) :
  recorded rp rt s ->
  Forall safe np -> Forall safe nt ->
  file (disk s') = Some d' ->
  (forall p, In p (projects (data (loadTasks s))) ->
             exists p', In p' (projects d') /\ projectId p' = projectId p) ->
  (forall t, In t (all_tasks (data (loadTasks s))) -> In t (all_tasks d')) ->
  (forall n, In n np -> exists p, In p (projects d') /\ projectId p = proj_name n) ->
  (forall n, In n nt -> exists t, In t (all_tasks d') /\ id t = task_name n) ->
  recorded (rp ++ np) (rt ++ nt) s'.
Proof.
  intros [P T] Sp St F KP KT NP NT. rewrite Forall_forall in Sp, St.
  split; intros n I; exists d'; (split; [exact F |]); apply in_app_iff in I.
  - apply In_allProjectIds. destruct I as [I | I].
    + destruct (P n I) as (d & E & J). apply In_allProjectIds in J.
      destruct J as (p & Ip & H). rewrite <- (loaded_data s d E) in Ip.
      destruct (KP p Ip) as (p' & Ip' & Ep'). exists p'. split; [exact Ip' | congruence].
    + destruct (NP n I) as (p & Ip & Ep). exists p. split; [exact Ip |].
      rewrite Ep. exact (numeric_suffix_show "proj-" n (Sp n I)).
  - apply In_allTaskIds. destruct I as [I | I].
    + destruct (T n I) as (d & E & J). apply In_allTaskIds in J.
      destruct J as (t & It & H). rewrite <- (loaded_data s d E) in It.
      exists t. split; [now apply KT | exact H].
    + destruct (NT n I) as (t & It & Et). exists t. split; [exact It |].
      rewrite Et. exact (numeric_suffix_show "task-" n (St n I)).
Qed.

Lemma In_newTasks_named (defs : list TaskDef) (x : JS.number) (n : Z) :
  has_room x (length defs) ->
  In n (upfrom (intval x) (length defs)) ->
  exists t, In t (newTasks x defs) /\ id t = task_name n.
Proof.
  intros H I. apply (in_map task_name) in I. rewrite <- newTasks_ids in I by exact H.
  apply in_map_iff in I. destruct I as (t & E & I). eauto.
Qed.

End Identifiers.

Section Allocation.
Variables rp rt : list Z.
Variable s : TaskManagerServer.
Hypothesis R : recorded rp rt s.

Lemma allocates_nothing (o : TaskManagerServer * Outcome) :
  allocatedProjectIds (snd o) = [] -> allocatedTaskIds (snd o) = [] ->
  file (disk (fst o)) = file (disk s) ->
  allocates_above rp rt o.
Proof.
  intros P T F. exists [], []. rewrite P, T, !app_nil_r.
  repeat split; try constructor; try (intros ? ? ? []).
  - destruct R as [A _]. intros n I. rewrite F. now apply A.
  - destruct R as [_ A]. intros n I. rewrite F. now apply A.
Qed.

Lemma createProject_allocates prompt defs plan :
  room (CreateProject prompt defs plan) s ->
  allocates_above rp rt (createProject prompt defs plan s).
Proof.
  intros [HP HT]. cbn [demand fst snd] in HP, HT.
  destruct HP as [Z | (w & Ew & Lw & Uw)]; [discriminate |].
  unfold createProject, save_and_return, saveTasks. cbn [disk writable].
  rewrite loadTasks_disk, loaded_projectCounter, loaded_taskCounter.
  destruct (writable (disk s)).
  2:{ apply allocates_nothing; reflexivity. }
  destruct (recorded_bound _ _ _ R) as [BP BT].
  destruct (room_upfrom _ _ HT) as (US & UF & UB).
  exists [w + 1], (upfrom (intval (taskWatermark s)) (length defs)).
  cbn [fst snd allocatedProjectIds allocatedTaskIds data projectCounter taskCounter].
  rewrite brief_ids, newTasks_ids by exact HT. rewrite Ew, add1_safe by lia.
  assert (SP : Forall safe [w + 1]) by (repeat constructor; unfold safe; lia).
  split; [reflexivity |]. split; [reflexivity |].
  split; [repeat constructor |]. split; [exact US |].
  split; [exact SP |]. split; [exact UF |].
  split; [intros r n I [<- | []]; specialize (BP r w I Ew); lia |].
  split; [intros r n I J; destruct (UB n J) as (v & Ev & Lv);
          specialize (BT r v I Ev); lia |].
  eapply recorded_after_save; [exact R | exact SP | exact UF | reflexivity | | | |].
  - intros p I. exists p. split; [| reflexivity]. cbn. apply in_app_iff. now left.
  - intros t I. unfold all_tasks in *. cbn [projects]. rewrite flat_map_app.
    apply in_app_iff. now left.
  - intros n [<- | []]. eexists. split; [cbn; apply in_app_iff; right; now left |].
    reflexivity.
  - intros n I. destruct (In_newTasks_named defs _ n HT I) as (t & It & Et).
    exists t. split; [| exact Et]. unfold all_tasks. cbn [projects].
    rewrite flat_map_app. apply in_app_iff. right. cbn. now rewrite app_nil_r.
Qed.

Lemma addTasksToProject_allocates pid defs :
  room (AddTasksToProject pid defs) s ->
  allocates_above rp rt (addTasksToProject pid defs s).
Proof.
  intros [_ HT]. cbn [demand fst snd] in HT.
  unfold addTasksToProject.
  destruct (find_project pid (data (loadTasks s))) as [proj |] eqn:Hp.
  2:{ apply allocates_nothing; cbn; now rewrite ?loadTasks_disk. }
  destruct (completed proj).
  { apply allocates_nothing; cbn; now rewrite ?loadTasks_disk. }
  unfold save_and_return, saveTasks. cbn [disk writable].
  rewrite loadTasks_disk, loaded_taskCounter.
  destruct (writable (disk s)).
  2:{ apply allocates_nothing; reflexivity. }
  destruct (recorded_bound _ _ _ R) as [BP BT].
  destruct (room_upfrom _ _ HT) as (US & UF & UB).
  exists [], (upfrom (intval (taskWatermark s)) (length defs)).
  cbn [fst snd allocatedProjectIds allocatedTaskIds data projectCounter taskCounter].
  rewrite brief_ids, newTasks_ids by exact HT.
  destruct (all_tasks_focus pid _ proj Hp) as (rest & V & W).
  split; [reflexivity |]. split; [reflexivity |].
  split; [constructor |]. split; [exact US |].
  split; [constructor |]. split; [exact UF |].
  split; [intros r n I [] |].
  split; [intros r n I J; destruct (UB n J) as (v & Ev & Lv);
          specialize (BT r v I Ev); lia |].
  eapply recorded_after_save;
    [exact R | constructor | exact UF | reflexivity | | | |].
  - intros p I. unfold update_project. cbn [projects].
    destruct (find_project_In _ _ _ Hp) as [Ip Ep].
    destruct (first_match_split _ _ _ Hp) as (l1 & l2 & E & _ & _ & U & _).
    rewrite U. rewrite E in I. apply in_app_iff in I.
    destruct I as [I | [<- | I]].
    + exists p. split; [apply in_app_iff; now left | reflexivity].
    + eexists. split; [apply in_app_iff; right; now left | reflexivity].
    + exists p. split; [apply in_app_iff; right; now right | reflexivity].
  - intros t I. apply W. apply V in I. cbn. rewrite in_app_iff. tauto.
  - intros n [].
  - intros n I. destruct (In_newTasks_named defs _ n HT I) as (t & It & Et).
    exists t. split; [| exact Et]. apply W. right. cbn. apply in_app_iff. now right.
Qed.

Lemma step_allocates (c : Call) :
  allocating c = true -> room c s -> allocates_above rp rt (step c s).
Proof.
  destruct c; cbn [allocating step]; try discriminate; intros _ H.
  - now apply createProject_allocates.
  - now apply addTasksToProject_allocates.
  - apply allocates_nothing; cbn; now rewrite ?loadTasks_disk.
  - apply allocates_nothing; reflexivity.
  - apply allocates_nothing; cbn [fst snd]; [reflexivity | reflexivity |].
    now rewrite newServer_disk.
Qed.

End Allocation.

(** Along a sequence of creations, additions, reloads, restarts and
    changes of the medium in which every call starts with room, the
    identifiers returned are names of increasing safe numbers, all above
    those returned before the sequence. *)
Lemma run_allocates (cs : list Call) :
  forall rp rt s,
    forallb allocating cs = true -> within_range cs s -> recorded rp rt s ->
    exists ns ms,
      flat_map allocatedProjectIds (outcomes cs s) = map proj_name ns
      /\ flat_map allocatedTaskIds (outcomes cs s) = map task_name ms
      /\ StronglySorted Z.lt ns /\ StronglySorted Z.lt ms
      /\ Forall safe ns /\ Forall safe ms
      /\ (forall r n, In r rp -> In n ns -> r < n)
      /\ (forall r n, In r rt -> In n ms -> r < n).
Proof.
  induction cs as [| c cs IH]; intros rp rt s A W R.
  - exists [], []. cbn. repeat split; try constructor; intros ? ? ? [].
  - cbn [forallb] in A. apply andb_true_iff in A. destruct A as [Ac A].
    cbn [within_range] in W. destruct W as [Wc W].
    destruct (step_allocates rp rt s R c Ac Wc)
      as (np & nt & EP & ET & SP & ST & FP & FT & BP & BT & R').
    destruct (IH _ _ _ A W R')
      as (ns & ms & EPs & ETs & SPs & STs & FPs & FTs & BPs & BTs).
    exists (np ++ ns), (nt ++ ms). cbn [outcomes flat_map].
    rewrite EP, ET, EPs, ETs, !map_app.
    split; [reflexivity |]. split; [reflexivity |].
    split; [apply sorted_app; auto; intros x y I J; apply BPs;
            [apply in_app_iff; now right | exact J] |].
    split; [apply sorted_app; auto; intros x y I J; apply BTs;
            [apply in_app_iff; now right | exact J] |].
    split; [apply Forall_app; now split |].
    split; [apply Forall_app; now split |].
    split; intros r n I J; apply in_app_iff in J; destruct J as [J | J]; auto.
    + apply BPs; [apply in_app_iff; now left | exact J].
    + apply BTs; [apply in_app_iff; now left | exact J].
Qed.

(** C7, as the source has it.  The counters are JavaScript numbers:
    above 2^53 adding one no longer changes them.  For every sequence made
    only of [createProject] and [addTasksToProject] calls, interleaved with
    reloads of the store and restarts of the manager (and with the medium
    turning read-only or writable), from any state of the manager, in
    which every call that allocates starts from watermarks with room (an
    integer [w] above -2^53 with [w] plus the number of identifiers asked
    for below 2^53): the project identifiers returned are [proj-<n>] for
    strictly increasing numbers [n], the task identifiers returned are
    [task-<n>] for strictly increasing numbers [n], and no identifier is
    returned twice. *)
Theorem identifiers_strictly_increasing (cs : list Call) (s : TaskManagerServer) :
  forallb allocating cs = true ->
  within_range cs s ->
  exists ns ms,
    flat_map allocatedProjectIds (outcomes cs s) = map proj_name ns
    /\ flat_map allocatedTaskIds (outcomes cs s) = map task_name ms
    /\ StronglySorted Z.lt ns /\ StronglySorted Z.lt ms
    /\ NoDup (flat_map allocatedProjectIds (outcomes cs s))
    /\ NoDup (flat_map allocatedTaskIds (outcomes cs s)).
Proof.
  intros A W.
  destruct (run_allocates cs [] [] s A W)
    as (ns & ms & EP & ET & SP & ST & FP & FT & _).
  { split; intros n []. }
  exists ns, ms. rewrite EP, ET. repeat split; auto.
  - now apply names_NoDup.
  - now apply names_NoDup.
Qed.

Lemma identifiers_strictly_increasing_witness :
  forallb allocating Scenario.allocations = true
  /\ within_range Scenario.allocations fresh
  /\ flat_map allocatedProjectIds (outcomes Scenario.allocations fresh)
     = ["proj-1"; "proj-2"]%string
  /\ flat_map allocatedTaskIds (outcomes Scenario.allocations fresh)
     = ["task-1"; "task-2"; "task-3"; "task-4"; "task-5"]%string
  /\ exists ns ms,
       flat_map allocatedProjectIds (outcomes Scenario.allocations fresh)
       = map proj_name ns
       /\ flat_map allocatedTaskIds (outcomes Scenario.allocations fresh)
          = map task_name ms
       /\ StronglySorted Z.lt ns /\ StronglySorted Z.lt ms
       /\ NoDup (flat_map allocatedProjectIds (outcomes Scenario.allocations fresh))
       /\ NoDup (flat_map allocatedTaskIds (outcomes Scenario.allocations fresh)).
Proof.
  assert (W : within_range Scenario.allocations fresh).
  { unfold Scenario.allocations. cbn [within_range]. unfold room.
    repeat split;
      first [ now left
            | right; eexists; split; [vm_compute; reflexivity |];
              split; vm_compute; reflexivity ]. }
  split; [reflexivity |]. split; [exact W |].
  split; [vm_compute; reflexivity |]. split; [vm_compute; reflexivity |].
  exact (identifiers_strictly_increasing Scenario.allocations fresh eq_refl W).
Defined.

(** C7 as stated fails at 2^53.  The file holds the project
    [proj-9007199254740992] with the task [task-9007199254740992].  Two
    creations in a row return the same project identifier, the one already
    in the file, and the first creation gives both of its tasks the
    identifier of the task in the file. *)
Lemma identifiers_repeat_at_2_53 :
  forallb allocating
    [CreateProject "a" Scenario.two_tasks None; CreateProject "b" [] None] = true
  /\ map projectId (projects (data (loadTasks Scenario.at_limit)))
     = ["proj-9007199254740992"]
  /\ map id (all_tasks (data (loadTasks Scenario.at_limit)))
     = ["task-9007199254740992"]
  /\ flat_map allocatedProjectIds
       (outcomes [CreateProject "a" Scenario.two_tasks None; CreateProject "b" [] None]
                 Scenario.at_limit)
     = ["proj-9007199254740992"; "proj-9007199254740992"]
  /\ flat_map allocatedTaskIds
       (outcomes [CreateProject "a" Scenario.two_tasks None; CreateProject "b" [] None]
                 Scenario.at_limit)
     = ["task-9007199254740992"; "task-9007199254740992"]
  /\ ~ NoDup (flat_map allocatedProjectIds
                (outcomes [CreateProject "a" Scenario.two_tasks None;
                           CreateProject "b" [] None]
                          Scenario.at_limit))
  /\ ~ NoDup (flat_map allocatedTaskIds
                (outcomes [CreateProject "a" Scenario.two_tasks None;
                           CreateProject "b" [] None]
                          Scenario.at_limit)).
Proof.
  assert (P : flat_map allocatedProjectIds
                (outcomes [CreateProject "a" Scenario.two_tasks None;
                           CreateProject "b" [] None]
                          Scenario.at_limit)
              = ["proj-9007199254740992"; "proj-9007199254740992"])
    by (vm_compute; reflexivity).
  assert (T : flat_map allocatedTaskIds
                (outcomes [CreateProject "a" Scenario.two_tasks None;
                           CreateProject "b" [] None]
                          Scenario.at_limit)
              = ["task-9007199254740992"; "task-9007199254740992"])
    by (vm_compute; reflexivity).
  split; [reflexivity |]. split; [vm_compute; reflexivity |].
  split; [vm_compute; reflexivity |].
  split; [exact P |]. split; [exact T |].
  rewrite P, T. split; intros N; inversion N as [| x l I _]; apply I; now left.
Qed.

(* ------------------------------------------------------------------ *)
(** ** Further facts on look-ups after an update *)

Lemma save_and_return_writable (s : TaskManagerServer) (r : Response) :
  writable (disk s) = true ->
  save_and_return s r
  = (mkServer (projectCounter s) (taskCounter s) (data s) (mkDisk (Some (data s)) true),
     Returned r).
Proof. unfold save_and_return, saveTasks. now intros ->. Qed.

Lemma find_task_updated (tid : string) (proj : Project) (task : Task)
    (f : Task -> Task) :
  find_task tid proj = Some task -> id (f task) = id task ->
  find_task tid (set_tasks (JS.update_first (is_task tid) f (tasks proj)) proj)
  = Some (f task).
Proof.
  intros H E. unfold find_task in *. cbn [tasks set_tasks].
  destruct (first_match_split _ _ _ H) as (l1 & l2 & _ & P & F & U & _).
  rewrite U. apply find_first_of_split; [exact F |].
  unfold is_task in *. now rewrite E.
Qed.

Lemma find_task_update_task (pid tid : string) (d : TaskManagerFile)
    (proj : Project) (task : Task) (f : Task -> Task) :
  find_project pid d = Some proj -> find_task tid proj = Some task ->
  id (f task) = id task ->
  exists proj',
    find_project pid (update_task pid tid f d) = Some proj'
    /\ find_task tid proj' = Some (f task)
    /\ projectId proj' = projectId proj /\ completed proj' = completed proj.
Proof.
  intros Hp Ht E. eexists. split; [| split; [| split]].
  - unfold update_task. apply find_project_updated; [exact Hp | reflexivity].
  - now apply find_task_updated.
  - reflexivity.
  - reflexivity.
Qed.

Lemma loadTasks_after_save (s : TaskManagerServer) (r : Response) :
  writable (disk s) = true ->
  data (loadTasks (fst (save_and_return s r))) = data s
  /\ writable (disk (loadTasks (fst (save_and_return s r)))) = true.
Proof.
  intros W. rewrite (save_and_return_writable s r W). cbn. auto.
Qed.

(* ------------------------------------------------------------------ *)
(** ** The completion invariant *)

Section Completion.

Lemma proj_ok_open (p : Project) : completed p = false -> proj_ok p.
Proof. unfold proj_ok. congruence. Qed.

Lemma completed_task_closed (p : Project) (tid : string) (t : Task) :
  proj_ok p -> completed p = true -> find_task tid p = Some t ->
  status t = Done /\ approved t = true.
Proof.
  intros K C H. apply find_task_In in H. destruct H as [I _].
  specialize (K C). rewrite Forall_forall in K. now apply K.
Qed.

Lemma store_ok_found (pid : string) (d : TaskManagerFile) (p : Project) :
  store_ok d -> find_project pid d = Some p -> proj_ok p.
Proof.
  intros K H. apply find_project_In in H. destruct H as [I _].
  unfold store_ok in K. rewrite Forall_forall in K. now apply K.
Qed.

Lemma store_ok_update_project (pid : string) (d : TaskManagerFile) (proj : Project)
    (g : Project -> Project) :
  store_ok d -> find_project pid d = Some proj -> proj_ok (g proj) ->
  store_ok (update_project pid g d).
Proof.
  unfold store_ok, update_project, find_project. intros K H G. cbn [projects].
  destruct (first_match_split _ _ _ H) as (l1 & l2 & E & _ & _ & U & _).
  rewrite U. rewrite E in K. apply Forall_app in K. destruct K as [K1 K2].
  apply Forall_app. split; [exact K1 |]. inversion K2; subst. now constructor.
Qed.

Lemma Forall_remove_first {A} (P : A -> Prop) (p : A -> bool) (l : list A) :
  Forall P l -> Forall P (JS.remove_first p l).
Proof.
  induction 1 as [| x l Px F IH]; cbn; [constructor |].
  destruct (p x); [exact F | now constructor].
Qed.

(** The task found in a project that is not wholly done and approved shows
    that the project is still open. *)
Lemma found_open (proj : Project) (tid : string) (task : Task) :
  proj_ok proj -> find_task tid proj = Some task ->
  is_done task = false \/ approved task = false ->
  completed proj = false.
Proof.
  intros K H O. destruct (completed proj) eqn:C; [| reflexivity].
  destruct (completed_task_closed _ _ _ K C H) as [D A].
  destruct O as [O | O]; [apply is_done_true in D |]; congruence.
Qed.

Lemma loaded_store_ok (s : TaskManagerServer) :
  inv_completed s -> store_ok (data (loadTasks s)).
Proof.
  intros [_ F]. unfold loadTasks. destruct (file (disk s)) as [d |]; cbn.
  - now apply F.
  - constructor.
Qed.

Ltac open_project K Hp Ht :=
  apply proj_ok_open; cbn [completed set_tasks];
  eapply found_open; [eapply store_ok_found; [exact K | exact Hp] | exact Ht | auto].

Lemma step_store_ok (c : Call) (s : TaskManagerServer) :
  inv_completed s -> store_ok (data (fst (step c s))).
Proof.
  intros I. pose proof (loaded_store_ok s I) as L. destruct I as [M _].
  assert (CP : forall prompt defs plan,
             store_ok (data (fst (createProject prompt defs plan s)))).
  { intros. unfold createProject. rewrite save_and_return_data. cbn [data].
    unfold store_ok. cbn [projects]. apply Forall_app. split; [exact L |].
    constructor; [| constructor]. now apply proj_ok_open. }
  assert (AT : forall pid defs,
             store_ok (data (fst (addTasksToProject pid defs s)))).
  { intros. unfold addTasksToProject.
    destruct (find_project _ _) as [proj |] eqn:Hp; [| exact L].
    destruct (completed proj) eqn:C; [exact L |].
    rewrite save_and_return_data. cbn [data].
    eapply store_ok_update_project; eauto. now apply proj_ok_open. }
  assert (AP : forall pid,
             store_ok (data (fst (approveProjectCompletion pid s)))).
  { intros. unfold approveProjectCompletion.
    destruct (find_project _ _) as [proj |] eqn:Hp; [| exact L].
    destruct (forallb is_done (tasks proj)); cbn [negb]; [| exact L].
    destruct (forallb _ (tasks proj)) eqn:A; cbn [negb]; [| exact L].
    rewrite save_and_return_data. cbn [data with_data].
    eapply store_ok_update_project; eauto.
    intros _. cbn [tasks set_completed]. rewrite forallb_forall in A.
    apply Forall_forall. intros t It. specialize (A t It).
    apply andb_true_iff in A. destruct A as [D A]. apply is_done_true in D. auto. }
  assert (DT : forall pid tid, store_ok (data (fst (deleteTask pid tid s)))).
  { intros. unfold deleteTask.
    destruct (find_project _ _) as [proj |] eqn:Hp; [| exact L].
    destruct (find_task _ _) as [task |] eqn:Ht; [| exact L].
    destruct (is_done task) eqn:D; [exact L |].
    rewrite save_and_return_data. cbn [data with_data].
    eapply store_ok_update_project; eauto. open_project L Hp Ht. }
  assert (OT : forall tid, store_ok (data (fst (openTaskDetails tid s)))).
  { intros. unfold openTaskDetails.
    destruct (first_task_named _ _) as [[p t] |]; exact L. }
  destruct c; cbn [step].
  - apply CP.
  - unfold getNextTask. destruct (find_project _ _) as [proj |]; [| exact L].
    destruct (completed proj); [exact L |].
    destruct (find _ _); [exact L |]. destruct (_ && _)%bool; exact L.
  - unfold markTaskDone.
    destruct (find_project _ _) as [proj |] eqn:Hp; [| exact L].
    destruct (find_task _ _) as [task |] eqn:Ht; [| exact L].
    destruct (is_done task) eqn:D; [exact L |].
    rewrite save_and_return_data. cbn [data with_data].
    eapply store_ok_update_project; eauto. open_project L Hp Ht.
  - unfold approveTaskCompletion.
    destruct (find_project _ _) as [proj |] eqn:Hp; [| exact L].
    destruct (find_task _ _) as [task |] eqn:Ht; [| exact L].
    destruct (is_done task) eqn:D; cbn [negb]; [| exact L].
    destruct (approved task) eqn:A; [exact L |].
    rewrite save_and_return_data. cbn [data with_data].
    eapply store_ok_update_project; eauto. open_project L Hp Ht.
  - apply AP.
  - apply OT.
  - exact L.
  - apply AT.
  - unfold updateTask.
    destruct (find_project _ _) as [proj |] eqn:Hp; [| exact L].
    destruct (find_task _ _) as [task |] eqn:Ht; [| exact L].
    destruct (is_done task) eqn:D; [exact L |].
    rewrite save_and_return_data. cbn [data with_data].
    eapply store_ok_update_project; eauto. open_project L Hp Ht.
  - apply DT.
  - unfold handleProjectTool.
    destruct (String.eqb action "list"); [exact L |].
    destruct (String.eqb action "create"); [apply CP |].
    destruct (String.eqb action "delete").
    { unfold handleProjectTool_delete.
      destruct (find_project _ _); [| exact M].
      rewrite save_and_return_data. cbn [data with_data].
      unfold store_ok. cbn [projects]. now apply Forall_remove_first. }
    destruct (String.eqb action "add_tasks"); [apply AT |].
    destruct (String.eqb action "finalize"); [apply AP | exact M].
  - unfold handleTaskTool.
    destruct (String.eqb action "read"); [apply OT |].
    destruct (String.eqb action "update").
    { unfold handleTaskTool_update.
      destruct (find_project _ _) as [proj |] eqn:Hp; [| exact M].
      destruct (find_task _ _) as [task |] eqn:Ht; [| exact M].
      destruct (approved task) eqn:A; [exact M |].
      destruct (update_rejection task a); [exact M |].
      rewrite save_and_return_data. cbn [data with_data].
      eapply store_ok_update_project; eauto. open_project M Hp Ht. }
    destruct (String.eqb action "delete"); [apply DT | exact M].
  - exact L.
  - exact M.
  - cbn [fst]. rewrite newServer_data. exact L.
Qed.

Lemma inv_completed_step (c : Call) (s : TaskManagerServer) :
  inv_completed s -> inv_completed (fst (step c s)).
Proof.
  intros I. pose proof (step_store_ok c s I) as M.
  split; [exact M |]. intros d E.
  destruct (step_file c s) as [F | F]; rewrite F in E.
  - destruct I as [_ I]. now apply I.
  - now injection E as <-.
Qed.

End Completion.

(** X1.  A completed project has only tasks that are done and approved:
    if that holds for the snapshot in memory and for the file, it holds
    again after any sequence of calls. *)
Theorem completed_projects_stay_closed (cs : list Call) (s : TaskManagerServer) :
  inv_completed s ->
  forall p t,
    In p (projects (data (run cs s))) -> completed p = true -> In t (tasks p) ->
    status t = Done /\ approved t = true.
Proof.
  revert s. induction cs as [| c cs IH]; cbn [run]; intros s I p t Ip C It.
  - destruct I as [M _]. unfold store_ok in M. rewrite Forall_forall in M.
    specialize (M p Ip C). rewrite Forall_forall in M. now apply M.
  - apply (IH (fst (step c s)) (inv_completed_step c s I) p t); assumption.
Qed.

Lemma completed_projects_stay_closed_witness :
  inv_completed Scenario.finalized
  /\ forall p t,
       In p (projects (data (run [AddTasksToProject "proj-1" Scenario.one_task;
                                  DeleteTask "proj-1" "task-1";
                                  MarkTaskDone "proj-1" "task-1" None]
                                 Scenario.finalized))) ->
       completed p = true -> In t (tasks p) ->
       status t = Done /\ approved t = true.
Proof.
  assert (I : inv_completed Scenario.finalized).
  { split.
    - repeat constructor.
    - intros d E. vm_compute in E. injection E as <-. repeat constructor. }
  split; [exact I |].
  exact (completed_projects_stay_closed _ Scenario.finalized I).
Defined.

(** X2.  The tasks of a completed project are frozen.  For a project of
    the store that is completed (its tasks done and approved),
    [markTaskDone], [updateTask], [deleteTask], [addTasksToProject] and
    [approveTaskCompletion] aimed at it only reload the store: nothing is
    changed and nothing is written; the same holds for the update action
    of [handleTaskTool] on the snapshot in memory. *)
Theorem completed_project_is_frozen (s : TaskManagerServer) (pid : string) :
  (forall proj,
      find_project pid (data (loadTasks s)) = Some proj ->
      completed proj = true -> proj_ok proj ->
      (forall tid details, fst (markTaskDone pid tid details s) = loadTasks s)
      /\ (forall tid ut ud, fst (updateTask pid tid ut ud s) = loadTasks s)
      /\ (forall tid, fst (deleteTask pid tid s) = loadTasks s)
      /\ (forall defs,
            addTasksToProject pid defs s
            = (loadTasks s, Returned (Error "Cannot add tasks to completed project")))
      /\ (forall tid, fst (approveTaskCompletion pid tid s) = loadTasks s))
  /\ (forall proj a,
        find_project pid (data s) = Some proj ->
        completed proj = true -> proj_ok proj ->
        argProjectId a = pid ->
        fst (handleTaskTool "update" a s) = s).
Proof.
  split.
  - intros proj Hp C K. repeat split.
    + intros tid details. unfold markTaskDone. rewrite Hp.
      destruct (find_task tid proj) as [task |] eqn:Ht; [| reflexivity].
      destruct (completed_task_closed _ _ _ K C Ht) as [D _].
      apply is_done_true in D. now rewrite D.
    + intros tid ut ud. unfold updateTask. rewrite Hp.
      destruct (find_task tid proj) as [task |] eqn:Ht; [| reflexivity].
      destruct (completed_task_closed _ _ _ K C Ht) as [D _].
      apply is_done_true in D. now rewrite D.
    + intros tid. unfold deleteTask. rewrite Hp.
      destruct (find_task tid proj) as [task |] eqn:Ht; [| reflexivity].
      destruct (completed_task_closed _ _ _ K C Ht) as [D _].
      apply is_done_true in D. now rewrite D.
    + intros defs. unfold addTasksToProject. now rewrite Hp, C.
    + intros tid. unfold approveTaskCompletion. rewrite Hp.
      destruct (find_task tid proj) as [task |] eqn:Ht; [| reflexivity].
      destruct (completed_task_closed _ _ _ K C Ht) as [D A].
      apply is_done_true in D. now rewrite D, A.
  - intros proj a Hp C K <-. rewrite handleTaskTool_update_eq.
    unfold handleTaskTool_update. rewrite Hp.
    destruct (find_task _ proj) as [task |] eqn:Ht; [| reflexivity].
    destruct (completed_task_closed _ _ _ K C Ht) as [_ A]. now rewrite A.
Qed.

Lemma completed_project_is_frozen_witness :
  Scenario.view "proj-1" (loadTasks Scenario.finalized)
  = Some (true, [("task-1", Done, true, "shipped")])
  /\ fst (deleteTask "proj-1" "task-1" Scenario.finalized) = loadTasks Scenario.finalized
  /\ fst (handleTaskTool "update"
            (Scenario.set_status_args "proj-1" "task-1" "in progress" None)
            Scenario.finalized)
     = Scenario.finalized.
Proof.
  split; [reflexivity |].
  destruct (completed_project_is_frozen Scenario.finalized "proj-1") as [A B].
  split.
  - refine (proj1 (proj2 (proj2 (A (mkProject "proj-1" "demo" "demo"
                     [mkTask "task-1" "T1" "first" Done true "shipped"] true None)
                     eq_refl eq_refl _))) "task-1").
    intros _. repeat constructor.
  - apply (B (mkProject "proj-1" "demo" "demo"
                [mkTask "task-1" "T1" "first" Done true "shipped"] true None));
      [reflexivity | reflexivity | intros _; repeat constructor | reflexivity].
Defined.

(* ------------------------------------------------------------------ *)
(** ** Identifiers stay pairwise distinct *)

Section Distinct.

Lemma projectIds_update_project (pid : string) (g : Project -> Project)
    (d : TaskManagerFile) :
  (forall p, projectId (g p) = projectId p) ->
  map projectId (projects (update_project pid g d)) = map projectId (projects d).
Proof. intros H. unfold update_project. cbn [projects]. now apply map_update_first. Qed.

Lemma map_all_tasks_update_task {B} (h : Task -> B) (pid tid : string)
    (f : Task -> Task) (d : TaskManagerFile) :
  (forall t, h (f t) = h t) ->
  map h (all_tasks (update_task pid tid f d)) = map h (all_tasks d).
Proof.
  intros H. unfold update_task, update_project, all_tasks. cbn [projects].
  induction (projects d) as [| p ps IH]; cbn; [reflexivity |].
  destruct (is_project pid p); cbn.
  - rewrite !map_app. f_equal. now apply map_update_first.
  - rewrite !map_app. now rewrite IH.
Qed.

Lemma ids_distinct_update_task (pid tid : string) (f : Task -> Task)
    (d : TaskManagerFile) :
  (forall t, id (f t) = id t) -> ids_distinct d ->
  ids_distinct (update_task pid tid f d).
Proof.
  intros H [P T]. split.
  - unfold update_task. now rewrite projectIds_update_project.
  - now rewrite map_all_tasks_update_task.
Qed.

Lemma NoDup_drop_middle {A} (l1 m l2 : list A) :
  NoDup (l1 ++ m ++ l2) -> NoDup (l1 ++ l2).
Proof.
  induction m as [| x m IH]; cbn; [auto |].
  intros H. apply IH. now apply NoDup_remove_1 in H.
Qed.

(** Identifiers in a loaded snapshot lie at or below the watermarks, so
    the names of larger safe numbers are not in use. *)
Lemma loaded_project_fresh (s : TaskManagerServer) (p : Project) (n w : Z) :
  In p (projects (data (loadTasks s))) -> projectWatermark s = JS.Fin w ->
  w < n -> safe n -> projectId p <> proj_name n.
Proof.
  unfold loadTasks, projectWatermark.
  destruct (file (disk s)) as [d |]; cbn [data projects]; [| intros []].
  intros I W L S E.
  assert (J : In (JS.Fin n) (allProjectIds d)).
  { apply In_allProjectIds. exists p. split; [exact I |].
    rewrite E. exact (numeric_suffix_show "proj-" n S). }
  pose proof (below_watermark _ _ _ J W). lia.
Qed.

Lemma loaded_task_fresh (s : TaskManagerServer) (t : Task) (n w : Z) :
  In t (all_tasks (data (loadTasks s))) -> taskWatermark s = JS.Fin w ->
  w < n -> safe n -> id t <> task_name n.
Proof.
  unfold loadTasks, taskWatermark.
  destruct (file (disk s)) as [d |]; cbn [data]; [| intros []].
  intros I W L S E.
  assert (J : In (JS.Fin n) (allTaskIds d)).
  { apply In_allTaskIds. exists t. split; [exact I |].
    rewrite E. exact (numeric_suffix_show "task-" n S). }
  pose proof (below_watermark _ _ _ J W). lia.
Qed.

Lemma newTasks_distinct (s : TaskManagerServer) (defs : list TaskDef) :
  has_room (taskWatermark s) (length defs) ->
  NoDup (map id (all_tasks (data (loadTasks s)))) ->
  NoDup (map id (all_tasks (data (loadTasks s))
                 ++ newTasks (taskCounter (loadTasks s)) defs)).
Proof.
  intros H N. rewrite map_app, loaded_taskCounter, newTasks_ids by exact H.
  destruct (room_upfrom _ _ H) as (US & UF & UB).
  apply NoDup_app; [exact N | now apply names_NoDup |].
  intros a Ia Ja. apply in_map_iff in Ia. destruct Ia as (t & <- & It).
  apply in_map_iff in Ja. destruct Ja as (n & E & In').
  destruct (UB n In') as (w & Ew & Lw). rewrite Forall_forall in UF.
  apply (loaded_task_fresh s t n w It Ew Lw (UF n In')). now symmetry.
Qed.

Lemma loaded_distinct (s : TaskManagerServer) :
  inv_distinct s -> ids_distinct (data (loadTasks s)).
Proof.
  intros [_ F]. unfold loadTasks. destruct (file (disk s)) as [d |]; cbn.
  - now apply F.
  - split; constructor.
Qed.

Lemma createProject_distinct prompt defs plan s :
  room (CreateProject prompt defs plan) s ->
  inv_distinct s -> ids_distinct (data (fst (createProject prompt defs plan s))).
Proof.
  intros [HP HT] I. cbn [demand fst snd] in HP, HT.
  destruct HP as [Z | (w & Ew & Lw & Uw)]; [discriminate |].
  destruct (loaded_distinct s I) as [P T].
  unfold createProject. rewrite save_and_return_data. cbn [data]. split.
  - cbn [projects]. rewrite map_app. cbn [map projectId].
    apply NoDup_app; [exact P | repeat constructor; intros [] |].
    intros a Ia [<- | []]. apply in_map_iff in Ia. destruct Ia as (p & E & Ip).
    rewrite loaded_projectCounter, Ew, add1_safe in E by lia.
    apply (loaded_project_fresh s p (w + 1) w Ip Ew); [lia | unfold safe; lia | exact E].
  - replace (mkFile (projects (data (loadTasks s)) ++ _))
      with (mkFile (projects (data (loadTasks s))
                    ++ [mkProject
                          ("proj-" ++ JS.toString (JS.add1 (projectCounter (loadTasks s))))
                          prompt (JS.or_else plan prompt)
                          (newTasks (taskCounter (loadTasks s)) defs) false None]))
      by reflexivity.
    rewrite all_tasks_app, all_tasks_cons. cbn [tasks].
    change (all_tasks (mkFile [])) with (@nil Task). rewrite app_nil_r.
    replace (all_tasks (mkFile (projects (data (loadTasks s)))))
      with (all_tasks (data (loadTasks s))) by reflexivity.
    now apply newTasks_distinct.
Qed.

Lemma addTasksToProject_distinct pid defs s :
  room (AddTasksToProject pid defs) s ->
  inv_distinct s -> ids_distinct (data (fst (addTasksToProject pid defs s))).
Proof.
  intros [_ HT] I. cbn [demand snd] in HT. pose proof (loaded_distinct s I) as L. unfold addTasksToProject.
  destruct (find_project _ _) as [proj |] eqn:Hp; [| exact L].
  destruct (completed proj); [exact L |].
  rewrite save_and_return_data. cbn [data]. destruct L as [P T]. split.
  - now rewrite projectIds_update_project.
  - destruct (focus_project _ _ _ Hp) as (ps1 & ps2 & _ & E & _ & U & _).
    rewrite U. cbn [tasks set_tasks].
    apply (Permutation_NoDup (l := map id (all_tasks (data (loadTasks s))
                        ++ newTasks (taskCounter (loadTasks s)) defs)));
      [| now apply newTasks_distinct].
    apply Permutation_map. rewrite E.
    rewrite <- !app_assoc. apply Permutation_app_head, Permutation_app_head.
    apply Permutation_app_comm.
Qed.

Lemma deleteTask_distinct pid tid s :
  inv_distinct s -> ids_distinct (data (fst (deleteTask pid tid s))).
Proof.
  intros I. pose proof (loaded_distinct s I) as L. unfold deleteTask.
  destruct (find_project _ _) as [proj |] eqn:Hp; [| exact L].
  destruct (find_task _ _) as [task |] eqn:Ht; [| exact L].
  destruct (is_done task); [exact L |].
  rewrite save_and_return_data. cbn [data with_data]. destruct L as [P T]. split.
  - now rewrite projectIds_update_project.
  - destruct (focus_project _ _ _ Hp) as (ps1 & ps2 & _ & E & _ & U & _).
    rewrite U. cbn [tasks set_tasks]. rewrite E in T. unfold find_task in Ht.
    destruct (first_match_split _ _ _ Ht) as (t1 & t2 & Et & _ & _ & _ & R).
    rewrite R. rewrite Et in T.
    rewrite !map_app in *. cbn [map] in T.
    rewrite <- !app_assoc in *. rewrite app_assoc in T. rewrite app_assoc.
    now apply NoDup_remove_1 in T.
Qed.

Lemma handleProjectTool_delete_distinct a s :
  inv_distinct s -> ids_distinct (data (fst (handleProjectTool_delete a s))).
Proof.
  intros [M _]. unfold handleProjectTool_delete.
  destruct (find_project _ _) as [proj |] eqn:Hp; [| exact M].
  rewrite save_and_return_data. cbn [data with_data]. destruct M as [P T].
  destruct (focus_project _ _ _ Hp) as (ps1 & ps2 & E & Et & _ & _ & R).
  rewrite R. split.
  - cbn [projects]. rewrite E in P. rewrite map_app in *. cbn [map] in P.
    now apply NoDup_remove_1 in P.
  - rewrite all_tasks_app. rewrite Et in T. rewrite !map_app in *.
    now apply NoDup_drop_middle in T.
Qed.

Lemma step_distinct (c : Call) (s : TaskManagerServer) :
  room c s -> inv_distinct s -> ids_distinct (data (fst (step c s))).
Proof.
  intros H I. pose proof (loaded_distinct s I) as L. pose proof (proj1 I) as M.
  assert (AP : forall pid, ids_distinct (data (fst (approveProjectCompletion pid s)))).
  { intros. unfold approveProjectCompletion.
    destruct (find_project _ _) as [proj |] eqn:Hp; [| exact L].
    destruct (negb (forallb is_done _)); [exact L |].
    destruct (negb (forallb _ _)); [exact L |].
    rewrite save_and_return_data. cbn [data with_data]. destruct L as [P T]. split.
    - now rewrite projectIds_update_project.
    - destruct (focus_project _ _ _ Hp) as (ps1 & ps2 & _ & E & _ & U & _).
      rewrite U. cbn [tasks set_completed]. now rewrite <- E. }
  assert (OT : forall tid, ids_distinct (data (fst (openTaskDetails tid s)))).
  { intros. unfold openTaskDetails.
    destruct (first_task_named _ _) as [[p t] |]; exact L. }
  destruct c; cbn [step].
  - now apply createProject_distinct.
  - unfold getNextTask. destruct (find_project _ _) as [proj |]; [| exact L].
    destruct (completed proj); [exact L |].
    destruct (find _ _); [exact L |]. destruct (_ && _)%bool; exact L.
  - unfold markTaskDone.
    destruct (find_project _ _) as [proj |]; [| exact L].
    destruct (find_task _ _) as [task |]; [| exact L].
    destruct (is_done task); [exact L |].
    rewrite save_and_return_data. cbn [data with_data].
    now apply ids_distinct_update_task.
  - unfold approveTaskCompletion.
    destruct (find_project _ _) as [proj |]; [| exact L].
    destruct (find_task _ _) as [task |]; [| exact L].
    destruct (negb (is_done task)); [exact L |].
    destruct (approved task); [exact L |].
    rewrite save_and_return_data. cbn [data with_data].
    now apply ids_distinct_update_task.
  - apply AP.
  - apply OT.
  - exact L.
  - now apply addTasksToProject_distinct.
  - unfold updateTask.
    destruct (find_project _ _) as [proj |]; [| exact L].
    destruct (find_task _ _) as [task |]; [| exact L].
    destruct (is_done task); [exact L |].
    rewrite save_and_return_data. cbn [data with_data].
    apply ids_distinct_update_task; [| exact L]. intros t.
    destruct (assign_if_truthy_title utitle t) as (I1 & _).
    destruct (assign_if_truthy_description udescription
                (assign_if_truthy utitle set_title t)) as (I2 & _).
    congruence.
  - now apply deleteTask_distinct.
  - unfold handleProjectTool.
    unfold room in H. cbn [demand] in H.
    destruct (String.eqb action "list"); [exact L |].
    destruct (String.eqb action "create"); [now apply createProject_distinct |].
    destruct (String.eqb action "delete");
      [now apply handleProjectTool_delete_distinct |].
    destruct (String.eqb action "add_tasks"); [now apply addTasksToProject_distinct |].
    destruct (String.eqb action "finalize"); [apply AP | exact M].
  - unfold handleTaskTool.
    destruct (String.eqb action "read"); [apply OT |].
    destruct (String.eqb action "update").
    { unfold handleTaskTool_update.
      destruct (find_project _ _) as [proj |]; [| exact M].
      destruct (find_task _ _) as [task |]; [| exact M].
      destruct (approved task); [exact M |].
      destruct (update_rejection task a); [exact M |].
      rewrite save_and_return_data. cbn [data with_data].
      apply ids_distinct_update_task; [| exact M]. intros t.
      apply apply_update_keeps. }
    destruct (String.eqb action "delete"); [now apply deleteTask_distinct | exact M].
  - exact L.
  - exact M.
  - cbn [fst]. rewrite newServer_data. exact L.
Qed.

Lemma inv_distinct_step (c : Call) (s : TaskManagerServer) :
  room c s -> inv_distinct s -> inv_distinct (fst (step c s)).
Proof.
  intros H I. pose proof (step_distinct c s H I) as M.
  split; [exact M |]. intros d E.
  destruct (step_file c s) as [F | F]; rewrite F in E.
  - destruct I as [_ I]. now apply I.
  - now injection E as <-.
Qed.

End Distinct.

(** X3.  Identifiers stay unambiguous.  If the project identifiers, and
    the task identifiers across all projects, are pairwise distinct in the
    snapshot in memory and on file, they are so again after any sequence
    of calls in which every call that allocates starts from watermarks
    with room (an integer [w] above -2^53, with [w] plus the number of
    identifiers asked for below 2^53): a new identifier never collides
    with one in the store. *)
Theorem identifiers_stay_distinct (cs : list Call) (s : TaskManagerServer) :
  inv_distinct s ->
  within_range cs s ->
  NoDup (map projectId (projects (data (run cs s))))
  /\ NoDup (map id (all_tasks (data (run cs s)))).
Proof.
  revert s. induction cs as [| c cs IH]; cbn [run within_range]; intros s I W.
  - exact (proj1 I).
  - destruct W as [Wc W]. apply IH; [now apply inv_distinct_step | exact W].
Qed.

Lemma identifiers_stay_distinct_witness :
  inv_distinct Scenario.second_started
  /\ within_range [DeleteTask "proj-1" "task-2";
                   AddTasksToProject "proj-1" Scenario.two_tasks;
                   HandleProjectTool "create"
                     (Scenario.create_args "more" Scenario.one_task None)]
                  Scenario.second_started
  /\ NoDup (map projectId
              (projects (data (run [DeleteTask "proj-1" "task-2";
                                    AddTasksToProject "proj-1" Scenario.two_tasks;
                                    HandleProjectTool "create"
                                      (Scenario.create_args "more" Scenario.one_task
                                         None)]
                                   Scenario.second_started))))
  /\ NoDup (map id
              (all_tasks (data (run [DeleteTask "proj-1" "task-2";
                                     AddTasksToProject "proj-1" Scenario.two_tasks;
                                     HandleProjectTool "create"
                                       (Scenario.create_args "more" Scenario.one_task
                                          None)]
                                    Scenario.second_started)))).
Proof.
  assert (N2 : NoDup ["task-1"; "task-2"]%string).
  { constructor; [intros [E | []]; discriminate E |].
    constructor; [intros [] | constructor]. }
  assert (N1 : NoDup ["proj-1"]%string) by (constructor; [intros [] | constructor]).
  assert (I : inv_distinct Scenario.second_started).
  { split.
    - split; [exact N1 | exact N2].
    - intros d E. vm_compute in E. injection E as <-. split; [exact N1 | exact N2]. }
  assert (W : within_range [DeleteTask "proj-1" "task-2";
                            AddTasksToProject "proj-1" Scenario.two_tasks;
                            HandleProjectTool "create"
                              (Scenario.create_args "more" Scenario.one_task None)]
                           Scenario.second_started).
  { cbn [within_range]. unfold room.
    repeat split;
      first [ now left
            | right; eexists; split; [vm_compute; reflexivity |];
              split; vm_compute; reflexivity ]. }
  split; [exact I |]. split; [exact W |].
  exact (identifiers_stay_distinct _ Scenario.second_started I W).
Defined.

(* ------------------------------------------------------------------ *)
(** ** Finalization and next task: the complete case analysis *)

Lemma forallb_is_done (ts : list Task) :
  forallb is_done ts = true <-> (forall t, In t ts -> status t = Done).
Proof.
  rewrite forallb_forall. split; intros H t I; apply is_done_true; auto.
Qed.

Lemma forallb_done_approved (ts : list Task) :
  forallb (fun t => is_done t && approved t)%bool ts = true
  <-> (forall t, In t ts -> status t = Done /\ approved t = true).
Proof.
  rewrite forallb_forall. split; intros H t I.
  - specialize (H t I). apply andb_true_iff in H. destruct H as [D A].
    apply is_done_true in D. auto.
  - destruct (H t I) as [D A]. apply is_done_true in D. now rewrite D, A.
Qed.

(** X4.  [approveProjectCompletion] on a project of the store succeeds
    exactly when every task is done and approved.  A task that is not done
    gives "Not all tasks are done."; all done but one not approved gives
    "Not all done tasks are approved."; both errors leave the store as
    reloaded.  On success (the medium taking the write) the snapshot is
    the loaded one with that project, the first of that name, replaced by
    the same identifier, prompt, plan, tasks and [autoApprove] with
    [completed = true]; every other project is as before and the file
    holds the snapshot. *)
Theorem finalize_outcomes (s : TaskManagerServer) (pid : string) (proj : Project) :
  find_project pid (data (loadTasks s)) = Some proj ->
  ((exists t, In t (tasks proj) /\ status t <> Done) ->
   approveProjectCompletion pid s
   = (loadTasks s, Returned (Error "Not all tasks are done.")))
  /\ ((forall t, In t (tasks proj) -> status t = Done) ->
      (exists t, In t (tasks proj) /\ approved t = false) ->
      approveProjectCompletion pid s
      = (loadTasks s, Returned (Error "Not all done tasks are approved.")))
  /\ ((forall t, In t (tasks proj) -> status t = Done /\ approved t = true) ->
      writable (disk s) = true ->
      snd (approveProjectCompletion pid s)
      = Returned (ProjectApprovedComplete (projectId proj))
      /\ (exists ps1 ps2,
            projects (data (loadTasks s)) = ps1 ++ proj :: ps2
            /\ Forall (fun p => is_project pid p = false) ps1
            /\ projects (data (fst (approveProjectCompletion pid s)))
               = ps1
                 ++ mkProject (projectId proj) (initialPrompt proj) (projectPlan proj)
                      (tasks proj) true (autoApprove proj)
                 :: ps2)
      /\ find_project pid (data (fst (approveProjectCompletion pid s)))
         = Some (mkProject (projectId proj) (initialPrompt proj) (projectPlan proj)
                   (tasks proj) true (autoApprove proj))
      /\ all_tasks (data (fst (approveProjectCompletion pid s)))
         = all_tasks (data (loadTasks s))
      /\ file (disk (fst (approveProjectCompletion pid s)))
         = Some (data (fst (approveProjectCompletion pid s))))
  /\ (forall r, snd (approveProjectCompletion pid s)
                = Returned (ProjectApprovedComplete r) ->
                forall t, In t (tasks proj) -> status t = Done /\ approved t = true).
Proof.
  intros Hp. unfold approveProjectCompletion. rewrite Hp.
  split; [| split; [| split]].
  - intros (t & It & N).
    destruct (forallb is_done (tasks proj)) eqn:D; [| reflexivity].
    rewrite forallb_is_done in D. now specialize (D t It).
  - intros D (t & It & A). apply forallb_is_done in D. rewrite D. cbn [negb].
    destruct (forallb (fun t => is_done t && approved t)%bool (tasks proj)) eqn:B;
      [| reflexivity].
    rewrite forallb_done_approved in B. destruct (B t It). congruence.
  - intros B W.
    assert (D : forallb is_done (tasks proj) = true).
    { apply forallb_is_done. intros t It. now destruct (B t It). }
    apply forallb_done_approved in B. rewrite D, B. cbn [negb].
    rewrite save_and_return_data, save_and_return_outcome, save_and_return_file.
    cbn [data disk with_data]. rewrite loadTasks_disk, W.
    split; [reflexivity |].
    split.
    { unfold find_project in Hp.
      destruct (first_match_split _ _ _ Hp) as (ps1 & ps2 & E & _ & F & U & _).
      exists ps1, ps2. split; [exact E |]. split; [exact F |].
      unfold update_project. cbn [projects]. now rewrite U. }
    split; [exact (find_project_updated pid _ proj (set_completed true) Hp eq_refl) |].
    split; [| reflexivity].
    destruct (focus_project _ _ _ Hp) as (ps1 & ps2 & _ & E & _ & U & _).
    now rewrite U, E.
  - intros r.
    destruct (forallb is_done (tasks proj)); cbn [negb]; [| discriminate].
    destruct (forallb (fun t => is_done t && approved t)%bool (tasks proj)) eqn:B;
      cbn [negb]; [| discriminate].
    intros _. now apply forallb_done_approved.
Qed.

Lemma finalize_outcomes_witness :
  (Scenario.view "proj-1" (loadTasks Scenario.finished)
   = Some (false, [("task-1", Done, false, "shipped")])
   /\ approveProjectCompletion "proj-1" Scenario.finished
      = (loadTasks Scenario.finished,
         Returned (Error "Not all done tasks are approved.")))
  /\ (data (loadTasks Scenario.signed_off)
      = mkFile [mkProject "proj-1" "demo" "demo"
                  [mkTask "task-1" "T1" "first" Done true "shipped"] false None]
      /\ snd (approveProjectCompletion "proj-1" Scenario.signed_off)
         = Returned (ProjectApprovedComplete "proj-1")
      /\ find_project "proj-1"
           (data (fst (approveProjectCompletion "proj-1" Scenario.signed_off)))
         = Some (mkProject "proj-1" "demo" "demo"
                   [mkTask "task-1" "T1" "first" Done true "shipped"] true None)).
Proof.
  split.
  - split; [reflexivity |].
    destruct (finalize_outcomes Scenario.finished "proj-1"
                (mkProject "proj-1" "demo" "demo"
                   [mkTask "task-1" "T1" "first" Done false "shipped"] false None)
                eq_refl) as (_ & B & _).
    apply B.
    + intros t [<- | []]. reflexivity.
    + eexists. split; [left; reflexivity | reflexivity].
  - split; [reflexivity |].
    destruct (finalize_outcomes Scenario.signed_off "proj-1"
                (mkProject "proj-1" "demo" "demo"
                   [mkTask "task-1" "T1" "first" Done true "shipped"] false None)
                eq_refl) as (_ & _ & Y & _).
    destruct Y as (O & _ & F & _).
    + intros t [<- | []]. split; reflexivity.
    + reflexivity.
    + split; [exact O | exact F].
Defined.

Lemma find_not_done_none (ts : list Task) :
  find (fun t => negb (is_done t)) ts = None -> forallb is_done ts = true.
Proof.
  intros H. apply forallb_forall. intros t I.
  pose proof (find_none _ _ H t I) as N. cbn in N.
  now destruct (is_done t).
Qed.

(** X5.  [getNextTask] never answers [no_next_task]: when no task is left
    that is not done, the project (not completed) always gets
    [all_tasks_done].  That is the answer whenever every task of the
    project is done, and so also for a project without tasks. *)
Theorem getNextTask_all_done (s : TaskManagerServer) (pid : string) :
  snd (getNextTask pid s) <> Returned NoNextTask
  /\ (forall proj,
        find_project pid (data (loadTasks s)) = Some proj ->
        completed proj = false ->
        (forall t, In t (tasks proj) -> status t = Done) ->
        getNextTask pid s = (loadTasks s, Returned AllTasksDone)).
Proof.
  unfold getNextTask. split.
  - destruct (find_project _ _) as [proj |]; [| discriminate].
    destruct (completed proj) eqn:C; [discriminate |].
    destruct (find _ _) eqn:F; [discriminate |].
    rewrite (find_not_done_none _ F). discriminate.
  - intros proj -> C D. rewrite C.
    destruct (find _ (tasks proj)) as [t |] eqn:F.
    + apply find_some in F. destruct F as [I N].
      apply D, is_done_true in I. now rewrite I in N.
    + now rewrite (find_not_done_none _ F).
Qed.

Lemma getNextTask_all_done_witness :
  Scenario.view "proj-1" (loadTasks Scenario.empty_project) = Some (false, [])
  /\ getNextTask "proj-1" Scenario.empty_project
     = (loadTasks Scenario.empty_project, Returned AllTasksDone).
Proof.
  split; [reflexivity |].
  apply (proj2 (getNextTask_all_done Scenario.empty_project "proj-1")
           (mkProject "proj-1" "nothing to do" "nothing to do" [] false None));
    [reflexivity | reflexivity | intros t []].
Defined.

(* ------------------------------------------------------------------ *)
(** ** How the task operations compose *)

Lemma loadTasks_saved (pc tc : JS.number) (d : TaskManagerFile) (w : bool) :
  data (loadTasks (mkServer pc tc d (mkDisk (Some d) w))) = d
  /\ disk (loadTasks (mkServer pc tc d (mkDisk (Some d) w))) = mkDisk (Some d) w.
Proof. split; reflexivity. Qed.

(** What [markTaskDone] does to a task that is not done, on a writable
    medium. *)
Lemma markTaskDone_effect (s : TaskManagerServer) (pid tid : string)
    (details : option string) (proj : Project) (task : Task) :
  writable (disk s) = true ->
  find_project pid (data (loadTasks s)) = Some proj ->
  find_task tid proj = Some task ->
  status task <> Done ->
  let task' := mkTask (id task) (title task) (description task) Done (approved task)
                      (JS.or_else details "") in
  exists s1 proj',
    markTaskDone pid tid details s
    = (s1, Returned (TaskMarkedDone (projectId proj) (id task) (title task)
                       (description task) (JS.or_else details "") (approved task)))
    /\ file (disk s1) = Some (data s1) /\ writable (disk s1) = true
    /\ find_project pid (data s1) = Some proj'
    /\ find_task tid proj' = Some task'
    /\ projectId proj' = projectId proj /\ completed proj' = completed proj.
Proof.
  intros W Hp Ht N task'. unfold markTaskDone. rewrite Hp, Ht.
  assert (D : is_done task = false).
  { destruct (is_done task) eqn:D; [apply is_done_true in D; contradiction | reflexivity]. }
  rewrite D. rewrite save_and_return_writable
    by (cbn [disk with_data]; now rewrite loadTasks_disk).
  destruct (find_task_update_task pid tid _ proj task
              (fun t => set_completedDetails (JS.or_else details "") (set_status Done t))
              Hp Ht eq_refl) as (proj' & F1 & F2 & F3 & F4).
  eexists. exists proj'. split; [reflexivity |]. cbn [data disk file writable with_data].
  repeat split; assumption.
Qed.

(** X6.  A task marked done can be approved right away.  On a writable
    medium, for a task of the store that is neither done nor approved,
    [markTaskDone] followed by [approveTaskCompletion] returns
    [task_approved], and the task is then found done, approved and with
    the details given to [markTaskDone] (the empty string if none). *)
Theorem mark_then_approve (s : TaskManagerServer) (pid tid : string)
    (details : option string) (proj : Project) (task : Task) :
  writable (disk s) = true ->
  find_project pid (data (loadTasks s)) = Some proj ->
  find_task tid proj = Some task ->
  status task <> Done ->
  approved task = false ->
  let s1 := fst (markTaskDone pid tid details s) in
  let s2 := fst (approveTaskCompletion pid tid s1) in
  snd (approveTaskCompletion pid tid s1)
  = Returned (TaskApproved (projectId proj) (id task) (title task) (description task)
                (JS.or_else details "") true)
  /\ exists proj',
       find_project pid (data s2) = Some proj'
       /\ find_task tid proj'
          = Some (mkTask (id task) (title task) (description task) Done true
                    (JS.or_else details ""))
       /\ file (disk s2) = Some (data s2).
Proof.
  intros W Hp Ht N A.
  destruct (markTaskDone_effect s pid tid details proj task W Hp Ht N)
    as (s1 & proj1 & E & F & W1 & Hp1 & Ht1 & Ip & _).
  rewrite E. cbn [fst]. rewrite A in Ht1.
  assert (L : data (loadTasks s1) = data s1) by (now apply loaded_data).
  unfold approveTaskCompletion. rewrite L, Hp1, Ht1. cbn [is_done status Status_eqb negb approved].
  rewrite save_and_return_writable
    by (cbn [disk with_data]; now rewrite loadTasks_disk).
  cbn [fst snd data disk file with_data id title description completedDetails].
  split; [now rewrite Ip |].
  destruct (find_task_update_task pid tid _ proj1 _ (set_approved true) Hp1 Ht1 eq_refl)
    as (proj2 & G1 & G2 & _).
  exists proj2. repeat split; assumption.
Qed.

Lemma mark_then_approve_witness :
  Scenario.view "proj-1" (loadTasks Scenario.started)
  = Some (false, [("task-1", InProgress, false, "")])
  /\ snd (approveTaskCompletion "proj-1" "task-1"
            (fst (markTaskDone "proj-1" "task-1" (Some "shipped") Scenario.started)))
     = Returned (TaskApproved "proj-1" "task-1" "T1" "first" "shipped" true).
Proof.
  split; [reflexivity |].
  apply (mark_then_approve Scenario.started "proj-1" "task-1" (Some "shipped")
           (mkProject "proj-1" "demo" "demo"
              [mkTask "task-1" "T1" "first" InProgress false ""] false None)
           (mkTask "task-1" "T1" "first" InProgress false ""));
    [reflexivity | reflexivity | reflexivity | discriminate | reflexivity].
Defined.

(** X7.  Marking a task done twice: the second [markTaskDone] answers
    [already_done], writes nothing and keeps the details of the first call,
    whatever details the second call carries. *)
Theorem markTaskDone_twice (s : TaskManagerServer) (pid tid : string)
    (details again : option string) (proj : Project) (task : Task) :
  writable (disk s) = true ->
  find_project pid (data (loadTasks s)) = Some proj ->
  find_task tid proj = Some task ->
  status task <> Done ->
  let s1 := fst (markTaskDone pid tid details s) in
  snd (markTaskDone pid tid again s1) = Returned AlreadyDone
  /\ data (fst (markTaskDone pid tid again s1)) = data s1
  /\ disk (fst (markTaskDone pid tid again s1)) = disk s1
  /\ exists proj',
       find_project pid (data s1) = Some proj'
       /\ option_map completedDetails (find_task tid proj')
          = Some (JS.or_else details "").
Proof.
  intros W Hp Ht N.
  destruct (markTaskDone_effect s pid tid details proj task W Hp Ht N)
    as (s1 & proj1 & E & F & W1 & Hp1 & Ht1 & _).
  rewrite E. cbn [fst].
  assert (L : data (loadTasks s1) = data s1) by (now apply loaded_data).
  unfold markTaskDone. rewrite L, Hp1, Ht1. cbn [is_done status Status_eqb fst snd].
  rewrite L, loadTasks_disk. repeat split.
  exists proj1. split; [reflexivity |]. now rewrite Ht1.
Qed.

Lemma markTaskDone_twice_witness :
  Scenario.view "proj-1" (loadTasks Scenario.started)
  = Some (false, [("task-1", InProgress, false, "")])
  /\ snd (markTaskDone "proj-1" "task-1" (Some "again")
            (fst (markTaskDone "proj-1" "task-1" (Some "shipped") Scenario.started)))
     = Returned AlreadyDone.
Proof.
  split; [reflexivity |].
  apply (markTaskDone_twice Scenario.started "proj-1" "task-1" (Some "shipped")
           (Some "again")
           (mkProject "proj-1" "demo" "demo"
              [mkTask "task-1" "T1" "first" InProgress false ""] false None)
           (mkTask "task-1" "T1" "first" InProgress false ""));
    [reflexivity | reflexivity | reflexivity | discriminate].
Defined.

(* ------------------------------------------------------------------ *)
(** ** The status transitions of the update action *)

Lemma status_of_text_text (st : Status) : status_of_text (status_text st) = Some st.
Proof. now destruct st. Qed.

Lemma includes_In (xs : list string) (x : string) : includes xs x = true <-> In x xs.
Proof.
  unfold includes. rewrite existsb_exists. split.
  - intros (y & I & E). apply String.eqb_eq in E. now subst.
  - intros I. exists x. split; [exact I | apply String.eqb_refl].
Qed.

Lemma valid_next_is_status (st : Status) (x : string) :
  In x (validNextStates st) -> exists st', x = status_text st'.
Proof.
  destruct st; cbn; intros H.
  - destruct H as [<- | []]. now exists InProgress.
  - destruct H as [<- | [<- | []]]; [now exists Done | now exists NotStarted].
  - destruct H as [<- | []]. now exists InProgress.
Qed.

Lemma apply_update_status (a : ToolArgs) (t : Task) (st : Status) :
  argStatus a = Some (status_text st) ->
  status (apply_update a t) = st
  /\ completedDetails (apply_update a t)
     = (if String.eqb (status_text st) "done"
        then JS.or_else (argCompletedDetails a) ""
        else completedDetails t).
Proof.
  intros E. unfold apply_update. rewrite E, status_of_text_text.
  cbn [status completedDetails set_status].
  set (t1 := if String.eqb (status_text st) "done"
             then set_completedDetails (JS.or_else (argCompletedDetails a) "") t
             else t).
  destruct (assign_if_truthy_title (argTitle a) t1) as (_ & _ & _ & _ & C2).
  destruct (assign_if_truthy_description (argDescription a)
              (assign_if_truthy (argTitle a) set_title t1)) as (_ & _ & _ & _ & C3).
  split; [reflexivity |]. rewrite C3, C2. subst t1.
  now destruct (String.eqb (status_text st) "done").
Qed.

(** X8.  The transition table of the update action, for an existing task
    that is not approved and a requested status [x] (any string).  A
    request that is neither the current status nor in the table
    (not started -> in progress; in progress -> done, not started;
    done -> in progress) is refused with the invalid-transition message
    and changes nothing.  Any other request, with non-empty
    completedDetails when [x] is "done", is carried out on a writable
    medium: the task is stored and returned with status [x], still
    unapproved; its completedDetails are replaced when [x] is "done" and
    kept otherwise (re-opening a done task keeps its details). *)
Theorem update_status_transitions (s : TaskManagerServer) (a : ToolArgs)
    (proj : Project) (task : Task) (x : string) :
  find_project (argProjectId a) (data s) = Some proj ->
  find_task (argTaskId a) proj = Some task ->
  approved task = false ->
  argStatus a = Some x ->
  (x <> status_text (status task) -> ~ In x (validNextStates (status task)) ->
   handleTaskTool "update" a s
   = (s, Returned (Error (invalid_transition_message (status task) x))))
  /\ (x = status_text (status task) \/ In x (validNextStates (status task)) ->
      (x = "done" -> JS.truthy (argCompletedDetails a) = true) ->
      writable (disk s) = true ->
      exists t',
        snd (handleTaskTool "update" a s) = Returned (TaskUpdatedFull t')
        /\ status_text (status t') = x
        /\ approved t' = false
        /\ (x <> "done" -> completedDetails t' = completedDetails task)
        /\ (x = "done" -> Some (completedDetails t') = argCompletedDetails a)
        /\ exists proj',
             find_project (argProjectId a) (data (fst (handleTaskTool "update" a s)))
             = Some proj'
             /\ find_task (argTaskId a) proj' = Some t').
Proof.
  intros Hp Ht Ha Hx. rewrite handleTaskTool_update_eq.
  unfold handleTaskTool_update. rewrite Hp, Ht, Ha. split.
  - intros N1 N2. unfold update_rejection. rewrite Hx.
    assert (E1 : String.eqb (status_text (status task)) x = false).
    { apply String.eqb_neq. congruence. }
    assert (E2 : includes (validNextStates (status task)) x = false).
    { destruct (includes _ x) eqn:E; [apply includes_In in E; contradiction | reflexivity]. }
    now rewrite E1, E2.
  - intros V D W.
    assert (S : exists st, x = status_text st).
    { destruct V as [-> | V]; [eauto | eapply valid_next_is_status; eauto]. }
    destruct S as [st ->].
    assert (R : update_rejection task a = None).
    { unfold update_rejection. rewrite Hx.
      assert (C1 : (negb (String.eqb (status_text (status task)) (status_text st))
                    && negb (includes (validNextStates (status task)) (status_text st)))%bool
                   = false).
      { destruct V as [V | V].
        - rewrite <- V, String.eqb_refl. reflexivity.
        - apply includes_In in V. rewrite V. apply andb_false_r. }
      rewrite C1. destruct (String.eqb (status_text st) "done") eqn:E; [| reflexivity].
      apply String.eqb_eq in E. now rewrite (D E). }
    rewrite R. rewrite save_and_return_writable by exact W.
    cbn [fst snd data with_data].
    destruct (apply_update_status a task st Hx) as [S1 S2].
    destruct (apply_update_keeps a task) as [K1 K2].
    exists (apply_update a task). split; [reflexivity |].
    split; [now rewrite S1 |]. split; [congruence |].
    split; [| split].
    + intros N. rewrite S2.
      destruct (String.eqb (status_text st) "done") eqn:E; [| reflexivity].
      apply String.eqb_eq in E. contradiction.
    + intros E. rewrite S2, E. cbn [String.eqb]. specialize (D E).
      destruct (argCompletedDetails a) as [c |]; [| discriminate].
      cbn in D |- *. destruct (String.eqb c ""); [discriminate | reflexivity].
    + destruct (find_task_update_task _ _ _ proj task (apply_update a) Hp Ht K1)
        as (proj' & F1 & F2 & _).
      eauto.
Qed.

Lemma update_status_transitions_witness :
  Scenario.view "proj-1" Scenario.finished
  = Some (false, [("task-1", Done, false, "shipped")])
  /\ exists t',
       snd (handleTaskTool "update"
              (Scenario.set_status_args "proj-1" "task-1" "in progress" None)
              Scenario.finished)
       = Returned (TaskUpdatedFull t')
       /\ status_text (status t') = "in progress"
       /\ completedDetails t' = "shipped".
Proof.
  split; [reflexivity |].
  destruct (proj2 (update_status_transitions Scenario.finished
                     (Scenario.set_status_args "proj-1" "task-1" "in progress" None)
                     (mkProject "proj-1" "demo" "demo"
                        [mkTask "task-1" "T1" "first" Done false "shipped"] false None)
                     (mkTask "task-1" "T1" "first" Done false "shipped")
                     "in progress" eq_refl eq_refl eq_refl eq_refl))
    as (t' & O & S & _ & C & _).
  - right. left. reflexivity.
  - discriminate.
  - reflexivity.
  - exists t'. split; [exact O |]. split; [exact S |].
    apply C. discriminate.
Defined.
(* ------------------------------------------------------------------ *)
(** ** Approved tasks stay as they are *)

(** X9.  Once approved, a task is never edited and never dropped, short
    of deleting its project.  In a store where approved tasks are done,
    take a list [kept] of approved tasks that are, in this order, both in
    the snapshot in memory and in the file.  After any sequence of calls
    without a project deletion (reloads, restarts, refused writes and the
    update action included) the same tasks, field for field and in the
    same order, are still among the approved tasks of the snapshot and of
    what a reload gives. *)
Theorem approved_tasks_immutable (cs : list Call) (s : TaskManagerServer)
    (kept : list Task) :
  inv s ->
  forallb keeps_projects cs = true ->
  subseq kept (approved_tasks (data s)) ->
  subseq kept (approved_tasks (data (loadTasks s))) ->
  subseq kept (approved_tasks (data (run cs s)))
  /\ subseq kept (approved_tasks (data (loadTasks (run cs s)))).
Proof. intros I K M L. now apply run_approved_subseq. Qed.

Lemma approved_tasks_immutable_witness :
  inv Scenario.signed_off
  /\ approved_tasks (data Scenario.signed_off)
     = [mkTask "task-1" "T1" "first" Done true "shipped"]
  /\ subseq [mkTask "task-1" "T1" "first" Done true "shipped"]
       (approved_tasks (data (run Scenario.edits Scenario.signed_off))).
Proof.
  assert (I : inv Scenario.signed_off).
  { split.
    - repeat constructor.
    - intros d E. vm_compute in E. injection E as <-. repeat constructor. }
  split; [exact I |]. split; [reflexivity |].
  apply (approved_tasks_immutable Scenario.edits Scenario.signed_off
           [mkTask "task-1" "T1" "first" Done true "shipped"] I eq_refl).
  - vm_compute. apply subseq_keep, subseq_nil.
  - vm_compute. apply subseq_keep, subseq_nil.
Defined.

(* ------------------------------------------------------------------ *)
(** ** Deleting, editing and adding tasks *)

Lemma find_none_of_distinct {A} (p : A -> bool) (key : A -> string) (k : string)
    (l1 l2 : list A) (x : A) :
  (forall y, p y = String.eqb (key y) k) ->
  Forall (fun y => p y = false) l1 -> p x = true ->
  NoDup (map key (l1 ++ x :: l2)) ->
  find p (l1 ++ l2) = None.
Proof.
  intros K F Px N. destruct (find p (l1 ++ l2)) as [y |] eqn:E; [| reflexivity].
  exfalso. apply find_some in E. destruct E as [Iy Py].
  rewrite K in Px, Py. apply String.eqb_eq in Px, Py.
  apply in_app_iff in Iy. destruct Iy as [Iy | Iy].
  - rewrite Forall_forall in F. specialize (F y Iy). rewrite K, Py in F.
    rewrite String.eqb_refl in F. discriminate.
  - rewrite map_app in N. cbn [map] in N. apply NoDup_remove_2 in N.
    apply N. rewrite Px, <- Py. apply in_app_iff. right. now apply in_map.
Qed.

(** X10.  [deleteTask] on a task of the store: a done task is never
    deleted ("Cannot delete completed task", store as reloaded).  A task
    that is not done is removed from its project, and nothing else
    changes: the other tasks of the project keep their order and every
    other project is untouched; the result is [task_deleted] unless the
    write is refused.  If the task identifiers of the project are distinct,
    the identifier is no longer found in it. *)
Theorem deleteTask_effect (s : TaskManagerServer) (pid tid : string)
    (proj : Project) (task : Task) :
  find_project pid (data (loadTasks s)) = Some proj ->
  find_task tid proj = Some task ->
  (status task = Done ->
   deleteTask pid tid s
   = (loadTasks s, Returned (Error "Cannot delete completed task")))
  /\ (status task <> Done ->
      exists ps1 ps2 ts1 ts2,
        projects (data (loadTasks s)) = ps1 ++ proj :: ps2
        /\ tasks proj = ts1 ++ task :: ts2
        /\ data (fst (deleteTask pid tid s))
           = mkFile (ps1 ++ set_tasks (ts1 ++ ts2) proj :: ps2)
        /\ snd (deleteTask pid tid s)
           = (if writable (disk s) then Returned TaskDeleted else Thrown)
        /\ (NoDup (map id (tasks proj)) ->
            find_task tid (set_tasks (ts1 ++ ts2) proj) = None)).
Proof.
  intros Hp Ht. unfold deleteTask. rewrite Hp, Ht. split.
  - intros D. apply is_done_true in D. now rewrite D.
  - intros N.
    assert (D : is_done task = false).
    { destruct (is_done task) eqn:D; [apply is_done_true in D; contradiction | reflexivity]. }
    rewrite D, save_and_return_data, save_and_return_outcome.
    cbn [data disk with_data]. rewrite loadTasks_disk.
    destruct (focus_project _ _ _ Hp) as (ps1 & ps2 & E & _ & U & _).
    unfold find_task in Ht.
    destruct (first_match_split _ _ _ Ht) as (ts1 & ts2 & Et & Pt & Ft & _ & R).
    exists ps1, ps2, ts1, ts2. rewrite U, R.
    split; [exact E |]. split; [exact Et |]. split; [reflexivity |].
    split; [reflexivity |].
    intros ND. unfold find_task. cbn [tasks set_tasks].
    apply (find_none_of_distinct (is_task tid) id tid ts1 ts2 task); auto.
    now rewrite <- Et.
Qed.

Lemma deleteTask_effect_witness :
  Scenario.view "proj-1" (loadTasks Scenario.finished)
  = Some (false, [("task-1", Done, false, "shipped")])
  /\ deleteTask "proj-1" "task-1" Scenario.finished
     = (loadTasks Scenario.finished, Returned (Error "Cannot delete completed task")).
Proof.
  split; [reflexivity |].
  apply (proj1 (deleteTask_effect Scenario.finished "proj-1" "task-1"
                  (mkProject "proj-1" "demo" "demo"
                     [mkTask "task-1" "T1" "first" Done false "shipped"] false None)
                  (mkTask "task-1" "T1" "first" Done false "shipped")
                  eq_refl eq_refl)).
  reflexivity.
Defined.

(** X11.  [updateTask] edits the title and the description only: in every
    case the identifier, status, approved flag and completedDetails of
    every task are as reloaded.  For a task that is not done, a title or
    description that is given and non-empty replaces the old one, while an
    omitted or empty one leaves it; a done task is refused with
    "Cannot update completed task". *)
Theorem updateTask_effect (s : TaskManagerServer) (pid tid : string)
    (ut ud : option string) :
  map protected_fields (all_tasks (data (fst (updateTask pid tid ut ud s))))
  = map protected_fields (all_tasks (data (loadTasks s)))
  /\ (forall proj task,
        find_project pid (data (loadTasks s)) = Some proj ->
        find_task tid proj = Some task ->
        (status task = Done ->
         updateTask pid tid ut ud s
         = (loadTasks s, Returned (Error "Cannot update completed task")))
        /\ (status task <> Done ->
            snd (updateTask pid tid ut ud s)
            = (if writable (disk s)
               then Returned (TaskUpdated (id task) (JS.or_else ut (title task))
                                (JS.or_else ud (description task)))
               else Thrown)
            /\ exists proj',
                 find_project pid (data (fst (updateTask pid tid ut ud s))) = Some proj'
                 /\ find_task tid proj'
                    = Some (mkTask (id task) (JS.or_else ut (title task))
                              (JS.or_else ud (description task)) (status task)
                              (approved task) (completedDetails task)))).
Proof.
  assert (U : forall t,
             assign_if_truthy ud set_description (assign_if_truthy ut set_title t)
             = mkTask (id t) (JS.or_else ut (title t)) (JS.or_else ud (description t))
                      (status t) (approved t) (completedDetails t)).
  { intros [i ti de st ap cd]. destruct ut as [u |], ud as [v |]; cbn;
      repeat match goal with |- context [String.eqb ?x ""] => destruct (String.eqb x "") end;
      reflexivity. }
  split.
  - unfold updateTask.
    destruct (find_project _ _) as [proj |]; [| reflexivity].
    destruct (find_task _ _) as [task |]; [| reflexivity].
    destruct (is_done task); [reflexivity |].
    rewrite save_and_return_data. cbn [data with_data].
    apply map_all_tasks_update_task. intros t. now rewrite U.
  - intros proj task Hp Ht. unfold updateTask. rewrite Hp, Ht. split.
    + intros D. apply is_done_true in D. now rewrite D.
    + intros N.
      assert (D : is_done task = false).
      { destruct (is_done task) eqn:D; [apply is_done_true in D; contradiction | reflexivity]. }
      rewrite D, save_and_return_data, save_and_return_outcome.
      cbn [data disk with_data]. rewrite loadTasks_disk, U. split; [reflexivity |].
      destruct (find_task_update_task pid tid _ proj task
                  (fun t => assign_if_truthy ud set_description
                              (assign_if_truthy ut set_title t)) Hp Ht)
        as (proj' & F1 & F2 & _); [now rewrite U |].
      exists proj'. split; [exact F1 |]. now rewrite F2, U.
Qed.

Lemma updateTask_effect_witness :
  Scenario.view "proj-1" (loadTasks Scenario.started)
  = Some (false, [("task-1", InProgress, false, "")])
  /\ snd (updateTask "proj-1" "task-1" (Some "") (Some "rewritten") Scenario.started)
     = Returned (TaskUpdated "task-1" "T1" "rewritten").
Proof.
  split; [reflexivity |].
  refine (proj1 (proj2 (proj2 (updateTask_effect Scenario.started "proj-1" "task-1"
                                 (Some "") (Some "rewritten"))
                          (mkProject "proj-1" "demo" "demo"
                             [mkTask "task-1" "T1" "first" InProgress false ""] false None)
                          (mkTask "task-1" "T1" "first" InProgress false "")
                          eq_refl eq_refl) _)).
  discriminate.
Defined.

Lemma newTasks_fields (defs : list TaskDef) :
  forall c,
    map (fun t => (title t, description t, status t, approved t, completedDetails t))
        (newTasks c defs)
    = map (fun d => (defTitle d, defDescription d, NotStarted, false, ""%string)) defs.
Proof. induction defs as [| d defs IH]; cbn; intros c; [reflexivity | now rewrite IH]. Qed.



(** X13.  [handleProjectTool] with action "delete" works on the snapshot
    in memory, without a reload: an unknown project gives
    "Project not found" and changes nothing; otherwise exactly the first
    project of that name is removed, the others keep their order, and on a
    writable medium the file is overwritten with that snapshot.  If
    project identifiers are distinct the project is no longer found. *)
Theorem handleProjectTool_delete_effect (s : TaskManagerServer) (a : ToolArgs) :
  (find_project (argProjectId a) (data s) = None ->
   handleProjectTool "delete" a s = (s, Returned (Error "Project not found")))
  /\ (forall proj,
        find_project (argProjectId a) (data s) = Some proj ->
        exists ps1 ps2,
          projects (data s) = ps1 ++ proj :: ps2
          /\ data (fst (handleProjectTool "delete" a s)) = mkFile (ps1 ++ ps2)
          /\ snd (handleProjectTool "delete" a s)
             = (if writable (disk s) then Returned ProjectDeleted else Thrown)
          /\ file (disk (fst (handleProjectTool "delete" a s)))
             = (if writable (disk s) then Some (mkFile (ps1 ++ ps2)) else file (disk s))
          /\ (NoDup (map projectId (projects (data s))) ->
              find_project (argProjectId a)
                (data (fst (handleProjectTool "delete" a s))) = None)).
Proof.
  change (handleProjectTool "delete" a s) with (handleProjectTool_delete a s).
  unfold handleProjectTool_delete. split.
  - now intros ->.
  - intros proj Hp. rewrite Hp.
    rewrite save_and_return_data, save_and_return_outcome, save_and_return_file.
    cbn [data disk with_data].
    destruct (focus_project _ _ _ Hp) as (ps1 & ps2 & E & _ & _ & _ & R).
    exists ps1, ps2. rewrite R. repeat split; auto.
    intros ND. unfold find_project in *. cbn [projects].
    destruct (first_match_split _ _ _ Hp) as (l1 & l2 & E' & P & F & _ & R').
    rewrite R' in R. rewrite <- R.
    apply (find_none_of_distinct (is_project (argProjectId a)) projectId
             (argProjectId a) l1 l2 proj); auto.
    now rewrite <- E'.
Qed.

Lemma handleProjectTool_delete_effect_witness :
  Scenario.view "proj-1" Scenario.finalized
  = Some (true, [("task-1", Done, true, "shipped")])
  /\ exists ps1 ps2,
       data (fst (handleProjectTool "delete"
                    (Scenario.set_status_args "proj-1" "" "" None) Scenario.finalized))
       = mkFile (ps1 ++ ps2)
       /\ snd (handleProjectTool "delete"
                 (Scenario.set_status_args "proj-1" "" "" None) Scenario.finalized)
          = Returned ProjectDeleted.
Proof.
  split; [reflexivity |].
  destruct (proj2 (handleProjectTool_delete_effect Scenario.finalized
                     (Scenario.set_status_args "proj-1" "" "" None))
              (mkProject "proj-1" "demo" "demo"
                 [mkTask "task-1" "T1" "first" Done true "shipped"] true None)
              eq_refl) as (ps1 & ps2 & _ & D & O & _).
  exists ps1, ps2. split; [exact D | exact O].
Defined.

(* ------------------------------------------------------------------ *)
(** ** Creation followed by a read; listing and look-up *)

(** X14.  A project just created is the one found under the identifier
    returned.  On a writable medium, from watermarks with room (a project
    watermark [w] above -2^53 with [w + 1] below 2^53, and likewise the
    task watermark with the number of definitions), [createProject]
    returns [proj-<w + 1>] with one task per definition, and a following
    [getNextTask] on that identifier returns the first task defined, or
    [all_tasks_done] when the project was created without tasks. *)
Theorem createProject_then_next (s : TaskManagerServer) (prompt : string)
    (defs : list TaskDef) (plan : option string) (w : Z) :
  writable (disk s) = true ->
  projectWatermark s = JS.Fin w -> - 2 ^ 53 < w -> w + 1 < 2 ^ 53 ->
  has_room (taskWatermark s) (length defs) ->
  let pid := proj_name (w + 1) in
  let s1 := fst (createProject prompt defs plan s) in
  (exists created,
      snd (createProject prompt defs plan s)
      = Returned (Planned pid (length defs) created)
      /\ map (fun x => fst (fst x)) created
         = map task_name (upfrom (intval (taskWatermark s)) (length defs)))
  /\ (exists nt,
        find_project pid (data s1)
        = Some (mkProject pid prompt (JS.or_else plan prompt) nt false None)
        /\ length nt = length defs)
  /\ getNextTask pid s1
     = (loadTasks s1,
        Returned match defs with
                 | [] => AllTasksDone
                 | d :: _ => NextTask (task_name (intval (taskWatermark s) + 1))
                                      (defTitle d) (defDescription d)
                 end).
Proof.
  intros W Ew Lw Uw HT pid s1. subst s1. unfold createProject.
  rewrite save_and_return_writable by (cbn [disk]; now rewrite loadTasks_disk).
  cbn [fst snd data]. rewrite loaded_projectCounter, loaded_taskCounter.
  rewrite Ew, add1_safe by lia.
  fold (proj_name (w + 1)). fold pid.
  set (nt := newTasks (taskWatermark s) defs).
  set (p := mkProject pid prompt (JS.or_else plan prompt) nt false None).
  assert (F : find_project pid (mkFile (projects (data (loadTasks s)) ++ [p])) = Some p).
  { unfold find_project. cbn [projects]. apply find_first_of_split.
    - apply Forall_forall. intros q Iq. unfold is_project.
      apply String.eqb_neq.
      apply (loaded_project_fresh s q (w + 1) w Iq Ew); [lia | unfold safe; lia].
    - unfold is_project. cbn. apply String.eqb_refl. }
  split; [| split].
  - exists (map brief nt). split.
    + f_equal. f_equal. subst nt. clearbody pid. clear.
      generalize (taskWatermark s). induction defs; cbn; intros; [reflexivity | now rewrite IHdefs].
    + subst nt. now rewrite brief_ids, newTasks_ids.
  - exists nt. split; [exact F |]. subst nt. clear.
    generalize (taskWatermark s). induction defs; cbn; intros; [reflexivity | now rewrite IHdefs].
  - unfold getNextTask.
    match goal with |- context [loadTasks ?x] => set (s1 := x) end.
    assert (L : data (loadTasks s1) = mkFile (projects (data (loadTasks s)) ++ [p]))
      by reflexivity.
    rewrite L, F. cbn [completed p tasks]. subst nt.
    destruct defs as [| d defs]; [reflexivity |].
    pose proof (newTasks_ids _ (d :: defs) HT) as N.
    cbn [newTasks map upfrom length id] in N. injection N as N _.
    cbn [newTasks]. rewrite N. reflexivity.
Qed.

Lemma createProject_then_next_witness :
  writable (disk Scenario.planned) = true
  /\ projectWatermark Scenario.planned = JS.Fin 1
  /\ taskWatermark Scenario.planned = JS.Fin 1
  /\ getNextTask "proj-2"
       (fst (createProject "second" Scenario.two_tasks None Scenario.planned))
     = (loadTasks (fst (createProject "second" Scenario.two_tasks None Scenario.planned)),
        Returned (NextTask "task-2" "T1" "first")).
Proof.
  split; [reflexivity |]. split; [reflexivity |]. split; [reflexivity |].
  refine (proj2 (proj2 (createProject_then_next Scenario.planned "second"
                          Scenario.two_tasks None 1 eq_refl eq_refl eq_refl eq_refl _))).
  right. exists 1. split; [reflexivity |]. split; reflexivity.
Defined.

Lemma filter_counts (ts : list Task) :
  Forall task_ok ts ->
  (length (filter approved ts) <= length (filter is_done ts))%nat
  /\ (length (filter is_done ts) <= length ts)%nat.
Proof.
  induction 1 as [| t ts K F [IH1 IH2]]; cbn; [split; constructor |].
  destruct (approved t) eqn:A.
  - specialize (K A). apply is_done_true in K. rewrite K. cbn. split; lia.
  - destruct (is_done t); cbn; split; lia.
Qed.

(** X15.  [listProjects] reports one row per project of the reloaded
    store, in order, and when the approved tasks on file are done the
    counts of each row satisfy approved <= completed <= total. *)
Theorem listProjects_counts (s : TaskManagerServer) :
  (forall d, file (disk s) = Some d -> file_ok d) ->
  exists rows,
    listProjects s = (loadTasks s, Returned (ProjectsListed rows))
    /\ map (fun r => fst (fst (fst (fst r)))) rows
       = map projectId (projects (data (loadTasks s)))
    /\ map (fun r => snd (fst (fst r))) rows
       = map (fun p => length (tasks p)) (projects (data (loadTasks s)))
    /\ Forall counts_ordered rows.
Proof.
  intros K. unfold listProjects. eexists. split; [reflexivity |].
  rewrite !map_map. cbn [fst snd]. split; [reflexivity |]. split; [reflexivity |].
  assert (L : file_ok (data (loadTasks s))).
  { unfold loadTasks. destruct (file (disk s)) as [d |]; cbn; [now apply K | constructor]. }
  unfold file_ok, all_tasks in L. rewrite Forall_forall in L.
  apply Forall_forall. intros row I. apply in_map_iff in I.
  destruct I as (p & <- & Ip). cbn. apply filter_counts.
  apply Forall_forall. intros t It. apply L. apply in_flat_map. eauto.
Qed.

Lemma listProjects_counts_witness :
  exists rows,
    listProjects Scenario.finished
    = (loadTasks Scenario.finished, Returned (ProjectsListed rows))
    /\ Forall counts_ordered rows.
Proof.
  destruct (listProjects_counts Scenario.finished) as (rows & E & _ & _ & C).
  - intros d H. vm_compute in H. injection H as <-. repeat constructor.
  - exists rows. split; [exact E | exact C].
Defined.

Lemma first_task_named_spec (tid : string) (ps : list Project) :
  match first_task_named tid ps with
  | Some (p, t) => In p ps /\ In t (tasks p) /\ id t = tid
  | None => forall p t, In p ps -> In t (tasks p) -> id t <> tid
  end.
Proof.
  induction ps as [| q ps IH]; cbn; [tauto |].
  destruct (find_task tid q) as [t |] eqn:F.
  - apply find_task_In in F. tauto.
  - destruct (first_task_named tid ps) as [[p t] |].
    + tauto.
    + intros p t [<- | I] J E.
      * unfold find_task in F. pose proof (find_none _ _ F t J) as N.
        unfold is_task in N. apply String.eqb_neq in N. contradiction.
      * now apply (IH p t).
Qed.

(** X16.  [openTaskDetails] answers [task_not_found] exactly when no task
    of the reloaded store carries the identifier; otherwise it returns a
    task with that identifier together with the identifier, prompt, plan
    and completed flag of a project of the store that holds it.  The store
    itself is only reloaded. *)
Theorem openTaskDetails_finds (s : TaskManagerServer) (tid : string) :
  fst (openTaskDetails tid s) = loadTasks s
  /\ (snd (openTaskDetails tid s) = Returned TaskNotFound
      <-> forall t, In t (all_tasks (data (loadTasks s))) -> id t <> tid)
  /\ (forall pid prompt plan c t,
        snd (openTaskDetails tid s) = Returned (TaskDetails pid prompt plan c t) ->
        id t = tid
        /\ exists p, In p (projects (data (loadTasks s))) /\ In t (tasks p)
                     /\ projectId p = pid /\ initialPrompt p = prompt
                     /\ projectPlan p = plan /\ completed p = c).
Proof.
  unfold openTaskDetails.
  pose proof (first_task_named_spec tid (projects (data (loadTasks s)))) as S.
  destruct (first_task_named tid (projects (data (loadTasks s)))) as [[p t] |].
  - destruct S as (Ip & It & E). cbn [fst snd]. split; [reflexivity |]. split.
    + split; [discriminate |]. intros H. exfalso. apply (H t); [| exact E].
      unfold all_tasks. apply in_flat_map. eauto.
    + intros pid prompt plan c t' H. injection H as <- <- <- <- <-.
      split; [exact E |]. exists p. auto 10.
  - cbn [fst snd]. split; [reflexivity |]. split.
    + split; [| reflexivity]. intros _ t I. unfold all_tasks in I.
      apply in_flat_map in I. destruct I as (p & Ip & It). now apply (S p t).
    + discriminate.
Qed.

Lemma openTaskDetails_finds_witness :
  snd (openTaskDetails "task-9" Scenario.finished) = Returned TaskNotFound.
Proof.
  apply (proj2 (proj1 (proj2 (openTaskDetails_finds Scenario.finished "task-9")))).
  intros t I. vm_compute in I. destruct I as [<- | []]. discriminate.
Defined.

(* ------------------------------------------------------------------ *)
(** ** The store: watermarks, lenient parsing, memory and file *)

(** X17.  What a reload of a readable file computes.  The snapshot is the
    content of the file; each counter is at least the number [parseInt]
    reads in every identifier [proj-<n>] / [task-<n>] of it (the digits
    after optional white space and sign, rounded to a double), is the
    number of one of them when there is any, and is 0 when no identifier
    has a numeric suffix (whatever the counters were before). *)
Theorem loadTasks_watermarks (s : TaskManagerServer) (d : TaskManagerFile) :
  file (disk s) = Some d ->
  data (loadTasks s) = d
  /\ (forall p n, In p (projects d) -> numeric_suffix "proj-" (projectId p) = Some n ->
                  JS.leb n (projectCounter (loadTasks s)) = true)
  /\ (forall t n, In t (all_tasks d) -> numeric_suffix "task-" (id t) = Some n ->
                  JS.leb n (taskCounter (loadTasks s)) = true)
  /\ ((forall p, In p (projects d) -> numeric_suffix "proj-" (projectId p) = None) ->
      projectCounter (loadTasks s) = JS.Fin 0)
  /\ ((forall t, In t (all_tasks d) -> numeric_suffix "task-" (id t) = None) ->
      taskCounter (loadTasks s) = JS.Fin 0)
  /\ (forall p n, In p (projects d) -> numeric_suffix "proj-" (projectId p) = Some n ->
                  exists q, In q (projects d)
                            /\ numeric_suffix "proj-" (projectId q)
                               = Some (projectCounter (loadTasks s)))
  /\ (forall t n, In t (all_tasks d) -> numeric_suffix "task-" (id t) = Some n ->
                  exists u, In u (all_tasks d)
                            /\ numeric_suffix "task-" (id u)
                               = Some (taskCounter (loadTasks s))).
Proof.
  intros F. unfold loadTasks. rewrite F. cbn [data projectCounter taskCounter].
  split; [reflexivity |].
  split. { intros p n I E. apply max_or_zero_ub, In_allProjectIds. eauto. }
  split. { intros t n I E. apply max_or_zero_ub, In_allTaskIds. eauto. }
  split.
  { intros N. destruct (allProjectIds d) as [| x r] eqn:E; [reflexivity |].
    assert (J : In x (allProjectIds d)) by (rewrite E; now left).
    apply In_allProjectIds in J. destruct J as (p & Ip & Ep).
    rewrite (N p Ip) in Ep. discriminate. }
  split.
  { intros N. destruct (allTaskIds d) as [| x r] eqn:E; [reflexivity |].
    assert (J : In x (allTaskIds d)) by (rewrite E; now left).
    apply In_allTaskIds in J. destruct J as (t & It & Et).
    rewrite (N t It) in Et. discriminate. }
  split.
  - intros p n I E. apply In_allProjectIds. apply max_or_zero_In.
    intros Z. assert (J : In n (allProjectIds d)) by (apply In_allProjectIds; eauto).
    now rewrite Z in J.
  - intros t n I E. apply In_allTaskIds. apply max_or_zero_In.
    intros Z. assert (J : In n (allTaskIds d)) by (apply In_allTaskIds; eauto).
    now rewrite Z in J.
Qed.

Lemma loadTasks_watermarks_witness :
  (file (disk Scenario.second_started) = Some (data Scenario.second_started)
   /\ JS.leb (JS.Fin 2) (taskCounter (loadTasks Scenario.second_started)) = true)
  /\ (map projectId (projects (data Scenario.hand_written))
      = [("proj-" ++ String (ascii_of_nat 194) (String (ascii_of_nat 160) "41"))%string;
         "proj-7 (copy)"%string]
      /\ map id (all_tasks (data Scenario.hand_written))
         = ["task-9007199254740993"%string; "task-x"%string]
      /\ JS.leb (JS.Fin 41) (projectCounter (loadTasks Scenario.hand_written)) = true
      /\ JS.leb (JS.Fin 9007199254740992)
                (taskCounter (loadTasks Scenario.hand_written)) = true).
Proof.
  split.
  - split; [reflexivity |].
    destruct (loadTasks_watermarks Scenario.second_started
                (data Scenario.second_started) eq_refl) as (_ & _ & T & _).
    apply (T (mkTask "task-2" "T2" "second" InProgress false "") (JS.Fin 2)).
    + right. left. reflexivity.
    + reflexivity.
  - split; [reflexivity |]. split; [reflexivity |].
    destruct (loadTasks_watermarks Scenario.hand_written
                (data Scenario.hand_written) eq_refl) as (_ & P & T & _).
    split.
    + apply (P (mkProject
                  ("proj-" ++ String (ascii_of_nat 194) (String (ascii_of_nat 160) "41"))
                  "a" "a"
                  [mkTask "task-9007199254740993" "T" "t" NotStarted false ""]
                  false None)
               (JS.Fin 41)).
      * left. reflexivity.
      * vm_compute. reflexivity.
    + apply (T (mkTask "task-9007199254740993" "T" "t" NotStarted false "")
               (JS.Fin 9007199254740992)).
      * left. reflexivity.
      * vm_compute. reflexivity.
Defined.

Lemma string_app_assoc (a b c : string) :
  ((a ++ b) ++ c)%string = (a ++ (b ++ c))%string.
Proof. induction a as [| x a IH]; cbn; [reflexivity | now rewrite IH]. Qed.

(** X18.  The number of an identifier is read back leniently.  For an
    integer [n] strictly between -2^53 and 2^53, the parse used by
    [loadTasks] recovers [n] from [proj-<n>] and [task-<n>] (negative [n]
    included), also when the digits are followed by any text that does
    not start with a digit; hence names of different such numbers are
    different. *)
Theorem identifier_number_read_back (n : Z) (junk : string) :
  - 2 ^ 53 < n < 2 ^ 53 ->
  no_leading_digit junk ->
  numeric_suffix "proj-" (proj_name n ++ junk) = Some (JS.Fin n)
  /\ numeric_suffix "task-" (task_name n ++ junk) = Some (JS.Fin n)
  /\ (forall m, - 2 ^ 53 < m < 2 ^ 53 ->
                proj_name n = proj_name m \/ task_name n = task_name m -> n = m).
Proof.
  intros S J. unfold proj_name, task_name.
  rewrite !string_app_assoc, !numeric_suffix_junk by assumption.
  split; [reflexivity |]. split; [reflexivity |].
  intros m Sm [E | E]; apply show_injective in E; assumption.
Qed.

Lemma identifier_number_read_back_witness :
  numeric_suffix "proj-" "proj-12abc" = Some (JS.Fin 12)
  /\ numeric_suffix "task-" "task--7 (old)" = Some (JS.Fin (-7)).
Proof.
  split.
  - refine (proj1 (identifier_number_read_back 12 "abc" _ eq_refl)).
    split; reflexivity.
  - refine (proj1 (proj2 (identifier_number_read_back (-7) " (old)" _ eq_refl))).
    split; reflexivity.
Defined.

Lemma newTasks_length_defs (defs : list TaskDef) :
  forall c, length (newTasks c defs) = length defs.
Proof. induction defs as [| d defs IH]; cbn; intros c; [reflexivity | now rewrite IH]. Qed.

(** X19.  When the file cannot be read, [createProject] starts from an
    empty snapshot: on a writable medium the projects held in memory are
    dropped, the file is overwritten with the new project alone, and the
    numbering continues from the counters in memory (integers above
    -2^53 that stay below 2^53 with what is allocated). *)
Theorem createProject_on_unreadable_file (s : TaskManagerServer) (prompt : string)
    (defs : list TaskDef) (plan : option string) (pc tc : Z) :
  file (disk s) = None ->
  writable (disk s) = true ->
  projectCounter s = JS.Fin pc -> - 2 ^ 53 < pc -> pc + 1 < 2 ^ 53 ->
  taskCounter s = JS.Fin tc -> - 2 ^ 53 < tc -> tc + Z.of_nat (length defs) < 2 ^ 53 ->
  exists nt,
    createProject prompt defs plan s
    = (mkServer (JS.Fin (pc + 1)) (JS.Fin (tc + Z.of_nat (length defs)))
         (mkFile [mkProject (proj_name (pc + 1)) prompt (JS.or_else plan prompt) nt
                    false None])
         (mkDisk (Some (mkFile [mkProject (proj_name (pc + 1)) prompt
                                  (JS.or_else plan prompt) nt false None]))
                 true),
       Returned (Planned (proj_name (pc + 1)) (length defs) (map brief nt)))
    /\ map id nt = map task_name (upfrom tc (length defs))
    /\ map (fun t => (title t, description t, status t, approved t, completedDetails t)) nt
       = map (fun d => (defTitle d, defDescription d, NotStarted, false, ""%string)) defs.
Proof.
  intros F W Ep Lp Up Et Lt Ut. unfold createProject.
  rewrite save_and_return_writable by (cbn [disk]; now rewrite loadTasks_disk).
  unfold loadTasks. rewrite F. cbn [projectCounter taskCounter data projects app disk].
  rewrite Ep, Et, add1_safe by lia.
  destruct (newTasks_from defs tc Lt Ut) as [N B]. rewrite B.
  exists (newTasks (JS.Fin tc) defs).
  rewrite newTasks_length_defs, newTasks_fields. auto.
Qed.

Lemma createProject_on_unreadable_file_witness :
  file (disk fresh) = None /\ writable (disk fresh) = true
  /\ exists nt,
       createProject "demo" Scenario.one_task None fresh
       = (mkServer (JS.Fin 1) (JS.Fin 1)
            (mkFile [mkProject "proj-1" "demo" "demo" nt false None])
            (mkDisk (Some (mkFile [mkProject "proj-1" "demo" "demo" nt false None]))
                    true),
          Returned (Planned "proj-1" 1 (map brief nt)))
       /\ map id nt = ["task-1"%string].
Proof.
  split; [reflexivity |]. split; [reflexivity |].
  destruct (createProject_on_unreadable_file fresh "demo" Scenario.one_task None 0 0
              eq_refl eq_refl eq_refl eq_refl eq_refl eq_refl eq_refl eq_refl)
    as (nt & E & N & _).
  exists nt. split; [exact E | exact N].
Defined.

(* ------------------------------------------------------------------ *)
(** ** Memory and file agree *)

Lemma in_sync_loaded (s : TaskManagerServer) : in_sync (loadTasks s).
Proof.
  unfold in_sync, loadTasks.
  destruct (file (disk s)) eqn:E; cbn [data disk]; now rewrite E.
Qed.

Lemma in_sync_saved (s : TaskManagerServer) (r : Response) :
  snd (save_and_return s r) <> Thrown -> in_sync (fst (save_and_return s r)).
Proof.
  unfold save_and_return, saveTasks, in_sync.
  destruct (writable (disk s)); cbn; [reflexivity | congruence].
Qed.

Lemma thrown_saved (s : TaskManagerServer) (r : Response) :
  snd (save_and_return s r) = Thrown ->
  file (disk (fst (save_and_return s r))) = file (disk s).
Proof.
  unfold save_and_return, saveTasks.
  destruct (writable (disk s)); cbn; [discriminate | reflexivity].
Qed.

Ltac each_branch :=
  repeat match goal with
         | |- context [match ?x with _ => _ end] => destruct x
         end.

(** X20.  Memory and file agree after every call that returns.  If the
    snapshot in memory is what a reload would give, it still is after any
    call that does not end in the exception of a refused write; a reload
    always restores the agreement; and a call that ends in that exception
    has left the file as it was. *)
Theorem memory_matches_file (c : Call) (s : TaskManagerServer) :
  (in_sync s -> snd (step c s) <> Thrown -> in_sync (fst (step c s)))
  /\ in_sync (fst (step Reload s))
  /\ (snd (step c s) = Thrown -> file (disk (fst (step c s))) = file (disk s)).
Proof.
  split; [| split].
  - intros S.
    destruct c; cbn [step];
      unfold handleProjectTool, handleTaskTool, createProject, getNextTask,
        markTaskDone, approveTaskCompletion, approveProjectCompletion,
        openTaskDetails, listProjects, addTasksToProject, updateTask,
        deleteTask, handleTaskTool_update, handleProjectTool_delete, newServer;
      cbv zeta; each_branch;
      first [ apply in_sync_saved
            | intros _; cbn [fst]; first [ apply in_sync_loaded | exact S ] ].
  - apply in_sync_loaded.
  - destruct c; cbn [step];
      unfold handleProjectTool, handleTaskTool, createProject, getNextTask,
        markTaskDone, approveTaskCompletion, approveProjectCompletion,
        openTaskDetails, listProjects, addTasksToProject, updateTask,
        deleteTask, handleTaskTool_update, handleProjectTool_delete;
      cbv zeta; each_branch;
      first [ discriminate
            | intros T; rewrite (thrown_saved _ _ T); cbn [disk with_data];
              rewrite ?loadTasks_disk; reflexivity ].
Qed.

Lemma memory_matches_file_witness :
  in_sync Scenario.started
  /\ in_sync (fst (step (MarkTaskDone "proj-1" "task-1" None) Scenario.started)).
Proof.
  split; [reflexivity |].
  apply (proj1 (memory_matches_file (MarkTaskDone "proj-1" "task-1" None)
                  Scenario.started)).
  - reflexivity.
  - discriminate.
Defined.

(* ------------------------------------------------------------------ *)
(** ** The text tables have one line per task, one line per project *)

Section Tables.
Import Format.

Lemma newlines_app (a b : string) :
  newlines (a ++ b) = (newlines a + newlines b)%nat.
Proof. induction a as [| c a IH]; cbn; [reflexivity | rewrite IH; lia]. Qed.

Lemma rows_unfold {A} (row : A -> string) (l : list A) :
  forall init,
    fold_left (fun acc x => (acc ++ row x)%string) l init
    = (init ++ fold_right (fun x r => (row x ++ r)%string) EmptyString l)%string.
Proof.
  induction l as [| x l IH]; cbn; intros init.
  - clear. induction init as [| c i IH]; cbn; [reflexivity | now rewrite <- IH].
  - now rewrite IH, string_app_assoc.
Qed.

Lemma rows_newlines {A} (row : A -> string) (l : list A) (init : string) :
  Forall (fun x => newlines (row x) = 1%nat) l ->
  newlines (fold_left (fun acc x => (acc ++ row x)%string) l init)
  = (newlines init + length l)%nat.
Proof.
  intros F. rewrite rows_unfold, newlines_app. f_equal.
  induction F as [| x l E F IH]; cbn [fold_right length]; [reflexivity |].
  rewrite newlines_app, E, IH. reflexivity.
Qed.

Lemma rows_occurs {A} (row : A -> string) (l : list A) (init : string) (x : A) :
  In x l -> occurs (row x) (fold_left (fun acc x => (acc ++ row x)%string) l init).
Proof.
  intros I. apply in_split in I. destruct I as (l1 & l2 & ->).
  rewrite rows_unfold. unfold occurs.
  exists (init ++ fold_right (fun x r => (row x ++ r)%string) EmptyString l1)%string,
         (fold_right (fun x r => (row x ++ r)%string) EmptyString l2).
  rewrite string_app_assoc. f_equal.
  induction l1 as [| y l1 IH]; cbn; [reflexivity |].
  now rewrite IH, string_app_assoc.
Qed.

Lemma task_row_newlines (t : Task) : plain_task t -> newlines (task_row t) = 1%nat.
Proof.
  intros (I & T & D). unfold task_row. rewrite !newlines_app, I, T, D.
  unfold status_cell, approval_cell.
  destruct (is_done t), (Status_eqb (status t) InProgress), (approved t); reflexivity.
Qed.

Lemma digit_char_plain_line (d : Z) :
  0 <= d < 10 -> Ascii.eqb (JS.digit_char d) (ascii_of_nat 10) = false.
Proof.
  intros H. pose proof (small_digit d H) as E.
  repeat (destruct E as [E | E]; [subst d; reflexivity |]). subst d; reflexivity.
Qed.

Lemma show_digits_newlines (f : nat) :
  forall n rest, newlines (JS.show_digits f n rest) = newlines rest.
Proof.
  induction f as [| f IH]; intros n rest; cbn [JS.show_digits]; [reflexivity |].
  assert (E : newlines (String (JS.digit_char (n mod 10)) rest) = newlines rest).
  { cbn [newlines]. rewrite digit_char_plain_line; [reflexivity |].
    apply Z.mod_pos_bound. lia. }
  destruct (n <? 10); [exact E | now rewrite IH].
Qed.

Lemma show_count_newlines (n : nat) : newlines (show_count n) = O.
Proof.
  unfold show_count, JS.showZ, JS.show_nonneg.
  destruct (Z.of_nat n <? 0); cbn [newlines]; now rewrite show_digits_newlines.
Qed.

Lemma high_byte_plain (x : Z) :
  0 <= x < 64 ->
  Ascii.eqb (ascii_of_nat (Z.to_nat (128 + x))) (ascii_of_nat 10) = false.
Proof.
  intros H. replace (Z.to_nat (128 + x)) with (128 + Z.to_nat x)%nat by lia.
  assert (L : (Z.to_nat x < 64)%nat) by lia. revert L.
  generalize (Z.to_nat x) as m. intros m L.
  do 64 (destruct m as [| m]; [reflexivity |]). lia.
Qed.

Lemma high_surrogate_newlines (x : string) : newlines (JS.high_surrogate x) = O.
Proof.
  unfold JS.high_surrogate.
  destruct x as [| b0 [| b1 [| b2 [| b3 r]]]]; try reflexivity.
  cbv zeta. cbn [newlines].
  rewrite !high_byte_plain by (apply Z.mod_pos_bound; lia). reflexivity.
Qed.

Lemma take16_newlines (x : string) :
  forall k, (newlines (JS.take16 k x) <= newlines x)%nat.
Proof.
  induction x as [| c x IH]; intros k; [cbn; lia |].
  cbn [JS.take16].
  destruct (JS.units c) as [| [| u]]; destruct k as [| [| k]]; cbn [newlines];
    rewrite ?high_surrogate_newlines;
    try match goal with
        | |- context [JS.take16 ?j x] => specialize (IH j)
        end;
    lia.
Qed.

Lemma take16_all (x : string) :
  forall k, (JS.length16 x <= k)%nat -> JS.take16 k x = x.
Proof.
  induction x as [| c x IH]; intros k H; [reflexivity |].
  cbn [JS.length16] in H. cbn [JS.take16].
  destruct (JS.units c) as [| [| u]]; destruct k as [| [| k]]; try lia;
    f_equal; apply IH; lia.
Qed.

Lemma prompt_cell_newlines (x : string) :
  newlines x = O -> newlines (prompt_cell x) = O.
Proof.
  intros H. unfold prompt_cell. rewrite newlines_app.
  pose proof (take16_newlines x 30) as S.
  destruct (Nat.ltb 30 (JS.length16 x));
    [change (newlines "...") with O | change (newlines "") with O]; lia.
Qed.

Lemma prompt_cell_short (x : string) :
  (JS.length16 x <= 30)%nat -> prompt_cell x = x.
Proof.
  intros H. unfold prompt_cell. rewrite take16_all by exact H.
  assert (Nat.ltb 30 (JS.length16 x) = false) as -> by (apply Nat.ltb_ge; exact H).
  apply append_empty.
Qed.

Lemma project_row_newlines (p : Project) :
  plain_project p -> newlines (project_row p) = 1%nat.
Proof.
  intros (I & P). unfold project_row.
  rewrite !newlines_app, I, !show_count_newlines, (prompt_cell_newlines _ P).
  reflexivity.
Qed.

End Tables.

(** X21.  The progress table of [formatTaskProgressTable]: for an unknown
    project the text is "Project not found"; for a project whose task
    identifiers, titles and descriptions hold no line break, the table has
    its four heading line ends followed by exactly one line per task, and
    the row of every task of the project occurs in it. *)
Theorem progress_table_rows (pid : string) (d : TaskManagerFile) :
  (find_project pid d = None ->
   Format.formatTaskProgressTable pid d = "Project not found"%string)
  /\ (forall proj,
        find_project pid d = Some proj ->
        (forall t, In t (tasks proj) ->
                   Format.occurs (Format.task_row t)
                     (Format.formatTaskProgressTable pid d))
        /\ (Forall Format.plain_task (tasks proj) ->
            Format.newlines (Format.formatTaskProgressTable pid d)
            = (4 + length (tasks proj))%nat)).
Proof.
  unfold Format.formatTaskProgressTable. split; [now intros -> |].
  intros proj ->. split.
  - intros t I. now apply rows_occurs.
  - intros P. rewrite rows_newlines; [reflexivity |].
    eapply Forall_impl; [| exact P]. intros t. apply task_row_newlines.
Qed.

Lemma progress_table_rows_witness :
  Format.newlines (Format.formatTaskProgressTable "proj-1" (data Scenario.second_started))
  = 6%nat.
Proof.
  refine (proj2 (proj2 (progress_table_rows "proj-1" (data Scenario.second_started))
                   (mkProject "proj-1" "demo" "demo"
                      [mkTask "task-1" "T1" "first" NotStarted false "";
                       mkTask "task-2" "T2" "second" InProgress false ""] false None)
                   eq_refl) _).
  repeat constructor.
Defined.

(** X22.  The projects list of [formatProjectsList]: the row of every
    project occurs in it; when no project identifier or prompt holds a
    line break, the text has its four heading line ends followed by
    exactly one line per project; and a prompt of at most 30 UTF-16 code
    units is shown in full. *)
Theorem projects_list_rows (d : TaskManagerFile) :
  (forall p, In p (projects d) ->
             Format.occurs (Format.project_row p) (Format.formatProjectsList d))
  /\ (Forall Format.plain_project (projects d) ->
      Format.newlines (Format.formatProjectsList d) = (4 + length (projects d))%nat)
  /\ (forall p, In p (projects d) ->
                (JS.length16 (initialPrompt p) <= 30)%nat ->
                Format.prompt_cell (initialPrompt p) = initialPrompt p).
Proof.
  unfold Format.formatProjectsList. split; [| split].
  - intros p I. now apply rows_occurs.
  - intros P. rewrite rows_newlines; [reflexivity |].
    eapply Forall_impl; [| exact P]. intros p. apply project_row_newlines.
  - intros p _ H. now apply prompt_cell_short.
Qed.

Lemma projects_list_rows_witness :
  Format.newlines (Format.formatProjectsList (data Scenario.second_started)) = 5%nat
  /\ Format.prompt_cell "demo" = "demo"%string.
Proof.
  split.
  - apply (proj1 (proj2 (projects_list_rows (data Scenario.second_started)))).
    repeat constructor.
  - refine (proj2 (proj2 (projects_list_rows (data Scenario.second_started)))
              (mkProject "proj-1" "demo" "demo"
                 [mkTask "task-1" "T1" "first" NotStarted false "";
                  mkTask "task-2" "T2" "second" InProgress false ""] false None)
              (or_introl eq_refl) _).
    vm_compute. repeat constructor.
Defined.
